(** * bluetool: the Bluetooth SPP / TCP bridge of [bluetool/blueserver.py]

    A shallow embedding of [SerialPort], [TCPServer] and [BluetoothServer]
    (Python 2) together with the statements checked against them.

    Python values are modelled as follows.
    - [str] (a byte string in Python 2) is [string].
    - Methods that touch the operating system, the D-Bus control plane or the
      Bluetooth collaborator are computations in the monad [py]: they thread
      a [world] (what the kernel and BlueZ know, what the peers are going to
      do, and the trace of calls made so far) and end in a value, in a Python
      exception, or blocked for ever inside a system call.
    - Python objects with mutable attributes ([TCPServer], [BluetoothServer])
      are records; a method that assigns to [self] returns the new record. *)

From Stdlib Require Import String Ascii List ZArith Lia Bool Arith.
Import ListNotations.
Open Scope string_scope.

(* ================================================================== *)
(** ** Python strings *)

Module PyStr.

(** Index normalisation of a slice bound, as CPython does for [s[i:j]]:
    a negative bound counts from the end, and the result is clamped to
    [0 .. len]. *)
Definition clamp_index (len i : Z) : Z :=
  if (i <? 0)%Z then Z.max 0 (i + len) else Z.min i len.

(** [s[i:j]] *)
Definition slice (s : string) (i j : Z) : string :=
  let len := Z.of_nat (String.length s) in
  let lo := clamp_index len i in
  let hi := clamp_index len j in
  if (lo <? hi)%Z
  then substring (Z.to_nat lo) (Z.to_nat (hi - lo)) s
  else EmptyString.

(** Left-to-right, non-overlapping replacement of a non-empty [old];
    [skip] counts the characters of a match still to be dropped. *)
Fixpoint replace_from (old new : string) (skip : nat) (s : string) : string :=
  match s with
  | EmptyString => EmptyString
  | String c rest =>
      match skip with
      | S k => replace_from old new k rest
      | O =>
          if prefix old s
          then new ++ replace_from old new (String.length old - 1) rest
          else String c (replace_from old new 0 rest)
      end
  end.

(** With an empty [old] Python puts [new] before every character and at
    the end. *)
Fixpoint interleave (new s : string) : string :=
  match s with
  | EmptyString => new
  | String c rest => new ++ String c (interleave new rest)
  end.

(** [s.replace(old, new)] *)
Definition replace (old new s : string) : string :=
  match old with
  | EmptyString => interleave new s
  | String _ _ => replace_from old new 0 s
  end.

(** Character-wise view of [replace] for one-character arguments. *)
Fixpoint subst_char (a b : ascii) (s : string) : string :=
  match s with
  | EmptyString => EmptyString
  | String c rest =>
      String (if Ascii.eqb c a then b else c) (subst_char a b rest)
  end.

End PyStr.

(** Lines 116-118 of [NewConnection]:
    [address = str(path); address = address[len(address)-17:len(address)];
     address = address.replace("_", ":")]. *)
Definition derive_address (path : string) : string :=
  let address := path in
  let n := Z.of_nat (String.length address) in
  let address := PyStr.slice address (n - 17) n in
  PyStr.replace "_" ":" address.

(** The last six octets of a BlueZ device path, written with separator
    [sep]. *)
Definition octets (sep : ascii)
    (a1 a2 b1 b2 c1 c2 d1 d2 e1 e2 f1 f2 : ascii) : string :=
  String a1 (String a2 (String sep
  (String b1 (String b2 (String sep
  (String c1 (String c2 (String sep
  (String d1 (String d2 (String sep
  (String e1 (String e2 (String sep
  (String f1 (String f2 EmptyString)))))))))))))))).

(* ================================================================== *)
(** ** Exceptions, events and the world *)

(** The Python exceptions that occur in [blueserver.py].  In Python 2.6 and
    later [socket.error] is a subclass of [IOError]. *)
Inductive exn : Type :=
| SocketError (errno : string)          (* socket.error *)
| DBusException (name : string)         (* dbus.exceptions.DBusException *)
| BluezUtilError (msg : string)         (* bluezutils.BluezUtilError *)
| TCPConnectionError (msg : string)     (* line 45 *)
| TCPServerError (msg : string)         (* line 48 *)
| AttributeError (msg : string)         (* attribute access on None *)
| OverflowError.                        (* a port that is no port number; its
                                           text is never read *)

Definition is_IOError (e : exn) : bool :=
  match e with SocketError _ => true | _ => false end.

Definition is_socket_error (e : exn) : bool :=
  match e with SocketError _ => true | _ => false end.

Definition is_DBusException (e : exn) : bool :=
  match e with DBusException _ => true | _ => false end.

Definition is_TCPConnectionError (e : exn) : bool :=
  match e with TCPConnectionError _ => true | _ => false end.

Definition is_TCPServerError (e : exn) : bool :=
  match e with TCPServerError _ => true | _ => false end.

(** A socket object is known by the number of its kernel descriptor. *)
Definition sock := nat.

(** Peer of an accepted TCP connection: host and port. *)
Definition peer_info : Type := (string * Z)%type.

(** What a [print] statement writes, item by item. *)
Inductive printed : Type :=
| PStr (s : string)
| PExn (e : exn)
| PPeer (p : peer_info).

(** The [opts] dictionary of [SerialPort] (lines 22-26). *)
Record profile_opts : Type := mkOpts {
  Name : string;
  Channel : Z;
  AutoConnect : bool
}.

(** Calls that leave the Python process, in the order they are made. *)
Inductive event : Type :=
| EvPrint (item : printed)
| EvRegisterProfile (path uuid : string) (opts : profile_opts)
| EvUnregisterProfile (path : string)
| EvSocket (s : sock)
| EvSetReuseAddr (s : sock)
| EvBind (s : sock) (host : string) (port : Z)
| EvListen (s : sock) (backlog : Z)
| EvAccept (s client : sock)
| EvFdTake
| EvFromFd (s : sock)
| EvSetBlocking (s : sock)
| EvRecv (s : sock) (bufsize : Z)
| EvSend (s : sock) (data : string)          (* a send the peer took *)
| EvSendFailed (s : sock) (data : string)    (* a send that raised *)
| EvClose (s : sock)
| EvBluetoothNew
| EvDisconnect (address : string)
| EvMainloopQuit
| EvProcessStart (pid : nat)
| EvProcessTerminate (pid : nat)
| EvProcessJoin (pid : nat).

(** What [accept] on the listening socket is going to do. *)
Inductive accept_outcome : Type :=
| AcceptPeer (p : peer_info)     (* a TCP client connects *)
| AcceptFails (errno : string)   (* accept raises socket.error *)
| AcceptNever.                   (* no client ever connects *)

(** The calls of [TCPServer.initialize] that the environment can refuse
    with a [socket.error]: [socket.socket] (no descriptor left), the
    [setsockopt], the lookup of the host name that [bind] makes before its
    system call (a [socket.gaierror], a subclass of [socket.error]), the
    [bind] system call for a reason other than a port in use (a privileged
    port), and [listen]. *)
Inductive os_call : Type :=
| SysSocket | SysSetsockopt | SysResolve | SysBind | SysListen.

(** What one [recv] on the client socket is going to do. *)
Inductive recv_outcome : Type :=
| RecvData (data : string)       (* empty: the orderly close *)
| RecvFails (errno : string).    (* recv raises socket.error *)

(** The environment of the program.
    - [os_fails]: for each call of [os_call], the error with which the
      environment refuses it, if it does.
    - [taken_ports]: the TCP ports on which another process has a live
      listening socket.
    - [bound]: the sockets of this process that are bound to a port, with
      the port.  The program sets SO_REUSEADDR before it binds, so only a
      live socket on the port, here or in another process, makes [bind]
      find the port in use.  A socket leaves the table when the program
      closes it; the release of a dropped socket object by the garbage
      collector is not part of the model.
    - [registered]: the profile paths BlueZ has on record for this D-Bus
      connection.
    - [bluez_refuses]: when [Some name], BlueZ rejects [RegisterProfile]
      with that error, whatever the arguments.
    - [client], [incoming], [bt_accepts], [handle_bad]: what the TCP client
      and the Bluetooth peer are going to do: the fate of [accept], the
      results of the successive [recv] calls, how many more [send] calls the
      Bluetooth link takes before it breaks ([None]: it never breaks), and
      whether wrapping the transport handle fails.
    - [find_adapter_fails]: [bluezutils.find_adapter], called by the
      constructor of [Bluetooth], is outside the modelled sources; its
      failure is a parameter of the world.  When it does not fail it is
      taken to have found an adapter, the one [disconnect] looks up at
      index 0.
    - [disconnect_result]: what [Bluetooth.disconnect] returns.
    - [next_fd], [next_pid]: fresh descriptors and process identifiers.
    - [trace]: the calls made so far, oldest first. *)
Record world : Type := mkWorld {
  os_fails : os_call -> option string;
  taken_ports : list Z;
  bound : list (sock * Z);
  registered : list string;
  bluez_refuses : option string;
  client : accept_outcome;
  incoming : list recv_outcome;
  bt_accepts : option nat;
  handle_bad : option string;
  find_adapter_fails : option exn;
  disconnect_result : bool;
  next_fd : sock;
  next_pid : nat;
  trace : list event
}.

Definition set_bound (b : list (sock * Z)) (w : world) : world :=
  mkWorld (os_fails w) (taken_ports w) b (registered w) (bluez_refuses w) (client w)
          (incoming w) (bt_accepts w) (handle_bad w) (find_adapter_fails w)
          (disconnect_result w) (next_fd w) (next_pid w) (trace w).

Definition set_registered (r : list string) (w : world) : world :=
  mkWorld (os_fails w) (taken_ports w) (bound w) r (bluez_refuses w) (client w)
          (incoming w) (bt_accepts w) (handle_bad w) (find_adapter_fails w)
          (disconnect_result w) (next_fd w) (next_pid w) (trace w).

Definition set_incoming (i : list recv_outcome) (w : world) : world :=
  mkWorld (os_fails w) (taken_ports w) (bound w) (registered w) (bluez_refuses w) (client w)
          i (bt_accepts w) (handle_bad w) (find_adapter_fails w)
          (disconnect_result w) (next_fd w) (next_pid w) (trace w).

Definition set_bt_accepts (k : option nat) (w : world) : world :=
  mkWorld (os_fails w) (taken_ports w) (bound w) (registered w) (bluez_refuses w) (client w)
          (incoming w) k (handle_bad w) (find_adapter_fails w)
          (disconnect_result w) (next_fd w) (next_pid w) (trace w).

Definition set_next_fd (n : sock) (w : world) : world :=
  mkWorld (os_fails w) (taken_ports w) (bound w) (registered w) (bluez_refuses w) (client w)
          (incoming w) (bt_accepts w) (handle_bad w) (find_adapter_fails w)
          (disconnect_result w) n (next_pid w) (trace w).

Definition set_next_pid (n : nat) (w : world) : world :=
  mkWorld (os_fails w) (taken_ports w) (bound w) (registered w) (bluez_refuses w) (client w)
          (incoming w) (bt_accepts w) (handle_bad w) (find_adapter_fails w)
          (disconnect_result w) (next_fd w) n (trace w).

(** Appends one call to the trace. *)
Definition log (e : event) (w : world) : world :=
  mkWorld (os_fails w) (taken_ports w) (bound w) (registered w) (bluez_refuses w) (client w)
          (incoming w) (bt_accepts w) (handle_bad w) (find_adapter_fails w)
          (disconnect_result w) (next_fd w) (next_pid w) (trace w ++ [e]).

(* ================================================================== *)
(** ** The monad of Python computations *)

Inductive outcome (A : Type) : Type :=
| Return (a : A)     (* normal completion *)
| Raise (e : exn)    (* an exception leaves the computation *)
| Blocked.           (* stuck for ever in a blocking system call *)

Arguments Return {A} a.
Arguments Raise {A} e.
Arguments Blocked {A}.

Definition py (A : Type) : Type := world -> outcome A * world.

Definition ret {A} (a : A) : py A := fun w => (Return a, w).

Definition raise {A} (e : exn) : py A := fun w => (Raise e, w).

Definition block {A} : py A := fun w => (Blocked, w).

Definition bind {A B} (m : py A) (k : A -> py B) : py B :=
  fun w =>
    match m w with
    | (Return a, w') => k a w'
    | (Raise e, w') => (Raise e, w')
    | (Blocked, w') => (Blocked, w')
    end.

Notation "x <- m ;; k" := (bind m (fun x => k))
  (at level 61, m at next level, right associativity).
Notation "' pat <- m ;; k" := (bind m (fun x => match x with pat => k end))
  (at level 61, pat pattern, m at next level, right associativity).
Notation "m ;; k" := (bind m (fun _ => k))
  (at level 61, right associativity).

(** One [except C as error: handler] clause: the test for being an instance
    of [C], and the handler. *)
Definition clause (A : Type) : Type := ((exn -> bool) * (exn -> py A))%type.

(** The first clause whose class matches the exception, as Python selects
    it. *)
Fixpoint select_handler {A} (clauses : list (clause A)) (e : exn)
    : option (py A) :=
  match clauses with
  | [] => None
  | (catches, handler) :: rest =>
      if catches e then Some (handler e) else select_handler rest e
  end.

(** [try: body except ...: ...].  An exception raised by a handler is not
    offered to the sibling clauses. *)
Definition try_except {A} (body : py A) (clauses : list (clause A)) : py A :=
  fun w =>
    match body w with
    | (Raise e, w') =>
        match select_handler clauses e with
        | Some h => h w'
        | None => (Raise e, w')
        end
    | r => r
    end.

Definition get {A} (f : world -> A) : py A := fun w => (Return (f w), w).

Definition modify (f : world -> world) : py unit := fun w => (Return tt, f w).

Definition emit (e : event) : py unit := modify (log e).

(** [print item] *)
Definition print (item : printed) : py unit := emit (EvPrint item).

(* ================================================================== *)
(** ** The calls into the kernel, BlueZ and the collaborator *)

Module Os.

(** Is there a live socket on [port], in this or in another process? *)
Definition port_in_use (port : Z) (w : world) : bool :=
  existsb (Z.eqb port) (taken_ports w)
  || existsb (fun b => Z.eqb port (snd b)) (bound w).

(** The environment refuses call [c], or lets it through. *)
Definition refused (c : os_call) : py unit :=
  refusal <- get (fun w => os_fails w c) ;;
  match refusal with
  | Some errno => raise (SocketError errno)
  | None => ret tt
  end.

(** A port number that the socket module can hand to the kernel: a C [int]
    at all, and one between 0 and 65535. *)
Definition fits_c_int (port : Z) : bool :=
  (-2147483648 <=? port)%Z && (port <=? 2147483647)%Z.

Definition valid_port (port : Z) : bool :=
  (0 <=? port)%Z && (port <=? 65535)%Z.

(** The first port from [p] on, among [fuel] of them, that [in_use] does not
    hold. *)
Fixpoint lowest_free (fuel : nat) (in_use : Z -> bool) (p : Z) : option Z :=
  match fuel with
  | O => None
  | S fuel' =>
      if in_use p then lowest_free fuel' in_use (p + 1)%Z else Some p
  end.

(** A bind to port 0 asks the kernel for a port of its own choice: a free
    one of the ephemeral range, 32768 to 60999 on Linux, and none when the
    whole range is in use.  Which free port it is the kernel does not
    promise; the model takes the lowest. *)
Definition ephemeral_port (w : world) : option Z :=
  lowest_free (Z.to_nat 28232) (fun p => port_in_use p w) 32768%Z.

(** The port that a bind to [port] puts the socket on, if there is one. *)
Definition local_port (port : Z) (w : world) : option Z :=
  if (port =? 0)%Z then ephemeral_port w
  else if port_in_use port w then None else Some port.

(** [socket.socket(AF_INET, SOCK_STREAM)] *)
Definition socket : py sock :=
  refused SysSocket ;;
  fun w =>
    let s := next_fd w in
    (Return s, log (EvSocket s) (set_next_fd (S s) w)).

(** [s.setsockopt(SOL_SOCKET, SO_REUSEADDR, 1)] *)
Definition setsockopt_reuseaddr (s : sock) : py unit :=
  emit (EvSetReuseAddr s) ;;
  refused SysSetsockopt.

(** [s.bind((host, port))].  The socket module converts the address before
    it calls the kernel (getsockaddrarg in socketmodule.c): a port that is
    no C [int] raises [OverflowError]; then the host name is looked up;
    then a port outside 0..65535 raises [OverflowError].  [OverflowError]
    is no [socket.error].  Only then is the system call made. *)
Definition bind_ (s : sock) (addr : string * Z) : py unit :=
  let port := snd addr in
  (if fits_c_int port then ret tt else raise OverflowError) ;;
  refused SysResolve ;;
  (if valid_port port then ret tt else raise OverflowError) ;;
  emit (EvBind s (fst addr) port) ;;
  refused SysBind ;;
  granted <- get (local_port port) ;;
  match granted with
  | None => raise (SocketError "EADDRINUSE")
  | Some p => modify (fun w => set_bound ((s, p) :: bound w) w)
  end.

(** [s.listen(backlog)] *)
Definition listen (s : sock) (backlog : Z) : py unit :=
  emit (EvListen s backlog) ;;
  refused SysListen.

(** [s.accept()]: blocks until a client connects. *)
Definition accept (s : sock) : py (sock * peer_info) := fun w =>
  match client w with
  | AcceptPeer p =>
      let c := next_fd w in
      (Return (c, p), log (EvAccept s c) (set_next_fd (S c) w))
  | AcceptFails errno => (Raise (SocketError errno), w)
  | AcceptNever => (Blocked, w)
  end.

(** [socket.fromfd(fd.take(), AF_UNIX, SOCK_STREAM)]: the handle gives up
    its descriptor, which [fromfd] duplicates into a new socket object. *)
Definition fromfd_take (fd : nat) : py sock :=
  emit EvFdTake ;;
  bad <- get handle_bad ;;
  match bad with
  | Some errno => raise (SocketError errno)
  | None => fun w =>
      let s := next_fd w in
      (Return s, log (EvFromFd s) (set_next_fd (S s) w))
  end.

(** [s.setblocking(1)] *)
Definition setblocking (s : sock) : py unit := emit (EvSetBlocking s).

(** [s.recv(bufsize)] on the accepted TCP socket: blocks until the client
    sends, closes or the connection breaks. *)
Definition recv (s : sock) (bufsize : Z) : py string :=
  emit (EvRecv s bufsize) ;;
  pending <- get incoming ;;
  match pending with
  | [] => block
  | RecvData data :: rest => modify (set_incoming rest) ;; ret data
  | RecvFails errno :: rest =>
      modify (set_incoming rest) ;; raise (SocketError errno)
  end.

(** [s.send(data)] on the Bluetooth socket; the result is the number of
    bytes taken. *)
Definition send (s : sock) (data : string) : py Z :=
  budget <- get bt_accepts ;;
  match budget with
  | Some O => emit (EvSendFailed s data) ;; raise (SocketError "ECONNRESET")
  | Some (S k) =>
      modify (set_bt_accepts (Some k)) ;; emit (EvSend s data) ;;
      ret (Z.of_nat (String.length data))
  | None => emit (EvSend s data) ;; ret (Z.of_nat (String.length data))
  end.

(** [s.close()].  In Python 2 the method of a socket object swaps in a
    closed placeholder and cannot raise; the kernel forgets the socket. *)
Definition close (s : sock) : py unit :=
  emit (EvClose s) ;;
  modify (fun w =>
    set_bound (filter (fun b => negb (Nat.eqb (fst b) s)) (bound w)) w).

End Os.

Module Bluez.

Definition has (path : string) (l : list string) : bool :=
  existsb (String.eqb path) l.

(** [manager.RegisterProfile(path, uuid, opts)] *)
Definition RegisterProfile (path uuid : string) (opts : profile_opts)
    : py unit :=
  emit (EvRegisterProfile path uuid opts) ;;
  refusal <- get bluez_refuses ;;
  match refusal with
  | Some name => raise (DBusException name)
  | None =>
      known <- get registered ;;
      if has path known
      then raise (DBusException "org.bluez.Error.AlreadyExists")
      else modify (set_registered (path :: known))
  end.

(** [manager.UnregisterProfile(path)] *)
Definition UnregisterProfile (path : string) : py unit :=
  emit (EvUnregisterProfile path) ;;
  known <- get registered ;;
  if has path known
  then modify (set_registered
                 (filter (fun p => negb (String.eqb path p)) known))
  else raise (DBusException "org.bluez.Error.DoesNotExist").

End Bluez.

Module Proc.

(** [multiprocessing.Process(target=...)] *)
Definition Process : py nat := fun w =>
  (Return (next_pid w), set_next_pid (S (next_pid w)) w).

Definition start (pid : nat) : py unit := emit (EvProcessStart pid).
Definition terminate (pid : nat) : py unit := emit (EvProcessTerminate pid).
Definition join (pid : nat) : py unit := emit (EvProcessJoin pid).

(** [mainloop.quit()] *)
Definition mainloop_quit : py unit := emit EvMainloopQuit.

End Proc.

(** The collaborator of [bluetool.py]. *)
Module Bluetooth.

(** [Bluetooth()]: the constructor looks the adapters up. *)
Definition new : py unit :=
  emit EvBluetoothNew ;;
  failure <- get find_adapter_fails ;;
  match failure with
  | Some e => raise e
  | None => ret tt
  end.

(** [disconnect(address)] (lines 240-256 of [bluetool.py]): with an adapter
    at index 0 both of its [try] blocks turn an error into [False], and the
    call returns a boolean. *)
Definition disconnect (address : string) : py bool :=
  emit (EvDisconnect address) ;;
  get disconnect_result.

End Bluetooth.

(* ================================================================== *)
(** ** class SerialPort (lines 13-43) *)

Module SerialPort.

Record t : Type := mk {
  profile_path : string;
  uuid : string;
  opts : profile_opts
}.

(** [__init__(self, channel=1)]: the attributes it sets. *)
Definition init (channel : Z) : t :=
  mk "/org/bluez/myprofile" "1101" (mkOpts "Reach SPP" channel false).

(** [initialize(self)] *)
Definition initialize (self : t) : py bool :=
  try_except
    (Bluez.RegisterProfile (profile_path self) (uuid self) (opts self) ;;
     ret true)
    [(is_DBusException, fun error => print (PExn error) ;; ret false)].

(** [deinitialize(self)] *)
Definition deinitialize (self : t) : py unit :=
  try_except
    (Bluez.UnregisterProfile (profile_path self))
    [(is_DBusException, fun _ => ret tt)].

End SerialPort.

(* ================================================================== *)
(** ** class TCPServer (lines 51-83) *)

Module TCPServer.

Record t : Type := mk {
  server_socket : option sock;
  client_socket : option sock;
  address : string * Z;
  buffer_size : Z
}.

(** [__init__(self, tcp_port, buffer_size=1024)] *)
Definition init (tcp_port : Z) : t :=
  mk None None ("localhost", tcp_port) 1024.

Definition set_server_socket (self : t) (s : sock) : t :=
  mk (Some s) (client_socket self) (address self) (buffer_size self).

Definition set_client_socket (self : t) (c : sock) : t :=
  mk (server_socket self) (Some c) (address self) (buffer_size self).

Definition none_has_no (attr : string) : exn :=
  AttributeError ("'NoneType' object has no attribute '" ++ attr ++ "'").

(** The clause [except socket.error as error] of [initialize] (lines
    65-67), returning the object as the failure found it. *)
Definition initialize_failed (self : t) : clause (bool * t) :=
  (is_socket_error, fun error => print (PExn error) ;; ret (false, self)).

(** [initialize(self)]: the result and the object as the call leaves it.
    The one [try] statement of lines 60-67 is written in two layers, because
    the object that its handler leaves depends on where the failure came:
    when [socket.socket] itself raises, line 61 has assigned nothing; after
    that, [self.server_socket] holds the new socket. *)
Definition initialize (self : t) : py (bool * t) :=
  try_except
    (s <- Os.socket ;;
     let self := set_server_socket self s in
     try_except
       (Os.setsockopt_reuseaddr s ;;
        Os.bind_ s (address self) ;;
        Os.listen s 5 ;;
        ret (true, self))
       [initialize_failed self])
    [initialize_failed self].

(** [accept_connection(self)] *)
Definition accept_connection (self : t) : py (peer_info * t) :=
  match server_socket self with
  | None => raise (none_has_no "accept")
  | Some s =>
      '(c, client_info) <- Os.accept s ;;
      ret (client_info, set_client_socket self c)
  end.

(** [kill_connection(self)] *)
Definition kill_connection (self : t) : py unit :=
  match client_socket self with
  | None => raise (none_has_no "close")
  | Some c =>
      Os.close c ;;
      match server_socket self with
      | None => raise (none_has_no "close")
      | Some s => Os.close s
      end
  end.

(** [read(self)] *)
Definition read (self : t) : py string :=
  match client_socket self with
  | None => raise (none_has_no "recv")
  | Some c => Os.recv c (buffer_size self)
  end.

End TCPServer.

(* ================================================================== *)
(** ** class BluetoothServer (lines 85-150) *)

Module BluetoothServer.

Record t : Type := mk {
  spp : SerialPort.t;
  tcp_port : Z;
  server_process : option nat
}.

(** [__init__(self, tcp_port=8043, channel=1)] *)
Definition init (tcp_port channel : Z) : t :=
  mk (SerialPort.init channel) tcp_port None.

Definition set_server_process (self : t) (p : option nat) : t :=
  mk (spp self) (tcp_port self) p.

(** [run(self)]: the result and the object as the call leaves it. *)
Definition run (self : t) : py (bool * t) :=
  ok <- SerialPort.initialize (spp self) ;;
  if negb ok
  then ret (false, self)
  else
    pid <- Proc.Process ;;
    let self := set_server_process self (Some pid) in
    Proc.start pid ;;
    ret (true, self).

(** [quit(self)]: the object as the call leaves it. *)
Definition quit (self : t) : py t :=
  self <- match server_process self with
          | Some pid =>
              Proc.mainloop_quit ;;
              Proc.terminate pid ;;
              Proc.join pid ;;
              ret (set_server_process self None)
          | None => ret self
          end ;;
  SerialPort.deinitialize (spp self) ;;
  ret self.

(** One turn of the [while True] loop (lines 135-138). *)
Definition relay_step (tcp_server : TCPServer.t) (server_sock : sock)
    : py unit :=
  data <- TCPServer.read tcp_server ;;
  if String.eqb data EmptyString
  then raise (TCPConnectionError "External connection shutdown")
  else Os.send server_sock data ;; ret tt.

(** [while True: ...] unrolled [fuel] times. *)
Fixpoint relay_loop (fuel : nat) (tcp_server : TCPServer.t)
    (server_sock : sock) : py unit :=
  match fuel with
  | O => block
  | S fuel' =>
      relay_step tcp_server server_sock ;;
      relay_loop fuel' tcp_server server_sock
  end.

(** The loop itself.  Every turn consumes one pending [recv] result and
    a [recv] with none pending blocks, so one turn more than there are
    pending results is all the loop can make. *)
Definition relay (tcp_server : TCPServer.t) (server_sock : sock) : py unit :=
  fun w => relay_loop (S (List.length (incoming w))) tcp_server server_sock w.

(** [NewConnection(self, path, fd, properties)] *)
Definition NewConnection (self : t) (path : string) (fd : nat)
    (properties : list (string * string)) : py unit :=
  let address := derive_address path in
  print (PStr "Connected:") ;;
  print (PStr address) ;;
  try_except
    (let tcp_server := TCPServer.init (tcp_port self) in
     '(started, tcp_server) <- TCPServer.initialize tcp_server ;;
     (if negb started
      then raise (TCPServerError "TCP server did not start")
      else ret tt) ;;
     print (PStr "Waiting for TCPClient...") ;;
     print (PStr "Connected:") ;;
     '(client_info, tcp_server) <- TCPServer.accept_connection tcp_server ;;
     print (PPeer client_info) ;;
     server_sock <- Os.fromfd_take fd ;;
     Os.setblocking server_sock ;;
     try_except
       (relay tcp_server server_sock)
       [(is_IOError, fun error =>
           print (PStr "Abort connection by user from bluetooth device"));
        (is_TCPConnectionError, fun error => print (PExn error))] ;;
     Os.close server_sock ;;
     TCPServer.kill_connection tcp_server)
    [(is_TCPServerError, fun error => print (PExn error))] ;;
  Bluetooth.new ;;
  _ <- Bluetooth.disconnect address ;;
  ret tt.

End BluetoothServer.

(* ================================================================== *)
(** ** Reading a trace *)

(** The chunks passed to [send] on socket [s] and taken by the peer. *)
Fixpoint sent_to (s : sock) (tr : list event) : list string :=
  match tr with
  | [] => []
  | EvSend s' data :: rest =>
      if Nat.eqb s s' then data :: sent_to s rest else sent_to s rest
  | _ :: rest => sent_to s rest
  end.

(** How many times socket [s] was closed. *)
Fixpoint closes_of (s : sock) (tr : list event) : nat :=
  match tr with
  | [] => 0
  | EvClose s' :: rest =>
      if Nat.eqb s s' then S (closes_of s rest) else closes_of s rest
  | _ :: rest => closes_of s rest
  end.

(** The addresses [disconnect] was called with. *)
Fixpoint disconnects (tr : list event) : list string :=
  match tr with
  | [] => []
  | EvDisconnect a :: rest => a :: disconnects rest
  | _ :: rest => disconnects rest
  end.

(** Calls on the Bluetooth side of a session: the transport handle, the
    socket made from it, and the collaborator. *)
Definition is_bluetooth_event (e : event) : bool :=
  match e with
  | EvFdTake | EvFromFd _ | EvSetBlocking _ | EvSend _ _ | EvSendFailed _ _
  | EvBluetoothNew | EvDisconnect _ => true
  | _ => false
  end.

(** An environment that refuses none of the socket calls. *)
Definition no_failure : os_call -> option string := fun _ => None.

(** A concrete world: nothing bound, nothing registered, a TCP client that
    connects and sends what [script] says. *)
Definition quiet_world (script : list recv_outcome) : world :=
  mkWorld no_failure [] [] [] None (AcceptPeer ("127.0.0.1", 50000%Z)) script None None
          None true 3 100 [].

Definition server0 : BluetoothServer.t := BluetoothServer.init 8043 1.

(** Another process listens on port 8043. *)
Definition world_port_taken : world :=
  mkWorld no_failure [8043%Z] [] [] None (AcceptPeer ("127.0.0.1", 50000%Z)) [] None None
          None true 3 100 [].

(** [accept] is going to raise. *)
Definition world_accept_fails : world :=
  mkWorld no_failure [] [] [] None (AcceptFails "ECONNABORTED") [] None None
          None true 3 100 [].

(** The TCP client sends five chunks; the Bluetooth link breaks after it
    took three. *)
Definition world_peer_abort : world :=
  mkWorld no_failure [] [] [] None (AcceptPeer ("127.0.0.1", 50000%Z))
          [RecvData "one"; RecvData "two"; RecvData "three"; RecvData "four";
           RecvData "five"]
          (Some 3) None None true 3 100 [].

Definition path0 : string := "/org/bluez/hci0/dev_AA_BB_CC_DD_EE_FF".

(* ================================================================== *)
(** ** The relay loop, summarised *)

(** How the loop of [NewConnection] ends, given the accepted socket [c], the
    Bluetooth socket [b], the pending [recv] results and the number of sends
    the Bluetooth link still takes: the outcome, what is left of both, and
    the calls made.  [relay_summary] below shows that the loop does exactly
    this. *)
Record relay_end : Type := mkEnd {
  end_result : outcome unit;
  end_pending : list recv_outcome;
  end_budget : option nat;
  end_events : list event
}.

Fixpoint relay_run (c b : sock) (bufsize : Z) (pending : list recv_outcome)
    (budget : option nat) : relay_end :=
  match pending with
  | [] => mkEnd Blocked [] budget [EvRecv c bufsize]
  | RecvFails errno :: rest =>
      mkEnd (Raise (SocketError errno)) rest budget [EvRecv c bufsize]
  | RecvData data :: rest =>
      if String.eqb data EmptyString
      then mkEnd (Raise (TCPConnectionError "External connection shutdown"))
                 rest budget [EvRecv c bufsize]
      else
        let continue k :=
          let e := relay_run c b bufsize rest k in
          mkEnd (end_result e) (end_pending e) (end_budget e)
                (EvRecv c bufsize :: EvSend b data :: end_events e) in
        match budget with
        | Some O =>
            mkEnd (Raise (SocketError "ECONNRESET")) rest budget
                  [EvRecv c bufsize; EvSendFailed b data]
        | Some (S k) => continue (Some k)
        | None => continue None
        end
  end.

(** The calls of the loop are reads and sends only. *)
Definition is_relay_event (e : event) : bool :=
  match e with
  | EvRecv _ _ | EvSend _ _ | EvSendFailed _ _ => true
  | _ => false
  end.

(** The calls of a loop that forwards [chunks]. *)
Definition forwarding (c b : sock) (bufsize : Z) (chunks : list string)
    : list event :=
  flat_map (fun d => [EvRecv c bufsize; EvSend b d]) chunks.

(** What the handlers of the inner [try] print for an outcome of the loop
    (lines 139-142). *)
Definition relay_report (r : outcome unit) : list event :=
  match r with
  | Raise (SocketError _) =>
      [EvPrint (PStr "Abort connection by user from bluetooth device")]
  | Raise (TCPConnectionError msg) => [EvPrint (PExn (TCPConnectionError msg))]
  | _ => []
  end.

(** The calls of lines 120-131, for listening socket [l], accepted socket
    [c] and Bluetooth socket [b]. *)
Definition opening_events (address : string) (port : Z) (l c b : sock)
    (peer : peer_info) : list event :=
  [EvPrint (PStr "Connected:"); EvPrint (PStr address);
   EvSocket l; EvSetReuseAddr l; EvBind l "localhost" port; EvListen l 5;
   EvPrint (PStr "Waiting for TCPClient..."); EvPrint (PStr "Connected:");
   EvAccept l c; EvPrint (PPeer peer);
   EvFdTake; EvFromFd b; EvSetBlocking b].

(** The calls of lines 144-150. *)
Definition closing_events (address : string) (l c b : sock)
    (adapter : option exn) : list event :=
  [EvClose b; EvClose c; EvClose l; EvBluetoothNew]
  ++ match adapter with None => [EvDisconnect address] | Some _ => [] end.

(** The sockets of this process still bound once [b], [c] and [l] are
    closed. *)
Definition after_closes (l c b : sock) (bnd : list (sock * Z))
    : list (sock * Z) :=
  filter (fun x => negb (Nat.eqb (fst x) l))
    (filter (fun x => negb (Nat.eqb (fst x) c))
       (filter (fun x => negb (Nat.eqb (fst x) b)) bnd)).

(** The world once socket [s] is closed. *)
Definition closed (s : sock) (w : world) : world :=
  set_bound (filter (fun b => negb (Nat.eqb (fst b) s)) (bound w))
            (log (EvClose s) w).

(** The calls that set a listening socket up. *)
Definition is_listener_event (e : event) : bool :=
  match e with
  | EvSocket _ | EvSetReuseAddr _ | EvBind _ _ _ | EvListen _ _ => true
  | _ => false
  end.

(** How [initialize] on a fresh [TCPServer] for [port] ends in world [w]:
    the outcome, the local port its socket is bound to when the bind went
    through, whether a socket was made, and the calls.  [initialize_summary]
    below shows that [initialize] does exactly this. *)
Record listener_end : Type := mkListener {
  listener_result : outcome (bool * TCPServer.t);
  listener_port : option Z;
  listener_made : bool;
  listener_events : list event
}.

Definition listener_run (port : Z) (w : world) : listener_end :=
  let fresh := TCPServer.init port in
  let l := next_fd w in
  let self := TCPServer.set_server_socket fresh l in
  let report errno := [EvPrint (PExn (SocketError errno))] in
  let made := [EvSocket l; EvSetReuseAddr l] in
  let bind := [EvSocket l; EvSetReuseAddr l; EvBind l "localhost" port] in
  let no t events := mkListener (Return (false, t)) None true events in
  match os_fails w SysSocket with
  | Some errno => mkListener (Return (false, fresh)) None false (report errno)
  | None =>
  match os_fails w SysSetsockopt with
  | Some errno => no self (made ++ report errno)%list
  | None =>
  if negb (Os.fits_c_int port)
  then mkListener (Raise OverflowError) None true made
  else
  match os_fails w SysResolve with
  | Some errno => no self (made ++ report errno)%list
  | None =>
  if negb (Os.valid_port port)
  then mkListener (Raise OverflowError) None true made
  else
  match os_fails w SysBind with
  | Some errno => no self (bind ++ report errno)%list
  | None =>
  match Os.local_port port w with
  | None => no self (bind ++ report "EADDRINUSE")%list
  | Some p =>
      match os_fails w SysListen with
      | Some errno =>
          mkListener (Return (false, self)) (Some p) true
                     (bind ++ EvListen l 5 :: report errno)%list
      | None =>
          mkListener (Return (true, self)) (Some p) true
                     (bind ++ [EvListen l 5])%list
      end
  end end end end end.

(** The world that such a run leaves. *)
Definition listener_world (port : Z) (w : world) : world :=
  let e := listener_run port w in
  mkWorld (os_fails w) (taken_ports w)
          match listener_port e with
          | Some p => (next_fd w, p) :: bound w
          | None => bound w
          end
          (registered w) (bluez_refuses w) (client w) (incoming w)
          (bt_accepts w) (handle_bad w) (find_adapter_fails w)
          (disconnect_result w)
          (if listener_made e then S (next_fd w) else next_fd w)
          (next_pid w) (trace w ++ listener_events e)%list.

(** A world in which a fresh [TCPServer] for [port] gets to listen, on
    local port [p]: the environment refuses none of the socket calls, [port]
    is a port number, and the bind finds [p] free: [port] itself, or for
    port 0 the port the kernel picks. *)
Definition listens (port : Z) (w : world) (p : Z) : Prop :=
  (forall c, os_fails w c = None)
  /\ (0 <= port <= 65535)%Z
  /\ Os.local_port port w = Some p.

(** A world in which a session gets as far as the relay loop: the listener
    binds, a TCP client connects and the transport handle can be wrapped. *)
Definition session_opens (port : Z) (w : world) : Prop :=
  (exists p, listens port w p)
  /\ (exists peer, client w = AcceptPeer peer)
  /\ handle_bad w = None.

(* ================================================================== *)
(** ** What a relay loop can deliver *)

(** The non-empty chunks at the head of the pending [recv] results, up to
    the first empty read or failed read. *)
Fixpoint leading_chunks (pending : list recv_outcome) : list string :=
  match pending with
  | RecvData data :: rest =>
      if String.eqb data EmptyString then [] else data :: leading_chunks rest
  | _ => []
  end.

(** The first chunks of [chunks] that a link with the given budget of sends
    takes. *)
Definition within_budget (budget : option nat) (chunks : list string)
    : list string :=
  match budget with
  | Some k => firstn k chunks
  | None => chunks
  end.

(* ================================================================== *)
(** ** class Bluetooth of [bluetool.py] *)

(** The methods of [Bluetooth] talk to BlueZ over D-Bus only.  They are
    computations over a [bus]: what BlueZ is going to answer, and the calls
    made so far.
    - [managed n]: the answer to the [n]-th call of [GetManagedObjects]
      (counting from 0): a dictionary from object path to interfaces, each
      with its dictionary of properties, in iteration order.  Of the
      properties of a device only the string-valued ones are kept ([Address]
      and [Name] are strings in the BlueZ API, and the code reads no other
      key).
    - [property path iface prop]: the answer to [Properties.Get].
    - [device_of adapter address]: the result of [bluezutils.find_device],
      which is outside the modelled sources: the object path of the device,
      or the error it raises.
    - [rejects call]: the D-Bus error, if any, that a method call or a
      [Properties.Set] is answered with.
    - [calls]: the D-Bus calls, lookups, log records and callbacks so far,
      oldest first. *)
Module Bluetool.

(** Exceptions that can occur in these methods. *)
Inductive pyerr : Type :=
| Known (e : exn)               (* DBusException, BluezUtilError,
                                   OverflowError *)
| IndexError (msg : string)
| ValueError (msg : string).

(** [except dbus.exceptions.DBusException] *)
Definition is_DBus (e : pyerr) : bool :=
  match e with Known (DBusException _) => true | _ => false end.

(** [except (bluezutils.BluezUtilError, dbus.exceptions.DBusException)] *)
Definition is_Bluez_or_DBus (e : pyerr) : bool :=
  match e with
  | Known (DBusException _) | Known (BluezUtilError _) => true
  | _ => false
  end.

Inductive result (A : Type) : Type :=
| Ok (a : A)
| Fail (e : pyerr).

Arguments Ok {A} a.
Arguments Fail {A} e.

(** A D-Bus value. *)
Inductive variant : Type :=
| VString (s : string)
| VBoolean (b : bool)
| VInt (n : Z).

(** The truth value Python gives it in an [if]. *)
Definition truthy (v : variant) : bool :=
  match v with
  | VString s => negb (String.eqb s EmptyString)
  | VBoolean b => b
  | VInt n => negb (Z.eqb n 0)
  end.

Inductive level : Type := Debug | Info | Error.

Inductive call : Type :=
| GetManagedObjects
| Get (path iface prop : string)
| Set_ (path iface prop : string) (value : variant)
| Invoke (path method : string)
| FindDevice (adapter address : string)
| Log (lvl : level)
| Callback (result : bool)
| Sleep (seconds : Z).

Definition properties : Type := list (string * string).
Definition interfaces : Type := list (string * properties).
Definition managed_objects : Type := list (string * interfaces).

(** The answer to a D-Bus call: a value, or the name of the D-Bus error
    that the binding raises as a [DBusException]. *)
Definition answer (A : Type) : Type := (A + string)%type.

Definition received {A} (a : answer A) : result A :=
  match a with
  | inl v => Ok v
  | inr name => Fail (Known (DBusException name))
  end.

Record bus : Type := mkBus {
  managed : nat -> answer managed_objects;
  enumerations : nat;
  property : string -> string -> string -> answer variant;
  device_of : string -> string -> result string;
  rejects : call -> option string;
  calls : list call
}.

Definition bt (A : Type) : Type := bus -> result A * bus.

Definition pure {A} (a : A) : bt A := fun b => (Ok a, b).

Definition throw {A} (e : pyerr) : bt A := fun b => (Fail e, b).

Definition and_then {A B} (m : bt A) (k : A -> bt B) : bt B :=
  fun b =>
    match m b with
    | (Ok a, b') => k a b'
    | (Fail e, b') => (Fail e, b')
    end.

Notation "x <~ m ; k" := (and_then m (fun x => k))
  (at level 61, m at next level, right associativity).

(** [try: body except C: handler], the handler leaving the method, followed
    by [rest] when the body went through. *)
Definition try_or_return {A B} (body : bt A) (catches : pyerr -> bool)
    (handler : pyerr -> bt B) (rest : A -> bt B) : bt B :=
  fun b =>
    match body b with
    | (Ok a, b') => rest a b'
    | (Fail e, b') => if catches e then handler e b' else (Fail e, b')
    end.

Definition record (c : call) (b : bus) : bus :=
  mkBus (managed b) (enumerations b) (property b) (device_of b) (rejects b)
        (calls b ++ [c])%list.

Definition note (c : call) : bt unit := fun b => (Ok tt, record c b).

(** [logger.debug], [logger.info], [logger.error] *)
Definition logger (lvl : level) : bt unit := note (Log lvl).

(** [man.GetManagedObjects()] *)
Definition get_managed_objects : bt managed_objects := fun b =>
  (received (managed b (enumerations b)),
   mkBus (managed b) (S (enumerations b)) (property b) (device_of b)
         (rejects b) (calls b ++ [GetManagedObjects])%list).

(** [props.Get(iface, prop)] on the object at [path] *)
Definition props_Get (path iface prop : string) : bt variant := fun b =>
  (received (property b path iface prop), record (Get path iface prop) b).

(** A call that BlueZ may reject. *)
Definition request (c : call) : bt unit := fun b =>
  match rejects b c with
  | Some name => (Fail (Known (DBusException name)), record c b)
  | None => (Ok tt, record c b)
  end.

(** [props.Set(iface, prop, value)] *)
Definition props_Set (path iface prop : string) (value : variant) : bt unit :=
  request (Set_ path iface prop value).

(** [device.Pair()], [device.Connect()], [device.Disconnect()] *)
Definition invoke (path method : string) : bt unit :=
  request (Invoke path method).

(** [bluezutils.find_device(adapter, address)] *)
Definition find_device (adapter address : string) : bt string := fun b =>
  (device_of b adapter address, record (FindDevice adapter address) b).

(** [l[i]] on a list. *)
Definition list_index {A} (l : list A) (i : Z) : result A :=
  let n := Z.of_nat (List.length l) in
  let j := if (i <? 0)%Z then (i + n)%Z else i in
  if ((0 <=? j)%Z && (j <? n)%Z)%bool
  then match nth_error l (Z.to_nat j) with
       | Some x => Ok x
       | None => Fail (IndexError "list index out of range")
       end
  else Fail (IndexError "list index out of range").

(** [key in d] and [d[key]] on a dictionary. *)
Fixpoint dict_get {V} (key : string) (d : list (string * V)) : option V :=
  match d with
  | [] => None
  | (k, v) :: rest => if String.eqb key k then Some v else dict_get key rest
  end.

(** What [.encode("utf-8")] and [str(...)] give: bytes, or text. *)
Inductive pystring : Type :=
| Bytes (s : string)
| Text (s : string).

(** The dictionary [{"mac_address": ..., "name": ...}]. *)
Record device : Type := mkDevice {
  mac_address : pystring;
  name : pystring
}.

Definition pystring_eqb (x y : pystring) : bool :=
  match x, y with
  | Bytes s, Bytes t => String.eqb s t
  | Text s, Text t => String.eqb s t
  | _, _ => false
  end.

(** [==] on two such dictionaries. *)
Definition device_eqb (d e : device) : bool :=
  pystring_eqb (mac_address d) (mac_address e)
  && pystring_eqb (name d) (name e).

(** [device in devices] *)
Definition device_in (d : device) (devices : list device) : bool :=
  existsb (device_eqb d) devices.

(** [devices.remove(key)]: the first equal element goes, and [ValueError]
    is raised when there is none. *)
Fixpoint list_remove (key : device) (devices : list device)
    : result (list device) :=
  match devices with
  | [] => Fail (ValueError "list.remove(x): x not in list")
  | d :: rest =>
      if device_eqb d key then Ok rest
      else match list_remove key rest with
           | Ok rest' => Ok (d :: rest')
           | Fail e => Fail e
           end
  end.

(** The object: [self._adapters] holds the object paths of the adapters
    that [bluezutils.find_adapter] returned. *)
Record t : Type := mk {
  _adapters : list string;
  _scan_thread : option nat
}.

Definition conditions : list string := ["Available"; "Paired"; "Connected"].

(** Lines 108-130 and 135-157: the device of one object is made and
    appended, unless the object has no [Address]. *)
Definition add_device (encode unique_values : bool) (dev : properties)
    (devices : list device) : bus -> list device * bus :=
  fun b =>
    match dict_get "Address" dev with
    | None => (devices, b)
    | Some address =>
        let name :=
          match dict_get "Name" dev with
          | Some n => n
          | None => "<unknown>"
          end in
        let made :=
          if encode
          then (mkDevice (Bytes address) (Bytes name), b)
          else (mkDevice (Text address) (Text name), record (Log Debug) b) in
        let device := fst made in
        if unique_values
        then (if device_in device devices then devices
              else (devices ++ [device])%list,
              record (Log Debug) (snd made))
        else ((devices ++ [device])%list, snd made)
    end.

(** The [for] loop of lines 103-157 over the objects still to visit, with
    the list [devices] built so far.  The loop stops at the first error; the
    list it had built by then is part of the result, as the list is
    extended in place. *)
Fixpoint each_object (condition : string) (encode unique_values : bool)
    (objects : managed_objects) (devices : list device) (b : bus)
    : (list device * option pyerr) * bus :=
  match objects with
  | [] => ((devices, None), b)
  | (path, ifaces) :: rest =>
      match dict_get "org.bluez.Device1" ifaces with
      | None => each_object condition encode unique_values rest devices b
      | Some dev =>
          if String.eqb condition "Available"
          then
            let (devices', b') := add_device encode unique_values dev devices b in
            each_object condition encode unique_values rest devices' b'
          else
            match props_Get path "org.bluez.Device1" condition b with
            | (Ok v, b') =>
                if truthy v
                then
                  let (devices', b'') :=
                    add_device encode unique_values dev devices b' in
                  each_object condition encode unique_values rest devices' b''
                else each_object condition encode unique_values rest devices b'
            | (Fail e, b') => ((devices, Some e), b')
            end
      end
  end.

(** [_get_devices(self, condition, encode, unique_values)] *)
Definition _get_devices (self : t) (condition : string)
    (encode unique_values : bool) : bt (list device) :=
  fun b =>
    if negb (existsb (String.eqb condition) conditions)
    then (Ok [], record (Log Error) b)
    else
      match get_managed_objects b with
      | (Fail e, b') =>
          if is_DBus e then (Ok [], record (Log Error) b') else (Fail e, b')
      | (Ok objects, b') =>
          match each_object condition encode unique_values objects [] b' with
          | ((devices, None), b'') => (Ok devices, b'')
          | ((devices, Some e), b'') =>
              if is_DBus e
              then (Ok devices, record (Log Error) b'')
              else (Fail e, b'')
          end
      end.

(** [get_available_devices], [get_paired_devices],
    [get_connected_devices] *)
Definition get_available_devices (self : t) (encode unique_values : bool)
    : bt (list device) :=
  available_devices <~ _get_devices self "Available" encode unique_values ;
  _ <~ logger Debug ;
  pure available_devices.

Definition get_paired_devices (self : t) (encode unique_values : bool)
    : bt (list device) :=
  paired_devices <~ _get_devices self "Paired" encode unique_values ;
  _ <~ logger Debug ;
  pure paired_devices.

Definition get_connected_devices (self : t) (encode unique_values : bool)
    : bt (list device) :=
  connected_devices <~ _get_devices self "Connected" encode unique_values ;
  _ <~ logger Debug ;
  pure connected_devices.

(** [for key in keys: devices.remove(key)] *)
Fixpoint remove_each (keys devices : list device) : result (list device) :=
  match keys with
  | [] => Ok devices
  | key :: rest =>
      match list_remove key devices with
      | Ok devices' => remove_each rest devices'
      | Fail e => Fail e
      end
  end.

(** [get_devices_to_pair(self)] *)
Definition get_devices_to_pair (self : t) : bt (list device) :=
  devices <~ get_available_devices self true false ;
  paired <~ get_paired_devices self true false ;
  fun b => (remove_each paired devices, b).

(** The first [try] of [pair], [connect], [disconnect] and [trust]:
    [bluezutils.find_device(self._adapters[adapter_idx], address)]. *)
Definition locate (self : t) (address : string) (adapter_idx : Z) : bt string :=
  adapter <~ (fun b => (list_index (_adapters self) adapter_idx, b)) ;
  find_device adapter address.

Definition log_and_return {A} (value : A) (e : pyerr) : bt A :=
  _ <~ logger Error ; pure value.

(** [pair(self, address, adapter_idx=0)] *)
Definition pair (self : t) (address : string) (adapter_idx : Z) : bt bool :=
  try_or_return (locate self address adapter_idx) is_Bluez_or_DBus
    (log_and_return false)
    (fun device =>
       try_or_return
         (paired <~ props_Get device "org.bluez.Device1" "Paired" ;
          if negb (truthy paired) then invoke device "Pair" else pure tt)
         is_DBus (log_and_return false)
         (fun _ => _ <~ logger Info ; pure true)).

(** [connect(self, address, adapter_idx=0)] *)
Definition connect (self : t) (address : string) (adapter_idx : Z) : bt bool :=
  try_or_return (locate self address adapter_idx) is_Bluez_or_DBus
    (log_and_return false)
    (fun device =>
       try_or_return
         (connected <~ props_Get device "org.bluez.Device1" "Connected" ;
          if negb (truthy connected) then invoke device "Connect" else pure tt)
         is_DBus (log_and_return false)
         (fun _ => _ <~ logger Info ; pure true)).

(** [disconnect(self, address, adapter_idx=0)] *)
Definition disconnect (self : t) (address : string) (adapter_idx : Z)
    : bt bool :=
  try_or_return (locate self address adapter_idx) is_Bluez_or_DBus
    (log_and_return false)
    (fun device =>
       try_or_return
         (connected <~ props_Get device "org.bluez.Device1" "Connected" ;
          if truthy connected then invoke device "Disconnect" else pure tt)
         is_DBus (log_and_return false)
         (fun _ => pure true)).

(** [trust(self, address, adapter_idx=0)] *)
Definition trust (self : t) (address : string) (adapter_idx : Z) : bt bool :=
  try_or_return (locate self address adapter_idx) is_Bluez_or_DBus
    (log_and_return false)
    (fun device =>
       try_or_return
         (trusted <~ props_Get device "org.bluez.Device1" "Trusted" ;
          if negb (truthy trusted)
          then props_Set device "org.bluez.Device1" "Trusted" (VBoolean true)
          else pure tt)
         is_DBus (log_and_return false)
         (fun _ => pure true)).

(** [time.sleep(seconds)] for a whole number of seconds.  The interpreter
    turns the seconds into a 64-bit count of nanoseconds and raises
    [OverflowError] when they do not fit; then it raises [ValueError] for a
    negative length.  Otherwise the sleep is recorded as a call. *)
Definition sleep (seconds : Z) : bt unit :=
  if ((seconds <? -9223372036)%Z || (9223372036 <? seconds)%Z)%bool
  then throw (Known OverflowError)
  else if (seconds <? 0)%Z
  then throw (ValueError "sleep length must be non-negative")
  else note (Sleep seconds).

(** [scan(self, timeout=10, adapter_idx=0)], for a whole number of seconds:
    the object as the call leaves it. *)
Definition scan (self : t) (timeout adapter_idx : Z) : bt t :=
  _ <~ try_or_return
         (fun b => (list_index (_adapters self) adapter_idx, b))
         is_Bluez_or_DBus
         (fun error => logger Error)
         (fun adapter =>
            try_or_return
              (_ <~ invoke adapter "StartDiscovery" ;
               _ <~ sleep timeout ;
               invoke adapter "StopDiscovery")
              is_DBus
              (fun error => logger Error)
              (fun _ => pure tt)) ;
  pure (mk (_adapters self) None).

(** [_pair_trust_and_notify(self, address, callback, args)]; the callback
    is given its first argument. *)
Definition _pair_trust_and_notify (self : t) (address : string)
    (callback : option (bool -> bt unit)) : bt unit :=
  result <~ pair self address 0 ;
  match callback with
  | Some notify =>
      result <~ (if result : bool then trust self address 0 else pure result) ;
      notify result
  | None => pure tt
  end.

(** A callback that leaves a record of what it was called with. *)
Definition recording_callback (result : bool) : bt unit :=
  note (Callback result).

(** The devices of the objects that have the interface [Device1] and an
    [Address], in the order of the objects. *)
Definition device_of_object (encode : bool) (object : string * interfaces)
    : list device :=
  match dict_get "org.bluez.Device1" (snd object) with
  | None => []
  | Some dev =>
      match dict_get "Address" dev with
      | None => []
      | Some address =>
          let name :=
            match dict_get "Name" dev with
            | Some n => n
            | None => "<unknown>"
            end in
          if encode
          then [mkDevice (Bytes address) (Bytes name)]
          else [mkDevice (Text address) (Text name)]
      end
  end.

(** How often a device occurs in a list. *)
Definition occurrences (d : device) (devices : list device) : nat :=
  List.length (filter (device_eqb d) devices).

(** The D-Bus calls among the recorded ones. *)
Definition is_log (c : call) : bool :=
  match c with Log _ => true | _ => false end.

Definition dbus_calls (cs : list call) : list call :=
  filter (fun c => negb (is_log c)) cs.

(** Two buses that differ by the recorded calls only. *)
Definition same_answers (b b' : bus) : Prop :=
  managed b' = managed b /\ enumerations b' = enumerations b
  /\ property b' = property b /\ device_of b' = device_of b
  /\ rejects b' = rejects b.

(** A bus for examples: one adapter, two devices, the first of them paired
    and connected. *)
Definition example_objects : managed_objects :=
  [("/org/bluez/hci0", [("org.bluez.Adapter1", [("Address", "00:11:22:33:44:55")])]);
   ("/org/bluez/hci0/dev_AA", [("org.bluez.Device1",
                                 [("Address", "AA:AA:AA:AA:AA:AA"); ("Name", "phone")])]);
   ("/org/bluez/hci0/dev_BB", [("org.bluez.Device1",
                                 [("Address", "BB:BB:BB:BB:BB:BB")])])].

Definition example_bus : bus :=
  mkBus (fun _ => inl example_objects) 0
        (fun path _ _ =>
           inl (VBoolean (String.eqb path "/org/bluez/hci0/dev_AA")))
        (fun _ address =>
           if String.eqb address "AA:AA:AA:AA:AA:AA"
           then Ok "/org/bluez/hci0/dev_AA"
           else Fail (Known (BluezUtilError "device not found")))
        (fun _ => None) [].

Definition bluetooth0 : t := mk ["/org/bluez/hci0"] None.

End Bluetool.

(* ================================================================== *)
(** * Properties *)

(** ** Address derivation *)

Section Strings.

Lemma substring_all (s : string) : substring 0 (String.length s) s = s.
Proof. induction s as [|c s IH]; simpl; [reflexivity | now rewrite IH]. Qed.

Lemma substring_skip_prefix (p s : string) :
  substring (String.length p) (String.length s) (p ++ s) = s.
Proof.
  induction p as [|c p IH]; simpl.
  - apply substring_all.
  - exact IH.
Qed.

Lemma length_app (p s : string) :
  String.length (p ++ s) = String.length p + String.length s.
Proof. induction p as [|c p IH]; simpl; [reflexivity | now rewrite IH]. Qed.

(** Slicing off the last [n] characters, [n] positive. *)
Lemma slice_suffix (p s : string) :
  0 < String.length s ->
  let len := Z.of_nat (String.length (p ++ s)) in
  PyStr.slice (p ++ s) (len - Z.of_nat (String.length s)) len = s.
Proof.
  intros Hpos len. unfold PyStr.slice, PyStr.clamp_index.
  fold len.
  assert (Hlen : len = (Z.of_nat (String.length p)
                        + Z.of_nat (String.length s))%Z).
  { unfold len. rewrite length_app. lia. }
  replace (len - Z.of_nat (String.length s))%Z
    with (Z.of_nat (String.length p)) by lia.
  destruct (Z.ltb_spec (Z.of_nat (String.length p)) 0); [lia|].
  destruct (Z.ltb_spec len 0); [lia|].
  rewrite Z.min_l by lia. rewrite Z.min_id.
  destruct (Z.ltb_spec (Z.of_nat (String.length p)) len); [|lia].
  replace (Z.to_nat (len - Z.of_nat (String.length p)))
    with (String.length s) by lia.
  rewrite Nat2Z.id. apply substring_skip_prefix.
Qed.

Lemma replace_from_char (a b : ascii) (s : string) :
  PyStr.replace_from (String a EmptyString) (String b EmptyString) 0 s = PyStr.subst_char a b s.
Proof.
  induction s as [|c s IH]; [reflexivity|].
  cbn [PyStr.replace_from PyStr.subst_char prefix String.length Nat.sub].
  destruct (ascii_dec a c) as [->|Hne].
  - rewrite Ascii.eqb_refl. replace (prefix EmptyString s) with true by (now destruct s).
    cbn. now rewrite IH.
  - destruct (Ascii.eqb_spec c a) as [->|_]; [congruence|].
    now rewrite IH.
Qed.

(** On one-character arguments [replace] substitutes character by
    character. *)
Lemma replace_char (a b : ascii) (s : string) :
  PyStr.replace (String a EmptyString) (String b EmptyString) s = PyStr.subst_char a b s.
Proof. apply replace_from_char. Qed.

(** Whatever precedes them, the last 17 characters of the path are kept
    and their underscores become colons. *)
Lemma derive_address_suffix (p s : string) :
  String.length s = 17 ->
  derive_address (p ++ s) = PyStr.subst_char "_" ":" s.
Proof.
  intros H17. unfold derive_address.
  pose proof (slice_suffix p s) as Hs. cbv zeta in Hs.
  rewrite H17 in Hs. change (Z.of_nat 17) with 17%Z in Hs.
  rewrite Hs by lia. apply replace_char.
Qed.

Lemma subst_char_other (c : ascii) :
  c <> "_"%char -> (if Ascii.eqb c "_" then ":"%char else c) = c.
Proof. intros H. destruct (Ascii.eqb_spec c "_"); congruence. Qed.

End Strings.

Example derive_address_ex :
  derive_address "/org/bluez/hci0/dev_AA_BB_CC_DD_EE_FF" = "AA:BB:CC:DD:EE:FF".
Proof. reflexivity. Qed.

(** A path shorter than 17 characters makes the slice start negative, which
    Python counts from the end. *)
Example derive_address_short : derive_address "dev_AA_BB" = "ev:AA:BB".
Proof. reflexivity. Qed.

(** C4. For every path that ends in [XX_XX_XX_XX_XX_XX], the address derived
    by [NewConnection] is that 17-character suffix with every underscore
    replaced by a colon, which is [XX:XX:XX:XX:XX:XX] when the twelve
    characters [X] are not underscores themselves. *)
Theorem derive_address_device_path
    (prefix : string) (a1 a2 b1 b2 c1 c2 d1 d2 e1 e2 f1 f2 : ascii) :
  Forall (fun x => x <> "_"%char) [a1; a2; b1; b2; c1; c2; d1; d2; e1; e2; f1; f2] ->
  let suffix := octets "_" a1 a2 b1 b2 c1 c2 d1 d2 e1 e2 f1 f2 in
  derive_address (prefix ++ suffix) = PyStr.subst_char "_" ":" suffix
  /\ derive_address (prefix ++ suffix)
     = octets ":" a1 a2 b1 b2 c1 c2 d1 d2 e1 e2 f1 f2.
Proof.
  intros Hx suffix.
  assert (Hd : derive_address (prefix ++ suffix) = PyStr.subst_char "_" ":" suffix)
    by (apply derive_address_suffix; reflexivity).
  split; [exact Hd|]. rewrite Hd.
  repeat match goal with
         | H : Forall _ (_ :: _) |- _ => inversion H; clear H; subst
         end.
  unfold suffix, octets. cbn [PyStr.subst_char].
  change (Ascii.eqb "_" "_") with true. cbv iota.
  rewrite !subst_char_other by assumption. reflexivity.
Qed.

Lemma derive_address_device_path_witness :
  derive_address ("/org/bluez/hci0/dev_" ++ "AA_BB_CC_DD_EE_FF")
  = "AA:BB:CC:DD:EE:FF".
Proof.
  refine (proj2 (derive_address_device_path "/org/bluez/hci0/dev_"
                   "A" "A" "B" "B" "C" "C" "D" "D" "E" "E" "F" "F" _)).
  repeat constructor; discriminate.
Defined.

(* ================================================================== *)
(** ** Symbolic execution *)

Open Scope list_scope.

(** [py_unfold] unfolds the monad and the calls into the environment and
    leaves the updates of the world folded; [world_fields] then reads the
    fields of updated worlds. *)

Ltac py_unfold :=
  cbv [bind ret raise block get modify emit print try_except select_handler
       Os.refused Os.socket Os.setsockopt_reuseaddr Os.bind_ Os.listen Os.accept
       Os.fromfd_take Os.setblocking Os.recv Os.send Os.close
       Bluez.RegisterProfile Bluez.UnregisterProfile
       Proc.Process Proc.start Proc.terminate Proc.join Proc.mainloop_quit
       Bluetooth.new Bluetooth.disconnect
       is_DBusException is_socket_error is_IOError is_TCPConnectionError
       is_TCPServerError].

Ltac world_fields :=
  cbn [closed log set_bound set_registered set_incoming set_bt_accepts
       set_next_fd set_next_pid
       os_fails taken_ports bound registered bluez_refuses client incoming
       bt_accepts
       handle_bad find_adapter_fails disconnect_result next_fd next_pid trace
       fst snd negb].

Ltac py_run := py_unfold; world_fields.

Lemma filter_absent (path : string) (l : list string) :
  Bluez.has path l = false ->
  filter (fun p => negb (String.eqb path p)) l = l.
Proof.
  unfold Bluez.has. induction l as [|x l IH]; simpl; [reflexivity|].
  intros H. apply orb_false_iff in H as [Hx Hl].
  rewrite Hx. simpl. now rewrite IH.
Qed.

(** Two worlds with the same fields are the same world. *)
Lemma world_ext (w1 w2 : world) :
  os_fails w1 = os_fails w2 ->
  taken_ports w1 = taken_ports w2 ->
  bound w1 = bound w2 ->
  registered w1 = registered w2 ->
  bluez_refuses w1 = bluez_refuses w2 ->
  client w1 = client w2 ->
  incoming w1 = incoming w2 ->
  bt_accepts w1 = bt_accepts w2 ->
  handle_bad w1 = handle_bad w2 ->
  find_adapter_fails w1 = find_adapter_fails w2 ->
  disconnect_result w1 = disconnect_result w2 ->
  next_fd w1 = next_fd w2 ->
  next_pid w1 = next_pid w2 ->
  trace w1 = trace w2 ->
  w1 = w2.
Proof. destruct w1, w2; cbn; intros; subst; reflexivity. Qed.

(** Proves an equation between worlds field by field. *)
Ltac same_world :=
  apply world_ext; world_fields;
  repeat (rewrite <- app_assoc; cbn [app]);
  try reflexivity; try assumption.

(* ================================================================== *)
(** ** SerialPort *)

(** What [RegisterProfile] does decides what [initialize] returns. *)
Lemma SerialPort_initialize_cases (self : SerialPort.t) (w : world) :
  match Bluez.RegisterProfile (SerialPort.profile_path self)
          (SerialPort.uuid self) (SerialPort.opts self) w with
  | (Return tt, w') => SerialPort.initialize self w = (Return true, w')
  | (Raise e, w') =>
      is_DBusException e = true /\
      SerialPort.initialize self w = (Return false, log (EvPrint (PExn e)) w')
  | (Blocked, _) => False
  end.
Proof.
  unfold SerialPort.initialize. py_run.
  destruct (bluez_refuses w) as [name|]; py_run; [split; reflexivity|].
  destruct (Bluez.has (SerialPort.profile_path self) (registered w));
    py_run; [split; reflexivity | reflexivity].
Qed.

(** C8. [SerialPort.initialize] sends exactly one [RegisterProfile] request,
    for its own path, uuid and options.  It returns [False] whenever the
    control plane rejects the request (the call raises a [DBusException],
    whatever its name): the exception is printed and the record of profiles
    is as before.  It returns [True] exactly when the registration went
    through: the path is then on the record, and nothing is printed.  In no
    world does it end in an exception or block. *)
Theorem SerialPort_initialize_boundary (self : SerialPort.t) (w : world) :
  let path := SerialPort.profile_path self in
  let request := EvRegisterProfile path (SerialPort.uuid self)
                   (SerialPort.opts self) in
  let call := Bluez.RegisterProfile path (SerialPort.uuid self)
                (SerialPort.opts self) in
  let r := SerialPort.initialize self w in
  (forall name w', call w = (Raise (DBusException name), w') ->
     r = (Return false, log (EvPrint (PExn (DBusException name))) w'))
  /\ (forall w', call w = (Return tt, w') -> r = (Return true, w'))
  /\ (fst r = Return false <->
      exists name, fst (call w) = Raise (DBusException name))
  /\ (fst r = Return true <-> fst (call w) = Return tt)
  /\ (fst r = Return true ->
      snd r = set_registered (path :: registered w) (log request w)
      /\ Bluez.has path (registered w) = false
      /\ Bluez.has path (registered (snd r)) = true)
  /\ (fst r = Return false ->
      exists name,
        snd r = log (EvPrint (PExn (DBusException name))) (log request w)
        /\ registered (snd r) = registered w
        /\ (bluez_refuses w = Some name
            \/ bluez_refuses w = None
               /\ Bluez.has path (registered w) = true
               /\ name = "org.bluez.Error.AlreadyExists"%string))
  /\ (forall e, fst r <> Raise e)
  /\ fst r <> Blocked.
Proof.
  intros path request call r. subst path request call r.
  unfold SerialPort.initialize. py_run.
  destruct (bluez_refuses w) as [refusal|] eqn:Hrefuses; py_run.
  - split; [now intros name w' [= <- <-]|].
    split; [discriminate|].
    split; [split; [now exists refusal | reflexivity]|].
    split; [split; discriminate|].
    split; [discriminate|].
    split; [intros _; exists refusal; repeat split; now left|].
    split; [discriminate | discriminate].
  - destruct (Bluez.has (SerialPort.profile_path self) (registered w))
      eqn:Hknown; py_run.
    + split; [now intros name w' [= <- <-]|].
      split; [discriminate|].
      split; [split; [now eexists | reflexivity]|].
      split; [split; discriminate|].
      split; [discriminate|].
      split; [intros _; eexists; repeat split; now right|].
      split; [discriminate | discriminate].
    + split; [discriminate|].
      split; [now intros w' [= <-]|].
      split; [split; [discriminate | now intros [name Hname]]|].
      split; [split; reflexivity|].
      split.
      { intros _. split; [reflexivity|]. split; [reflexivity|].
        unfold Bluez.has. cbn [existsb]. now rewrite String.eqb_refl. }
      split; [discriminate|].
      split; [discriminate | discriminate].
Qed.

(* ================================================================== *)
(** ** BluetoothServer.run and BluetoothServer.quit *)

(** C7. [run] returns [False] when [SerialPort.initialize] returns [False]:
    the server object is left as it was, no process is created or started,
    and the world differs from the one before only by the trace of the
    rejected registration.  When [initialize] returns [True], [run] creates
    the process, stores it in [server_process], starts it and returns
    [True].  [initialize] has no other outcome. *)
Theorem run_starts_only_when_registered (self : BluetoothServer.t) (w : world) :
  let sp := BluetoothServer.spp self in
  let call := EvRegisterProfile (SerialPort.profile_path sp)
                (SerialPort.uuid sp) (SerialPort.opts sp) in
  match SerialPort.initialize sp w with
  | (Return false, w1) =>
      BluetoothServer.run self w = (Return (false, self), w1)
      /\ (exists e, w1 = log (EvPrint (PExn e)) (log call w))
      /\ next_pid w1 = next_pid w
      /\ registered w1 = registered w
  | (Return true, w1) =>
      let pid := next_pid w in
      BluetoothServer.run self w
      = (Return (true, BluetoothServer.set_server_process self (Some pid)),
         log (EvProcessStart pid) (set_next_pid (S pid) w1))
      /\ w1 = set_registered (SerialPort.profile_path sp :: registered w)
                (log call w)
  | _ => False
  end.
Proof.
  intros sp call. subst sp call.
  unfold BluetoothServer.run, SerialPort.initialize. py_run.
  destruct (bluez_refuses w) as [name|]; py_run.
  - repeat split. now exists (DBusException name).
  - destruct (Bluez.has _ (registered w)); py_run.
    + repeat split. now eexists.
    + split; reflexivity.
Qed.

(** C5, as stated, fails: [quit] on a server that is not running still calls
    [deinitialize], which sends [UnregisterProfile] to the control plane; and
    where the profile is on record (here after a direct
    [spp.initialize()]), it is removed. *)
Lemma quit_when_stopped_is_not_a_noop :
  let w := quiet_world [] in
  let w_reg := snd (SerialPort.initialize (BluetoothServer.spp server0) w) in
  BluetoothServer.server_process server0 = None
  /\ trace w = []
  /\ trace (snd (BluetoothServer.quit server0 w))
     = [EvUnregisterProfile "/org/bluez/myprofile"]
  /\ registered w_reg = ["/org/bluez/myprofile"]
  /\ registered (snd (BluetoothServer.quit server0 w_reg)) = [].
Proof. repeat split. Qed.

(** [quit] on a server that is not running: only [deinitialize] is run. *)
Lemma quit_stopped_eq (self : BluetoothServer.t) (w : world) :
  BluetoothServer.server_process self = None ->
  let path := SerialPort.profile_path (BluetoothServer.spp self) in
  BluetoothServer.quit self w
  = (Return self,
     set_registered (filter (fun p => negb (String.eqb path p)) (registered w))
       (log (EvUnregisterProfile path) w)).
Proof.
  intros Hstopped path. subst path.
  unfold BluetoothServer.quit, SerialPort.deinitialize. rewrite Hstopped.
  py_run.
  destruct (Bluez.has _ (registered w)) eqn:Hreg; py_run; [reflexivity|].
  now rewrite (filter_absent _ _ Hreg).
Qed.

(** C5, amended. On a server that is not running, [quit] leaves the event
    loop and the process alone and returns with the server object
    unchanged, but it does call [deinitialize]: one [UnregisterProfile]
    request is sent, the profile is off the record afterwards, and a
    rejection of the request is swallowed. *)
Theorem quit_when_stopped (self : BluetoothServer.t) (w : world) :
  BluetoothServer.server_process self = None ->
  let path := SerialPort.profile_path (BluetoothServer.spp self) in
  let r := BluetoothServer.quit self w in
  r = (Return self,
       set_registered
         (filter (fun p => negb (String.eqb path p)) (registered w))
         (log (EvUnregisterProfile path) w))
  /\ trace (snd r) = trace w ++ [EvUnregisterProfile path]
  /\ Bluez.has path (registered (snd r)) = false
  /\ next_pid (snd r) = next_pid w.
Proof.
  intros Hstopped path r. subst r.
  rewrite (quit_stopped_eq self w Hstopped). fold path.
  repeat split. cbn [snd]. world_fields.
  unfold Bluez.has. induction (registered w) as [|x l IH]; [reflexivity|].
  cbn [filter]. destruct (String.eqb path x) eqn:E; cbn [negb]; [exact IH|].
  cbn [existsb]. now rewrite E, IH.
Qed.

Lemma quit_when_stopped_witness :
  BluetoothServer.quit server0 (quiet_world [])
  = (Return server0,
     log (EvUnregisterProfile "/org/bluez/myprofile") (quiet_world [])).
Proof.
  exact (proj1 (quit_when_stopped server0 (quiet_world []) eq_refl)).
Defined.

(** A second [quit] finds the server as the first one left it. *)
Lemma quit_twice (self : BluetoothServer.t) (w : world) :
  forall self1 w1,
    BluetoothServer.quit self w = (Return self1, w1) ->
    exists w2, BluetoothServer.quit self1 w1 = (Return self1, w2)
               /\ registered w2 = registered w1.
Proof.
  intros self1 w1 H.
  assert (Hs : BluetoothServer.server_process self1 = None
               /\ Bluez.has (SerialPort.profile_path (BluetoothServer.spp self1))
                    (registered w1) = false).
  { revert H. unfold BluetoothServer.quit, SerialPort.deinitialize.
    assert (Hf : forall p l, Bluez.has p
                   (filter (fun q => negb (String.eqb p q)) l) = false).
    { intros p l. unfold Bluez.has. induction l as [|x l IH]; [reflexivity|].
      simpl. destruct (String.eqb p x) eqn:E; simpl; [exact IH|].
      now rewrite E, IH. }
    destruct (BluetoothServer.server_process self) eqn:Hp; py_run;
      destruct (Bluez.has _ (registered w)) eqn:Hreg; py_run;
      intros H; inversion H; subst; cbn;
      (split; [first [reflexivity | assumption]|]);
      first [apply Hf | exact Hreg]. }
  destruct Hs as [Hnone Hreg].
  eexists. split; [apply quit_stopped_eq; exact Hnone|].
  cbn. apply filter_absent. exact Hreg.
Qed.

(* ================================================================== *)
(** ** TCPServer.kill_connection *)

(** C10. Called on a [TCPServer] whose [client_socket] is still [None],
    [kill_connection] raises on the close of the client socket and goes no
    further: the world is untouched, so the listening socket is neither
    closed nor released. *)
Theorem kill_connection_before_accept (self : TCPServer.t) (w : world) :
  TCPServer.client_socket self = None ->
  TCPServer.kill_connection self w = (Raise (TCPServer.none_has_no "close"), w)
  /\ (forall s, closes_of s (trace (snd (TCPServer.kill_connection self w)))
                = closes_of s (trace w))
  /\ bound (snd (TCPServer.kill_connection self w)) = bound w.
Proof.
  intros Hnone. unfold TCPServer.kill_connection. rewrite Hnone.
  repeat split.
Qed.

Lemma kill_connection_before_accept_witness :
  let opened := TCPServer.initialize (TCPServer.init 8043) (quiet_world []) in
  let self := TCPServer.set_server_socket (TCPServer.init 8043) 3 in
  fst opened = Return (true, self)
  /\ fst (TCPServer.kill_connection self (snd opened))
     = Raise (AttributeError "'NoneType' object has no attribute 'close'")
  /\ bound (snd (TCPServer.kill_connection self (snd opened))) = [(3, 8043%Z)].
Proof.
  cbv zeta.
  pose proof (kill_connection_before_accept
                (TCPServer.set_server_socket (TCPServer.init 8043) 3)
                (snd (TCPServer.initialize (TCPServer.init 8043) (quiet_world [])))
                eq_refl) as [H _].
  split; [reflexivity|]. rewrite H. split; reflexivity.
Defined.

(** After a client was accepted both closes are made and the call
    returns. *)
Lemma kill_connection_after_accept (self : TCPServer.t) (c s : sock) (w : world) :
  TCPServer.client_socket self = Some c ->
  TCPServer.server_socket self = Some s ->
  exists w', TCPServer.kill_connection self w = (Return tt, w')
             /\ trace w' = trace w ++ [EvClose c; EvClose s].
Proof.
  intros Hc Hs. unfold TCPServer.kill_connection. rewrite Hc, Hs. py_run.
  eexists. split; [reflexivity|]. cbn. now rewrite <- app_assoc.
Qed.

(* ================================================================== *)
(** ** The relay loop *)

Section Relay.

Variables (tcp_server : TCPServer.t) (c b : sock).
Hypothesis accepted : TCPServer.client_socket tcp_server = Some c.

Let bufsize := TCPServer.buffer_size tcp_server.

(** With more fuel than pending [recv] results the unrolled loop ends as
    [relay_run] says, and touches nothing but the pending results, the
    budget of the Bluetooth link and the trace. *)
Lemma relay_loop_run (fuel : nat) : forall w,
  List.length (incoming w) < fuel ->
  BluetoothServer.relay_loop fuel tcp_server b w
  = let e := relay_run c b bufsize (incoming w) (bt_accepts w) in
    (end_result e,
     mkWorld (os_fails w) (taken_ports w) (bound w) (registered w) (bluez_refuses w)
             (client w) (end_pending e) (end_budget e) (handle_bad w)
             (find_adapter_fails w) (disconnect_result w) (next_fd w)
             (next_pid w) (trace w ++ end_events e)).
Proof.
  induction fuel as [|fuel IH]; intros w Hfuel; [lia|].
  cbn [BluetoothServer.relay_loop].
  unfold BluetoothServer.relay_step, TCPServer.read. rewrite accepted.
  fold bufsize. py_run.
  destruct (incoming w) as [|[data|errno] rest] eqn:Hin;
    py_run; cbn [relay_run end_result end_pending end_budget end_events];
    try (f_equal; same_world).
  destruct (String.eqb data EmptyString); py_run; cbn [end_result end_pending
    end_budget end_events]; [f_equal; same_world|].
  cbn [List.length] in Hfuel.
  destruct (bt_accepts w) as [[|k]|] eqn:Hb; py_run;
    cbn [end_result end_pending end_budget end_events].
  - f_equal; same_world.
  - rewrite IH by (world_fields; lia). cbv zeta. world_fields.
    f_equal; same_world.
  - rewrite IH by (world_fields; lia). cbv zeta. world_fields. rewrite Hb.
    f_equal; same_world.
Qed.

(** The loop of [NewConnection] ends as [relay_run] says. *)
Lemma relay_summary (w : world) :
  BluetoothServer.relay tcp_server b w
  = let e := relay_run c b bufsize (incoming w) (bt_accepts w) in
    (end_result e,
     mkWorld (os_fails w) (taken_ports w) (bound w) (registered w) (bluez_refuses w)
             (client w) (end_pending e) (end_budget e) (handle_bad w)
             (find_adapter_fails w) (disconnect_result w) (next_fd w)
             (next_pid w) (trace w ++ end_events e)).
Proof. unfold BluetoothServer.relay. apply relay_loop_run. lia. Qed.

(** Any larger amount of fuel gives the same run. *)
Lemma relay_fuel_irrelevant (fuel : nat) (w : world) :
  List.length (incoming w) < fuel ->
  BluetoothServer.relay_loop fuel tcp_server b w
  = BluetoothServer.relay tcp_server b w.
Proof. intros H. now rewrite relay_summary, relay_loop_run. Qed.

End Relay.

(** The loop never ends normally: it blocks, or raises one of the two
    exceptions the inner [try] catches. *)
Lemma relay_run_ends (c b : sock) (bufsize : Z) (pending : list recv_outcome) :
  forall budget,
    match end_result (relay_run c b bufsize pending budget) with
    | Blocked => True
    | Raise (SocketError _) => True
    | Raise (TCPConnectionError msg) => msg = "External connection shutdown"%string
    | _ => False
    end.
Proof.
  induction pending as [|[data|errno] rest IH]; intros budget; cbn; trivial.
  destruct (String.eqb data EmptyString); cbn; trivial.
  destruct budget as [[|k]|]; cbn; trivial; apply IH.
Qed.

Lemma relay_run_events (c b : sock) (bufsize : Z) (pending : list recv_outcome) :
  forall budget,
    forallb is_relay_event (end_events (relay_run c b bufsize pending budget))
    = true.
Proof.
  induction pending as [|[data|errno] rest IH]; intros budget; cbn; trivial.
  destruct (String.eqb data EmptyString); cbn; trivial.
  destruct budget as [[|k]|]; cbn; trivial; apply IH.
Qed.

(* ================================================================== *)
(** ** Running a computation one call at a time *)

Lemma bind_Return {A B} (m : py A) (k : A -> py B) (w w' : world) (a : A) :
  m w = (Return a, w') -> bind m k w = k a w'.
Proof. intros H. unfold bind. now rewrite H. Qed.

Lemma bind_Raise {A B} (m : py A) (k : A -> py B) (w w' : world) (e : exn) :
  m w = (Raise e, w') -> bind m k w = (Raise e, w').
Proof. intros H. unfold bind. now rewrite H. Qed.

Lemma bind_Blocked {A B} (m : py A) (k : A -> py B) (w w' : world) :
  m w = (Blocked, w') -> bind m k w = (Blocked, w').
Proof. intros H. unfold bind. now rewrite H. Qed.

(** A [try] statement followed by more statements. *)
Lemma bind_try_except {A B} (body : py A) (clauses : list (clause A))
    (k : A -> py B) (w : world) :
  bind (try_except body clauses) k w
  = match body w with
    | (Return a, w') => k a w'
    | (Raise e, w') =>
        match select_handler clauses e with
        | Some h => bind h k w'
        | None => (Raise e, w')
        end
    | (Blocked, w') => (Blocked, w')
    end.
Proof.
  unfold bind, try_except.
  destruct (body w) as [[a|e|] w']; try reflexivity.
  destruct (select_handler clauses e); reflexivity.
Qed.

Lemma ret_eq {A} (a : A) (w : world) : ret a w = (Return a, w).
Proof. reflexivity. Qed.

Lemma print_eq (item : printed) (w : world) :
  print item w = (Return tt, log (EvPrint item) w).
Proof. reflexivity. Qed.

Lemma setblocking_eq (s : sock) (w : world) :
  Os.setblocking s w = (Return tt, log (EvSetBlocking s) w).
Proof. reflexivity. Qed.

Lemma close_eq (s : sock) (w : world) : Os.close s w = (Return tt, closed s w).
Proof. reflexivity. Qed.

Lemma fromfd_take_ok (fd : nat) (w : world) :
  handle_bad w = None ->
  Os.fromfd_take fd w
  = (Return (next_fd w),
     log (EvFromFd (next_fd w)) (set_next_fd (S (next_fd w)) (log EvFdTake w))).
Proof. intros H. unfold Os.fromfd_take. py_run. now rewrite H. Qed.

Lemma fromfd_take_bad (fd : nat) (w : world) (errno : string) :
  handle_bad w = Some errno ->
  Os.fromfd_take fd w = (Raise (SocketError errno), log EvFdTake w).
Proof. intros H. unfold Os.fromfd_take. py_run. now rewrite H. Qed.

(** [initialize] on a fresh [TCPServer] whose listener binds. *)
Lemma initialize_listens (port : Z) (w : world) (p : Z) :
  listens port w p ->
  let l := next_fd w in
  TCPServer.initialize (TCPServer.init port) w
  = (Return (true, TCPServer.set_server_socket (TCPServer.init port) l),
     log (EvListen l 5)
       (set_bound ((l, p) :: bound w)
          (log (EvBind l "localhost" port)
             (log (EvSetReuseAddr l)
                (log (EvSocket l) (set_next_fd (S l) w)))))).
Proof.
  intros (Hquiet & Hrange & Hlocal) l. subst l.
  assert (Hvalid : Os.valid_port port = true)
    by (unfold Os.valid_port; lia).
  assert (Hfits : Os.fits_c_int port = true)
    by (unfold Os.fits_c_int; lia).
  unfold TCPServer.initialize, TCPServer.initialize_failed, TCPServer.init.
  py_run.
  cbn [TCPServer.set_server_socket TCPServer.address TCPServer.server_socket
       TCPServer.client_socket TCPServer.buffer_size fst snd].
  unfold Os.local_port, Os.ephemeral_port, Os.port_in_use in Hlocal.
  repeat (progress (rewrite ?Hquiet, ?Hfits, ?Hvalid; py_run;
                    unfold Os.local_port, Os.ephemeral_port, Os.port_in_use;
                    world_fields; rewrite ?Hlocal)).
  reflexivity.
Qed.

(** [initialize] on a fresh [TCPServer] in any world ends as [listener_run]
    says. *)
Lemma initialize_summary (port : Z) (w : world) :
  TCPServer.initialize (TCPServer.init port) w
  = (listener_result (listener_run port w), listener_world port w).
Proof.
  unfold listener_world, listener_run.
  unfold TCPServer.initialize, TCPServer.initialize_failed, TCPServer.init.
  py_run.
  cbn [TCPServer.set_server_socket TCPServer.address TCPServer.server_socket
       TCPServer.client_socket TCPServer.buffer_size fst snd].
  destruct (os_fails w SysSocket) eqn:Hsocket; py_run;
    cbn [listener_result listener_port listener_made listener_events];
    [f_equal; same_world|].
  destruct (os_fails w SysSetsockopt) eqn:Hsetsockopt; py_run;
    cbn [listener_result listener_port listener_made listener_events];
    [f_equal; same_world|].
  destruct (Os.fits_c_int port); cbn [negb]; py_run;
    cbn [listener_result listener_port listener_made listener_events];
    [|f_equal; same_world].
  destruct (os_fails w SysResolve) eqn:Hresolve; py_run;
    cbn [listener_result listener_port listener_made listener_events];
    [f_equal; same_world|].
  destruct (Os.valid_port port); cbn [negb]; py_run;
    cbn [listener_result listener_port listener_made listener_events];
    [|f_equal; same_world].
  destruct (os_fails w SysBind) eqn:Hbind; py_run;
    cbn [listener_result listener_port listener_made listener_events];
    [f_equal; same_world|].
  unfold Os.local_port, Os.ephemeral_port, Os.port_in_use. world_fields.
  match goal with
  | |- context [if (port =? 0)%Z then ?a else ?b] =>
      destruct (if (port =? 0)%Z then a else b) as [p|] eqn:Hlocal
  end; py_run;
    cbn [listener_result listener_port listener_made listener_events];
    [|f_equal; same_world].
  destruct (os_fails w SysListen) eqn:Hlisten; py_run;
    cbn [listener_result listener_port listener_made listener_events];
    f_equal; same_world.
Qed.

Lemma accept_connection_eq (self : TCPServer.t) (l : sock) (w : world) :
  TCPServer.server_socket self = Some l ->
  TCPServer.accept_connection self w
  = match client w with
    | AcceptPeer p =>
        (Return (p, TCPServer.set_client_socket self (next_fd w)),
         log (EvAccept l (next_fd w)) (set_next_fd (S (next_fd w)) w))
    | AcceptFails errno => (Raise (SocketError errno), w)
    | AcceptNever => (Blocked, w)
    end.
Proof.
  intros Hl. unfold TCPServer.accept_connection. rewrite Hl. py_run.
  destruct (client w); reflexivity.
Qed.

Lemma kill_connection_eq (self : TCPServer.t) (c s : sock) (w : world) :
  TCPServer.client_socket self = Some c ->
  TCPServer.server_socket self = Some s ->
  TCPServer.kill_connection self w = (Return tt, closed s (closed c w)).
Proof.
  intros Hc Hs. unfold TCPServer.kill_connection. now rewrite Hc, Hs.
Qed.

(** Lines 149-150: the collaborator is constructed and asked to
    disconnect. *)
Lemma collaborator_eq (address : string) (w : world) :
  (Bluetooth.new ;; _ <- Bluetooth.disconnect address ;; ret tt) w
  = match find_adapter_fails w with
    | None => (Return tt, log (EvDisconnect address) (log EvBluetoothNew w))
    | Some x => (Raise x, log EvBluetoothNew w)
    end.
Proof. py_run. destruct (find_adapter_fails w); reflexivity. Qed.

Ltac step_by tac := erewrite bind_Return by tac; cbv beta iota zeta.

(** What is printed does not change what the listener is going to do. *)
Lemma listener_run_log (port : Z) (e : event) (w : world) :
  listener_run port (log e w) = listener_run port w.
Proof. reflexivity. Qed.

Lemma valid_port_range (port : Z) :
  Os.valid_port port = true <-> (0 <= port <= 65535)%Z.
Proof. unfold Os.valid_port. lia. Qed.

Lemma valid_port_fits (port : Z) :
  Os.valid_port port = true -> Os.fits_c_int port = true.
Proof. unfold Os.valid_port, Os.fits_c_int. lia. Qed.

(** Runs through the cases of [listener_run]. *)
Ltac listener_cases w port :=
  unfold listener_run;
  destruct (os_fails w SysSocket) eqn:Hsocket;
  [|destruct (os_fails w SysSetsockopt) eqn:Hsetsockopt;
    [|destruct (Os.fits_c_int port) eqn:Hfits; cbn [negb];
      [destruct (os_fails w SysResolve) eqn:Hresolve;
       [|destruct (Os.valid_port port) eqn:Hvalid; cbn [negb];
         [destruct (os_fails w SysBind) eqn:Hbind;
          [|destruct (Os.local_port port w) eqn:Hlocal;
            [destruct (os_fails w SysListen) eqn:Hlisten|]]|]]|]]];
  cbn [listener_result listener_port listener_made listener_events].

(** The outcomes of the listener: it listens exactly in the worlds of
    [listens]; it raises only [OverflowError], and only for a port that is
    no port number; otherwise it reports one [socket.error] after calls on
    the new socket alone. *)
Lemma listener_run_cases (port : Z) (w : world) :
  let e := listener_run port w in
  let l := next_fd w in
  match listener_result e with
  | Return (true, t) =>
      t = TCPServer.set_server_socket (TCPServer.init port) l
      /\ exists p, listens port w p
                   /\ listener_port e = Some p
                   /\ listener_made e = true
                   /\ listener_events e
                      = [EvSocket l; EvSetReuseAddr l;
                         EvBind l "localhost" port; EvListen l 5]
  | Return (false, t) =>
      exists calls errno,
        listener_events e = calls ++ [EvPrint (PExn (SocketError errno))]
        /\ forallb is_listener_event calls = true
        /\ ((forall c, os_fails w c = None) ->
            Os.valid_port port = true
            /\ Os.local_port port w = None
            /\ errno = "EADDRINUSE"%string
            /\ calls = [EvSocket l; EvSetReuseAddr l;
                        EvBind l "localhost" port]
            /\ listener_port e = None
            /\ listener_made e = true)
  | Raise x =>
      x = OverflowError /\ Os.valid_port port = false
      /\ os_fails w SysSocket = None /\ os_fails w SysSetsockopt = None
  | Blocked => False
  end.
Proof.
  assert (Hrefused : forall c errno (P : Prop),
            os_fails w c = Some errno -> (forall c, os_fails w c = None) -> P).
  { intros c errno P Hc Hq. rewrite Hq in Hc. discriminate. }
  cbv zeta. listener_cases w port.
  - exists [], s. split; [reflexivity|]. split; [reflexivity|].
    now apply Hrefused with (1 := ltac:(eassumption)).
  - eexists [_; _], s. split; [reflexivity|]. split; [reflexivity|].
    now apply Hrefused with (1 := ltac:(eassumption)).
  - eexists [_; _], s. split; [reflexivity|]. split; [reflexivity|].
    now apply Hrefused with (1 := ltac:(eassumption)).
  - eexists [_; _; _], s. split; [reflexivity|]. split; [reflexivity|].
    now apply Hrefused with (1 := ltac:(eassumption)).
  - eexists [_; _; _; _], s.
    split; [reflexivity|]. split; [reflexivity|].
    now apply Hrefused with (1 := ltac:(eassumption)).
  - split; [reflexivity|]. exists z.
    split; [|repeat split].
    split; [intros []; assumption|].
    split; [now apply valid_port_range | exact Hlocal].
  - eexists [_; _; _], _.
    split; [reflexivity|]. split; [reflexivity|]. intros _. repeat split.
  - repeat split.
  - repeat split. destruct (Os.valid_port port) eqn:Hvalid; [|reflexivity].
    apply valid_port_fits in Hvalid. congruence.
Qed.

Ltac step lem := step_by ltac:(apply lem).

(* ================================================================== *)
(** ** NewConnection *)

Section Session.

Variables (self : BluetoothServer.t) (path : string) (fd : nat)
          (properties : list (string * string)).

Let address := derive_address path.
Let port := BluetoothServer.tcp_port self.

(** A session that gets to the relay loop: the whole run.  When the loop
    blocks, so does the session; otherwise the handlers of the inner [try]
    report, the three sockets are closed and the collaborator is called. *)
Lemma NewConnection_session (w : world) (p : Z) (peer : peer_info) :
  listens port w p ->
  client w = AcceptPeer peer ->
  handle_bad w = None ->
  let l := next_fd w in
  let c := S l in
  let b := S (S l) in
  let e := relay_run c b 1024 (incoming w) (bt_accepts w) in
  let opened := trace w ++ opening_events address port l c b peer
                  ++ end_events e in
  BluetoothServer.NewConnection self path fd properties w
  = match end_result e with
    | Blocked =>
        (Blocked,
         mkWorld (os_fails w) (taken_ports w) ((l, p) :: bound w)
             (registered w) (bluez_refuses w) (client w)
             (end_pending e) (end_budget e) (handle_bad w)
             (find_adapter_fails w) (disconnect_result w)
             (S (S (S l))) (next_pid w) opened)
    | _ =>
        (match find_adapter_fails w with
         | None => Return tt
         | Some x => Raise x
         end,
         mkWorld (os_fails w) (taken_ports w) (after_closes l c b ((l, p) :: bound w))
             (registered w) (bluez_refuses w) (client w)
             (end_pending e) (end_budget e) (handle_bad w)
             (find_adapter_fails w) (disconnect_result w)
             (S (S (S l))) (next_pid w)
             (opened ++ relay_report (end_result e)
                ++ closing_events address l c b (find_adapter_fails w)))
    end.
Proof.
  intros Hfree Hclient Hhandle l c b e opened. subst opened.
  unfold BluetoothServer.NewConnection. cbv zeta.
  step print_eq. step print_eq.
  rewrite bind_try_except.
  step_by ltac:(apply initialize_listens; exact Hfree).
  cbn [negb]. step_by ltac:(apply ret_eq). step print_eq. step print_eq.
  erewrite bind_Return
    by (erewrite accept_connection_eq by reflexivity;
        world_fields; rewrite Hclient; reflexivity).
  cbv beta iota zeta.
  step print_eq.
  step_by ltac:(apply fromfd_take_ok; exact Hhandle).
  step setblocking_eq.
  rewrite bind_try_except.
  rewrite (relay_summary _ c) by reflexivity.
  cbv zeta.
  match goal with
  | |- context [relay_run ?a1 ?a2 ?a3 ?a4 ?a5] =>
      change (relay_run a1 a2 a3 a4 a5) with e
  end.
  pose proof (relay_run_ends c b 1024 (incoming w) (bt_accepts w)) as Hr.
  fold e in Hr. clearbody e.
  destruct e as [r pend budget evs].
  cbn [end_result end_pending end_budget end_events] in *.
  unfold address, port, after_closes, opening_events, closing_events.
  destruct r as [[]|[errno|name|msg|msg|msg|msg|]|]; try contradiction;
    cbv beta iota;
    cbn [select_handler is_IOError is_TCPConnectionError relay_report].
  - (* an I/O error of a read or of a write *)
    step print_eq. step close_eq.
    erewrite kill_connection_eq by reflexivity. cbv beta iota.
    rewrite collaborator_eq. world_fields.
    destruct (find_adapter_fails w) eqn:Hadapter; (f_equal; same_world).
  - (* the empty read *)
    step print_eq. step close_eq.
    erewrite kill_connection_eq by reflexivity. cbv beta iota.
    rewrite collaborator_eq. world_fields.
    destruct (find_adapter_fails w) eqn:Hadapter; (f_equal; same_world).
  - (* the loop blocks *)
    f_equal; same_world.
Qed.

(** The listener does not start: the session is over after the report of
    [TCPServerError], and the collaborator is called all the same. *)
Lemma NewConnection_no_listener (w : world) (t : TCPServer.t) :
  listener_result (listener_run port w) = Return (false, t) ->
  let e := listener_run port w in
  BluetoothServer.NewConnection self path fd properties w
  = (match find_adapter_fails w with
     | None => Return tt
     | Some x => Raise x
     end,
     mkWorld (os_fails w) (taken_ports w)
             match listener_port e with
             | Some p => (next_fd w, p) :: bound w
             | None => bound w
             end
             (registered w) (bluez_refuses w)
             (client w) (incoming w) (bt_accepts w) (handle_bad w)
             (find_adapter_fails w) (disconnect_result w)
             (if listener_made e then S (next_fd w) else next_fd w)
             (next_pid w)
             (trace w ++
              [EvPrint (PStr "Connected:"); EvPrint (PStr address)]
              ++ listener_events e
              ++ [EvPrint (PExn (TCPServerError "TCP server did not start"));
                  EvBluetoothNew]
              ++ match find_adapter_fails w with
                 | None => [EvDisconnect address]
                 | Some _ => []
                 end)).
Proof.
  intros Hno e. subst e. unfold port in *.
  unfold BluetoothServer.NewConnection. cbv zeta.
  step print_eq. step print_eq.
  rewrite bind_try_except.
  erewrite bind_Return
    by (rewrite initialize_summary, !listener_run_log, Hno; reflexivity).
  cbv beta iota zeta. cbn [negb].
  erewrite bind_Raise by reflexivity. cbv beta iota.
  cbn [select_handler is_TCPServerError].
  step print_eq.
  rewrite collaborator_eq. unfold listener_world. cbv zeta.
  rewrite !listener_run_log. world_fields. unfold address.
  destruct (find_adapter_fails w) eqn:Hadapter; (f_equal; same_world).
Qed.

(** A port that is no port number: [OverflowError] is no [socket.error] and
    no [TCPServerError], so it leaves [initialize] and [NewConnection]. *)
Lemma NewConnection_bad_port (w : world) :
  listener_result (listener_run port w) = Raise OverflowError ->
  let r := BluetoothServer.NewConnection self path fd properties w in
  fst r = Raise OverflowError
  /\ trace (snd r)
     = trace w ++ [EvPrint (PStr "Connected:"); EvPrint (PStr address)]
       ++ listener_events (listener_run port w).
Proof.
  intros Hbad. cbv zeta. unfold port in *.
  unfold BluetoothServer.NewConnection. cbv zeta.
  step print_eq. step print_eq.
  rewrite bind_try_except.
  erewrite bind_Raise
    by (rewrite initialize_summary, !listener_run_log, Hbad; reflexivity).
  cbv beta iota. cbn [select_handler is_TCPServerError fst snd].
  unfold listener_world. cbv zeta. rewrite !listener_run_log. world_fields.
  split; [reflexivity|]. now rewrite <- !app_assoc.
Qed.

(** [accept] raises: nothing catches the error. *)
Lemma NewConnection_accept_fails (w : world) (p : Z) (errno : string) :
  listens port w p ->
  client w = AcceptFails errno ->
  fst (BluetoothServer.NewConnection self path fd properties w)
  = Raise (SocketError errno).
Proof.
  intros Hfree Hclient.
  unfold BluetoothServer.NewConnection. cbv zeta.
  step print_eq. step print_eq.
  rewrite bind_try_except.
  step_by ltac:(apply initialize_listens; exact Hfree).
  cbn [negb]. step_by ltac:(apply ret_eq). step print_eq. step print_eq.
  erewrite bind_Raise
    by (erewrite accept_connection_eq by reflexivity;
        world_fields; rewrite Hclient; reflexivity).
  reflexivity.
Qed.

(** No TCP client ever connects: the session stays in [accept]. *)
Lemma NewConnection_accept_never (w : world) (p : Z) :
  listens port w p ->
  client w = AcceptNever ->
  fst (BluetoothServer.NewConnection self path fd properties w) = Blocked.
Proof.
  intros Hfree Hclient.
  unfold BluetoothServer.NewConnection. cbv zeta.
  step print_eq. step print_eq.
  rewrite bind_try_except.
  step_by ltac:(apply initialize_listens; exact Hfree).
  cbn [negb]. step_by ltac:(apply ret_eq). step print_eq. step print_eq.
  erewrite bind_Blocked
    by (erewrite accept_connection_eq by reflexivity;
        world_fields; rewrite Hclient; reflexivity).
  reflexivity.
Qed.

(** The transport handle cannot be wrapped: nothing catches the error,
    and the two TCP sockets are left open. *)
Lemma NewConnection_bad_handle (w : world) (p : Z) (peer : peer_info)
    (errno : string) :
  listens port w p ->
  client w = AcceptPeer peer ->
  handle_bad w = Some errno ->
  let r := BluetoothServer.NewConnection self path fd properties w in
  fst r = Raise (SocketError errno)
  /\ bound (snd r) = (next_fd w, p) :: bound w.
Proof.
  intros Hfree Hclient Hhandle. cbv zeta.
  unfold BluetoothServer.NewConnection. cbv zeta.
  step print_eq. step print_eq.
  rewrite bind_try_except.
  step_by ltac:(apply initialize_listens; exact Hfree).
  cbn [negb]. step_by ltac:(apply ret_eq). step print_eq. step print_eq.
  erewrite bind_Return
    by (erewrite accept_connection_eq by reflexivity;
        world_fields; rewrite Hclient; reflexivity).
  cbv beta iota zeta.
  step print_eq.
  erewrite bind_Raise by (apply fromfd_take_bad; exact Hhandle).
  split; reflexivity.
Qed.

End Session.

(* ================================================================== *)
(** ** Reading the trace of a session *)

Lemma sent_to_app (s : sock) (tr1 tr2 : list event) :
  sent_to s (tr1 ++ tr2) = sent_to s tr1 ++ sent_to s tr2.
Proof.
  induction tr1 as [|e tr1 IH]; [reflexivity|].
  destruct e; cbn; try exact IH.
  destruct (Nat.eqb s s0); cbn; now rewrite IH.
Qed.

Lemma closes_of_app (s : sock) (tr1 tr2 : list event) :
  closes_of s (tr1 ++ tr2) = closes_of s tr1 + closes_of s tr2.
Proof.
  induction tr1 as [|e tr1 IH]; [reflexivity|].
  destruct e; cbn; try exact IH.
  destruct (Nat.eqb s s0); cbn; now rewrite IH.
Qed.

Lemma disconnects_app (tr1 tr2 : list event) :
  disconnects (tr1 ++ tr2) = disconnects tr1 ++ disconnects tr2.
Proof.
  induction tr1 as [|e tr1 IH]; [reflexivity|].
  destruct e; cbn; try exact IH. now rewrite IH.
Qed.

Lemma relay_events_close_nothing (s : sock) (evs : list event) :
  forallb is_relay_event evs = true -> closes_of s evs = 0.
Proof.
  induction evs as [|e evs IH]; [reflexivity|].
  cbn. intros H. apply andb_true_iff in H as [He Hevs].
  destruct e; try discriminate He; cbn; auto.
Qed.

Lemma relay_events_disconnect_nothing (evs : list event) :
  forallb is_relay_event evs = true -> disconnects evs = [].
Proof.
  induction evs as [|e evs IH]; [reflexivity|].
  cbn. intros H. apply andb_true_iff in H as [He Hevs].
  destruct e; try discriminate He; cbn; auto.
Qed.

Lemma eqb_succ (n : nat) : Nat.eqb n (S n) = false /\ Nat.eqb (S n) n = false.
Proof. split; apply Nat.eqb_neq; lia. Qed.

Lemma eqb_succ2 (n : nat) :
  Nat.eqb n (S (S n)) = false /\ Nat.eqb (S (S n)) n = false.
Proof. split; apply Nat.eqb_neq; lia. Qed.

Lemma sent_to_forwarding (c b : sock) (bufsize : Z) (chunks : list string) :
  sent_to b (forwarding c b bufsize chunks) = chunks.
Proof.
  unfold forwarding.
  induction chunks as [|d chunks IH]; [reflexivity|].
  cbn. rewrite Nat.eqb_refl. now rewrite IH.
Qed.

(** Non-empty chunks followed by an empty read, over a link that takes
    them all: every chunk is sent, and the empty read ends the loop. *)
Lemma relay_run_chunks (c b : sock) (bufsize : Z) (chunks : list string)
    (rest : list recv_outcome) :
  Forall (fun d => d <> EmptyString) chunks ->
  forall budget,
    (forall k, budget = Some k -> List.length chunks <= k) ->
    relay_run c b bufsize (map RecvData chunks ++ RecvData EmptyString :: rest) budget
    = mkEnd (Raise (TCPConnectionError "External connection shutdown"))
            rest
            (option_map (fun k => k - List.length chunks) budget)
            (forwarding c b bufsize chunks ++ [EvRecv c bufsize]).
Proof.
  induction 1 as [|d chunks Hd _ IH]; intros budget Hbudget.
  - cbn. destruct budget as [k|]; cbn; [now rewrite Nat.sub_0_r | reflexivity].
  - cbn [map app relay_run].
    destruct (String.eqb_spec d EmptyString); [contradiction|].
    destruct budget as [[|k]|].
    + specialize (Hbudget 0 eq_refl). cbn in Hbudget. lia.
    + rewrite IH by (intros k' [= <-]; specialize (Hbudget (S k) eq_refl);
                     cbn in Hbudget; lia).
      reflexivity.
    + rewrite IH by discriminate. reflexivity.
Qed.

Lemma closes_of_report (s : sock) (r : outcome unit) :
  closes_of s (relay_report r) = 0.
Proof. destruct r as [a|[]|]; reflexivity. Qed.

Lemma disconnects_report (r : outcome unit) : disconnects (relay_report r) = [].
Proof. destruct r as [a|[]|]; reflexivity. Qed.

(** The closing calls close each of the three sockets once. *)
Lemma closes_of_closing (address : string) (l : sock) (adapter : option exn) :
  let closing := closing_events address l (S l) (S (S l)) adapter in
  closes_of (S (S l)) closing = 1
  /\ closes_of (S l) closing = 1
  /\ closes_of l closing = 1.
Proof.
  unfold closing_events. cbv zeta.
  rewrite !closes_of_app. cbn [closes_of].
  rewrite !Nat.eqb_refl.
  destruct (eqb_succ l) as [-> ->].
  destruct (eqb_succ (S l)) as [-> ->].
  destruct (eqb_succ2 l) as [-> ->].
  destruct adapter; cbn [closes_of]; auto.
Qed.

(* ================================================================== *)
(** ** The claims about a session *)

(** An environment that refuses nothing, a port number other than 0 and no
    live socket on it: the listener binds to that port. *)
Lemma listens_free (port : Z) (w : world) :
  (forall c, os_fails w c = None) ->
  (0 < port <= 65535)%Z ->
  Os.port_in_use port w = false ->
  listens port w port.
Proof.
  intros Hquiet Hrange Hfree. split; [exact Hquiet|]. split; [lia|].
  unfold Os.local_port. rewrite Hfree.
  destruct (Z.eqb_spec port 0); [lia | reflexivity].
Qed.

Lemma session_opens_free (port : Z) (w : world) (peer : peer_info) :
  (forall c, os_fails w c = None) ->
  (0 < port <= 65535)%Z ->
  Os.port_in_use port w = false ->
  client w = AcceptPeer peer ->
  handle_bad w = None ->
  session_opens port w.
Proof.
  intros Hquiet Hrange Hfree Hclient Hhandle.
  split; [exists port; now apply listens_free|].
  split; [now exists peer | exact Hhandle].
Qed.

(** The calls that set the listener up close nothing, send nothing and do
    not reach the collaborator. *)
Lemma listener_events_close_nothing (s : sock) (evs : list event) :
  forallb is_listener_event evs = true -> closes_of s evs = 0.
Proof.
  induction evs as [|e evs IH]; [reflexivity|].
  cbn [forallb]. intros H. apply andb_prop in H as [He Hevs].
  destruct e; try discriminate He; cbn; auto.
Qed.

Lemma listener_events_send_nothing (s : sock) (evs : list event) :
  forallb is_listener_event evs = true -> sent_to s evs = [].
Proof.
  induction evs as [|e evs IH]; [reflexivity|].
  cbn [forallb]. intros H. apply andb_prop in H as [He Hevs].
  destruct e; try discriminate He; cbn; auto.
Qed.

Lemma listener_events_disconnect_nothing (evs : list event) :
  forallb is_listener_event evs = true -> disconnects evs = [].
Proof.
  induction evs as [|e evs IH]; [reflexivity|].
  cbn [forallb]. intros H. apply andb_prop in H as [He Hevs].
  destruct e; try discriminate He; cbn; auto.
Qed.

(** C1. A TCP client delivers the non-empty chunks [chunks] and then closes
    (a read of length zero).  In a session that opens, over a Bluetooth link
    that takes the chunks, the loop passes exactly [chunks], in order, to
    [send] on the Bluetooth socket and ends with [TCPConnectionError]; the
    session reports it, and [disconnect] is called once, with the address
    derived from the path. *)
Theorem relay_forwards_chunks_then_disconnects
    (self : BluetoothServer.t) (path : string) (fd : nat)
    (properties : list (string * string)) (w : world)
    (chunks : list string) (rest : list recv_outcome) :
  session_opens (BluetoothServer.tcp_port self) w ->
  incoming w = map RecvData chunks ++ RecvData EmptyString :: rest ->
  Forall (fun d => d <> EmptyString) chunks ->
  (forall k, bt_accepts w = Some k -> List.length chunks <= k) ->
  find_adapter_fails w = None ->
  let l := next_fd w in
  let c := S l in
  let b := S (S l) in
  let shutdown := TCPConnectionError "External connection shutdown" in
  let r := BluetoothServer.NewConnection self path fd properties w in
  (forall tcp_server, TCPServer.client_socket tcp_server = Some c ->
     fst (BluetoothServer.relay tcp_server b w) = Raise shutdown)
  /\ fst r = Return tt
  /\ exists peer evs,
       trace (snd r) = trace w ++ evs
       /\ evs = opening_events (derive_address path)
                  (BluetoothServer.tcp_port self) l c b peer
                ++ forwarding c b 1024 chunks
                ++ [EvRecv c 1024; EvPrint (PExn shutdown)]
                ++ closing_events (derive_address path) l c b None
       /\ sent_to b evs = chunks
       /\ disconnects evs = [derive_address path].
Proof.
  intros ([p Hfree] & [peer Hclient] & Hhandle) Hin Hchunks Hbudget Hadapter
         l c b shutdown r.
  pose proof (relay_run_chunks c b 1024 chunks rest Hchunks
                (bt_accepts w) Hbudget) as Hrun.
  split.
  - intros tcp_server Hc. rewrite (relay_summary tcp_server c b Hc). cbn.
    rewrite Hin, (relay_run_chunks c b _ chunks rest Hchunks _ Hbudget).
    reflexivity.
  - subst r.
    rewrite (NewConnection_session self path fd properties w p peer
               Hfree Hclient Hhandle).
    cbv zeta. subst l c b. rewrite Hin, Hrun, Hadapter.
    cbn [end_result end_events end_pending end_budget fst snd trace
         relay_report].
    set (l := next_fd w). set (c := S l). set (b := S c).
    split; [reflexivity|].
    exists peer. eexists. split; [|split; [reflexivity|]].
    + rewrite <- !app_assoc. reflexivity.
    + rewrite !sent_to_app, !disconnects_app, sent_to_forwarding.
      rewrite (relay_events_disconnect_nothing (forwarding c b 1024 chunks)).
      * cbn [opening_events closing_events sent_to disconnects app].
        rewrite app_nil_r. split; reflexivity.
      * clear. induction chunks; [reflexivity|]. cbn. exact IHchunks.
Qed.

Lemma relay_forwards_chunks_then_disconnects_witness :
  let w := quiet_world [RecvData "ab"; RecvData "c"; RecvData EmptyString] in
  let r := BluetoothServer.NewConnection server0 path0 7 [] w in
  fst r = Return tt
  /\ sent_to 5 (trace (snd r)) = ["ab"; "c"]%string
  /\ disconnects (trace (snd r)) = ["AA:BB:CC:DD:EE:FF"%string].
Proof.
  cbv zeta.
  pose proof (relay_forwards_chunks_then_disconnects server0 path0 7 []
                (quiet_world [RecvData "ab"; RecvData "c"; RecvData EmptyString])
                ["ab"; "c"]%string []) as H.
  cbv zeta in H.
  destruct H as (_ & Hret & peer & evs & Htrace & _ & Hsent & Hdisc).
  - apply (session_opens_free _ _ ("127.0.0.1"%string, 50000%Z));
      [reflexivity | cbn; lia | reflexivity..].
  - reflexivity.
  - repeat constructor; discriminate.
  - discriminate.
  - reflexivity.
  - split; [exact Hret|]. rewrite Htrace. cbn [quiet_world trace app].
    split; [exact Hsent | exact Hdisc].
Defined.

(** C2, as stated, fails: with port 8043 held by another process
    [initialize] returns [False], and [disconnect] is called nevertheless. *)
Lemma bind_failure_still_disconnects :
  let r := BluetoothServer.NewConnection server0 path0 7 [] world_port_taken in
  (exists t, fst (TCPServer.initialize (TCPServer.init 8043) world_port_taken)
             = Return (false, t))
  /\ fst r = Return tt
  /\ disconnects (trace world_port_taken) = []
  /\ disconnects (trace (snd r)) = ["AA:BB:CC:DD:EE:FF"%string].
Proof. cbv zeta. split; [eexists; reflexivity | repeat split]. Qed.

(** C2, amended. When the listener does not start ([TCPServer.initialize]
    returns [False], whatever [socket.error] stopped it), the session raises
    [TCPServerError] and reports it without any call on the TCP client or on
    the Bluetooth transport: after the calls that set the listening socket up
    and the report of the [socket.error], no [accept], no use of the
    transport handle, no [send], no [close].  After the report [disconnect]
    is called once with the derived address, and [NewConnection] returns.
    Where the environment refuses none of the socket calls, the failure is
    that of a port in use and the calls are exactly those listed. *)
Theorem bind_failure_aborts_then_disconnects
    (self : BluetoothServer.t) (path : string) (fd : nat)
    (properties : list (string * string)) (w : world) :
  (exists t, fst (TCPServer.initialize
                    (TCPServer.init (BluetoothServer.tcp_port self)) w)
             = Return (false, t)) ->
  find_adapter_fails w = None ->
  let l := next_fd w in
  let address := derive_address path in
  let r := BluetoothServer.NewConnection self path fd properties w in
  fst r = Return tt
  /\ (exists calls errno,
        trace (snd r)
        = trace w ++
          [EvPrint (PStr "Connected:"); EvPrint (PStr address)]
          ++ calls
          ++ [EvPrint (PExn (SocketError errno));
              EvPrint (PExn (TCPServerError "TCP server did not start"));
              EvBluetoothNew; EvDisconnect address]
        /\ forallb is_listener_event calls = true)
  /\ ((forall c, os_fails w c = None) ->
      trace (snd r)
      = trace w ++
        [EvPrint (PStr "Connected:"); EvPrint (PStr address);
         EvSocket l; EvSetReuseAddr l;
         EvBind l "localhost" (BluetoothServer.tcp_port self);
         EvPrint (PExn (SocketError "EADDRINUSE"));
         EvPrint (PExn (TCPServerError "TCP server did not start"));
         EvBluetoothNew; EvDisconnect address])
  /\ disconnects (trace (snd r)) = disconnects (trace w) ++ [address]
  /\ (forall s, closes_of s (trace (snd r)) = closes_of s (trace w))
  /\ (forall s, sent_to s (trace (snd r)) = sent_to s (trace w)).
Proof.
  intros [t Hinit] Hadapter l address r.
  rewrite initialize_summary in Hinit. cbn [fst] in Hinit.
  subst r.
  rewrite (NewConnection_no_listener self path fd properties w t Hinit).
  cbv zeta. rewrite Hadapter. cbn [fst snd trace].
  pose proof (listener_run_cases (BluetoothServer.tcp_port self) w) as Hrun.
  cbv zeta in Hrun. rewrite Hinit in Hrun.
  destruct Hrun as (calls & errno & Hevents & Hcalls & Hquiet).
  rewrite Hevents. fold l address.
  split; [reflexivity|].
  split; [exists calls, errno; split; [|exact Hcalls];
          now rewrite <- !app_assoc|].
  split.
  { intros Hq. destruct (Hquiet Hq) as (_ & _ & -> & -> & _). reflexivity. }
  repeat split; intros;
    rewrite ?disconnects_app, ?closes_of_app, ?sent_to_app;
    rewrite ?(listener_events_disconnect_nothing _ Hcalls),
            ?(listener_events_close_nothing _ _ Hcalls),
            ?(listener_events_send_nothing _ _ Hcalls);
    cbn; auto using app_nil_r.
Qed.

Lemma bind_failure_aborts_then_disconnects_witness :
  let r := BluetoothServer.NewConnection server0 path0 7 [] world_port_taken in
  fst r = Return tt
  /\ disconnects (trace (snd r)) = ["AA:BB:CC:DD:EE:FF"%string]
  /\ closes_of 3 (trace (snd r)) = 0.
Proof.
  cbv zeta.
  destruct (bind_failure_aborts_then_disconnects server0 path0 7 []
              world_port_taken) as (Hret & _ & _ & Hdisc & Hclose & _).
  - eexists. reflexivity.
  - reflexivity.
  - split; [exact Hret|]. split; [exact Hdisc | exact (Hclose 3)].
Defined.

(** C3. In every session that reaches the relay loop and leaves it, however
    the loop ended (empty read, failed read, failed write to the Bluetooth
    socket), the Bluetooth socket, the accepted TCP socket and the listening
    socket are each closed exactly once, after the loop and before the
    collaborator is called; and when the collaborator can be constructed,
    [disconnect] is called once with the derived address and the session
    returns. *)
Theorem session_closes_each_socket_once
    (self : BluetoothServer.t) (path : string) (fd : nat)
    (properties : list (string * string)) (w : world) :
  session_opens (BluetoothServer.tcp_port self) w ->
  fst (BluetoothServer.NewConnection self path fd properties w) <> Blocked ->
  let l := next_fd w in
  let c := S l in
  let b := S (S l) in
  let address := derive_address path in
  let r := BluetoothServer.NewConnection self path fd properties w in
  exists body,
    trace (snd r)
    = trace w ++ body ++ closing_events address l c b (find_adapter_fails w)
    /\ (forall s, closes_of s body = 0)
    /\ disconnects body = []
    /\ closes_of b (trace (snd r)) = closes_of b (trace w) + 1
    /\ closes_of c (trace (snd r)) = closes_of c (trace w) + 1
    /\ closes_of l (trace (snd r)) = closes_of l (trace w) + 1
    /\ (find_adapter_fails w = None ->
        fst r = Return tt
        /\ disconnects (trace (snd r)) = disconnects (trace w) ++ [address]).
Proof.
  intros ([p Hfree] & [peer Hclient] & Hhandle) Hends l c b address r.
  subst r. revert Hends.
  rewrite (NewConnection_session self path fd properties w p peer
             Hfree Hclient Hhandle).
  cbv zeta. subst c b address. fold l.
  pose proof (relay_run_events (S l) (S (S l)) 1024 (incoming w)
                (bt_accepts w)) as Hevs.
  set (e := relay_run (S l) (S (S l)) 1024 (incoming w) (bt_accepts w)) in *.
  set (body := opening_events (derive_address path)
                 (BluetoothServer.tcp_port self) l (S l) (S (S l)) peer
               ++ end_events e ++ relay_report (end_result e)).
  set (closing := closing_events (derive_address path) l (S l) (S (S l))
                    (find_adapter_fails w)).
  assert (Hbody : forall s, closes_of s body = 0).
  { intros s. unfold body. rewrite !closes_of_app.
    rewrite (relay_events_close_nothing s _ Hevs), closes_of_report.
    reflexivity. }
  assert (Hnodisc : disconnects body = []).
  { unfold body. rewrite !disconnects_app.
    rewrite (relay_events_disconnect_nothing _ Hevs), disconnects_report.
    reflexivity. }
  destruct (closes_of_closing (derive_address path) l (find_adapter_fails w))
    as (Hb & Hc & Hl). fold closing in Hb, Hc, Hl.
  assert (Hrun :
            exists body0,
              trace w ++ body ++ closing = trace w ++ body0 ++ closing
              /\ (forall s, closes_of s body0 = 0)
              /\ disconnects body0 = []
              /\ closes_of (S (S l)) (trace w ++ body ++ closing)
                 = closes_of (S (S l)) (trace w) + 1
              /\ closes_of (S l) (trace w ++ body ++ closing)
                 = closes_of (S l) (trace w) + 1
              /\ closes_of l (trace w ++ body ++ closing)
                 = closes_of l (trace w) + 1
              /\ (find_adapter_fails w = None ->
                  match find_adapter_fails w with
                  | None => Return tt
                  | Some x => Raise x
                  end = Return tt
                  /\ disconnects (trace w ++ body ++ closing)
                     = disconnects (trace w) ++ [derive_address path])).
  { exists body.
    split; [reflexivity|]. split; [exact Hbody|]. split; [exact Hnodisc|].
    rewrite !closes_of_app, !Hbody, Hb, Hc, Hl. cbn [Nat.add].
    split; [reflexivity|]. split; [reflexivity|]. split; [reflexivity|].
    intros Hadapter. split; [now rewrite Hadapter|].
    rewrite !disconnects_app, Hnodisc. unfold closing. rewrite Hadapter.
    reflexivity. }
  assert (Htrace : forall report,
            (trace w ++ opening_events (derive_address path)
                          (BluetoothServer.tcp_port self) l (S l) (S (S l)) peer
                     ++ end_events e)
            ++ report ++ closing
            = trace w ++ (opening_events (derive_address path)
                            (BluetoothServer.tcp_port self) l (S l) (S (S l))
                            peer
                          ++ end_events e ++ report) ++ closing).
  { intros report. now rewrite <- !app_assoc. }
  fold closing. rewrite Htrace. fold body.
  destruct (end_result e) as [[]|x|] eqn:Hres; cbn [fst snd trace];
    intros Hends; try congruence; exact Hrun.
Qed.

(** The branch where the write to the Bluetooth socket fails after three
    chunks. *)
Lemma session_closes_each_socket_once_witness :
  let r := BluetoothServer.NewConnection server0 path0 7 [] world_peer_abort in
  fst r = Return tt
  /\ sent_to 5 (trace (snd r)) = ["one"; "two"; "three"]%string
  /\ In (EvSendFailed 5 "four") (trace (snd r))
  /\ closes_of 5 (trace (snd r)) = 1
  /\ closes_of 4 (trace (snd r)) = 1
  /\ closes_of 3 (trace (snd r)) = 1
  /\ disconnects (trace (snd r)) = ["AA:BB:CC:DD:EE:FF"%string].
Proof.
  cbv zeta.
  destruct (session_closes_each_socket_once server0 path0 7 []
              world_peer_abort)
    as (body & _ & _ & _ & Hb & Hc & Hl & Hd).
  - apply (session_opens_free _ _ ("127.0.0.1"%string, 50000%Z));
      [reflexivity | cbn; lia | reflexivity..].
  - discriminate.
  - destruct (Hd eq_refl) as [Hret Hdisc].
    split; [exact Hret|]. split; [reflexivity|].
    split; [cbn; tauto|].
    split; [exact Hb|]. split; [exact Hc|]. split; [exact Hl | exact Hdisc].
Defined.

(** C6, as stated, fails: an error raised by [accept] is caught by no
    [except] clause of [NewConnection] and leaves the callback. *)
Lemma accept_error_leaves_NewConnection :
  fst (BluetoothServer.NewConnection server0 path0 7 [] world_accept_fails)
  = Raise (SocketError "ECONNABORTED").
Proof. reflexivity. Qed.

(** C6, amended. Whenever the TCP port is a port number (0 to 65535),
    [accept] does not raise, the transport handle can be wrapped and the
    collaborator can be constructed, with an adapter found, no exception
    leaves [NewConnection]: a
    listener that does not start, an empty read and an I/O error of a read
    or of a write are all handled inside, and the callback returns, unless
    it stays blocked in [accept] (no client) or in [recv] (a client that
    neither sends nor closes). *)
Theorem NewConnection_handles_session_errors
    (self : BluetoothServer.t) (path : string) (fd : nat)
    (properties : list (string * string)) (w : world) :
  (0 <= BluetoothServer.tcp_port self <= 65535)%Z ->
  (forall errno, client w <> AcceptFails errno) ->
  handle_bad w = None ->
  find_adapter_fails w = None ->
  let port := BluetoothServer.tcp_port self in
  let l := next_fd w in
  let tcp_server :=
    TCPServer.set_client_socket
      (TCPServer.set_server_socket (TCPServer.init port) l) (S l) in
  let r := BluetoothServer.NewConnection self path fd properties w in
  (forall e, fst r <> Raise e)
  /\ (fst r = Return tt
      \/ fst r = Blocked
         /\ (exists p, listens port w p)
         /\ (client w = AcceptNever
             \/ fst (BluetoothServer.relay tcp_server (S (S l)) w) = Blocked)).
Proof.
  intros Hrange Haccept Hhandle Hadapter port l tcp_server r.
  assert (H : fst r = Return tt
              \/ fst r = Blocked
                 /\ (exists p, listens port w p)
                 /\ (client w = AcceptNever
                     \/ fst (BluetoothServer.relay tcp_server (S (S l)) w)
                        = Blocked)).
  { subst r.
    pose proof (listener_run_cases port w) as Hrun. cbv zeta in Hrun.
    destruct (listener_result (listener_run port w)) as [[[] t]|x|] eqn:Hres.
    - destruct Hrun as (_ & p & Hlistens & _).
      destruct (client w) as [peer|errno|] eqn:Hclient.
      + rewrite (NewConnection_session self path fd properties w p peer
                   Hlistens Hclient Hhandle).
        cbv zeta. rewrite (relay_summary tcp_server (S l) (S (S l)) eq_refl).
        cbv zeta. cbn [TCPServer.buffer_size tcp_server
                       TCPServer.set_client_socket TCPServer.set_server_socket
                       TCPServer.init fst].
        fold l.
        destruct (end_result (relay_run (S l) (S (S l)) 1024 (incoming w)
                                (bt_accepts w))) as [[]|x|];
          rewrite ?Hadapter; cbn [fst]; auto.
        right. split; [reflexivity|]. split; [now exists p | now right].
      + now destruct (Haccept errno).
      + right. split; [|split; [now exists p | now left]].
        now apply (NewConnection_accept_never self path fd properties w p).
    - left. rewrite (NewConnection_no_listener self path fd properties w t Hres).
      cbv zeta. now rewrite Hadapter.
    - destruct Hrun as (_ & Hvalid & _).
      apply valid_port_range in Hrange. unfold port in Hvalid. congruence.
    - contradiction. }
  split; [|exact H].
  intros e He. destruct H as [H|[H _]]; congruence.
Qed.

(** A failing write to the Bluetooth socket is such an error. *)
Lemma NewConnection_handles_session_errors_witness :
  fst (BluetoothServer.NewConnection server0 path0 7 [] world_peer_abort)
  = Return tt.
Proof.
  destruct (NewConnection_handles_session_errors server0 path0 7 []
              world_peer_abort) as [_ [H|[H _]]].
  - cbn. lia.
  - discriminate.
  - reflexivity.
  - reflexivity.
  - exact H.
  - discriminate H.
Defined.

(* ================================================================== *)
(** ** Sequential sessions *)

(** The port the kernel picks for a bind to port 0 is free. *)
Lemma lowest_free_free (in_use : Z -> bool) (fuel : nat) :
  forall start p, Os.lowest_free fuel in_use start = Some p -> in_use p = false.
Proof.
  induction fuel as [|fuel IH]; intros start p; cbn [Os.lowest_free];
    [discriminate|].
  destruct (in_use start) eqn:Hstart; [apply IH|].
  now intros [= <-].
Qed.

(** With fewer ports in use the kernel still finds one. *)
Lemma lowest_free_mono (f g : Z -> bool) (fuel : nat) :
  (forall q, g q = true -> f q = true) ->
  forall start p,
    Os.lowest_free fuel f start = Some p ->
    exists p', Os.lowest_free fuel g start = Some p'.
Proof.
  intros Hsub. induction fuel as [|fuel IH]; intros start p;
    cbn [Os.lowest_free]; [discriminate|].
  destruct (g start) eqn:Hg; [|now eexists].
  rewrite (Hsub _ Hg). apply IH.
Qed.

(** The port on which a listener binds had no live socket. *)
Lemma listens_on_free_port (port : Z) (w : world) (p : Z) :
  listens port w p ->
  Os.port_in_use p w = false /\ (port <> 0%Z -> p = port).
Proof.
  intros (_ & _ & Hlocal). unfold Os.local_port, Os.ephemeral_port in Hlocal.
  destruct (Z.eqb_spec port 0) as [->|Hport].
  - split; [|congruence].
    exact (lowest_free_free (fun q => Os.port_in_use q w) _ _ _ Hlocal).
  - destruct (Os.port_in_use port w) eqn:Hfree; [discriminate|].
    injection Hlocal as <-. split; [exact Hfree | reflexivity].
Qed.

(** A socket bound once [l], [c] and [b] are closed was bound before [l]
    was. *)
Lemma in_use_after_closes (q p : Z) (l c b : sock) (bnd : list (sock * Z)) :
  existsb (fun x => Z.eqb q (snd x)) (after_closes l c b ((l, p) :: bnd)) = true ->
  existsb (fun x => Z.eqb q (snd x)) bnd = true.
Proof.
  unfold after_closes. rewrite !existsb_exists.
  intros (x & Hin & Hx). exists x. split; [|exact Hx].
  apply filter_In in Hin as [Hin Hl].
  apply filter_In in Hin as [Hin _].
  apply filter_In in Hin as [[<-|Hin] _]; [|exact Hin].
  cbn [fst] in Hl. now rewrite Nat.eqb_refl in Hl.
Qed.

(** C9. After a session that ran through its teardown ([kill_connection]
    closed the accepted and the listening socket), the port on which the
    listener was is free again and [initialize] on a fresh [TCPServer] for
    the same port returns [True]. *)
Theorem listener_released_after_session
    (self : BluetoothServer.t) (path : string) (fd : nat)
    (properties : list (string * string)) (w : world) :
  session_opens (BluetoothServer.tcp_port self) w ->
  fst (BluetoothServer.NewConnection self path fd properties w) <> Blocked ->
  let port := BluetoothServer.tcp_port self in
  let l := next_fd w in
  let w' := snd (BluetoothServer.NewConnection self path fd properties w) in
  (exists earlier later,
     trace w' = trace w ++ earlier ++ EvClose (S l) :: EvClose l :: later)
  /\ (forall p, listens port w p -> Os.port_in_use p w' = false)
  /\ (port <> 0%Z -> Os.port_in_use port w' = false)
  /\ fst (TCPServer.initialize (TCPServer.init port) w')
     = Return (true,
               TCPServer.set_server_socket (TCPServer.init port) (next_fd w')).
Proof.
  intros ([p Hfree] & [peer Hclient] & Hhandle) Hends port l w'.
  assert (Hw' : (exists earlier later,
                   trace w' = trace w ++ earlier
                                ++ EvClose (S l) :: EvClose l :: later)
                /\ os_fails w' = os_fails w
                /\ taken_ports w' = taken_ports w
                /\ bound w' = after_closes l (S l) (S (S l)) ((l, p) :: bound w)).
  { subst w'. revert Hends.
    rewrite (NewConnection_session self path fd properties w p peer
               Hfree Hclient Hhandle).
    cbv zeta. fold l port.
    set (e := relay_run (S l) (S (S l)) 1024 (incoming w) (bt_accepts w)).
    assert (Htrace : forall report adapter, exists earlier later,
              (trace w ++ opening_events (derive_address path) port l (S l)
                            (S (S l)) peer ++ end_events e)
              ++ report
              ++ closing_events (derive_address path) l (S l) (S (S l)) adapter
              = trace w ++ earlier ++ EvClose (S l) :: EvClose l :: later).
    { intros report adapter. unfold closing_events.
      exists (opening_events (derive_address path) port l (S l) (S (S l)) peer
              ++ end_events e ++ report ++ [EvClose (S (S l))]).
      eexists. rewrite <- !app_assoc. cbn [app]. reflexivity. }
    destruct (end_result e) as [[]|x|]; cbn [fst snd trace];
      intros Hends; try congruence;
      (split; [apply Htrace | repeat split]). }
  destruct Hw' as (Htrace & Hos & Htaken & Hbound).
  assert (Hsub : forall q, Os.port_in_use q w' = true ->
                           Os.port_in_use q w = true).
  { intros q. unfold Os.port_in_use. rewrite Htaken, Hbound.
    intros H. apply orb_true_iff in H as [H|H]; apply orb_true_iff;
      [now left | right].
    exact (in_use_after_closes _ _ _ _ _ _ H). }
  assert (Hreleased : forall q, listens port w q -> Os.port_in_use q w' = false).
  { intros q Hq. apply listens_on_free_port in Hq as [Hq _].
    destruct (Os.port_in_use q w') eqn:E; [|reflexivity].
    apply Hsub in E. congruence. }
  assert (Hagain : exists p', listens port w' p').
  { destruct Hfree as (Hquiet & Hrange & Hlocal).
    assert (Hlocal' : exists p', Os.local_port port w' = Some p').
    { unfold Os.local_port, Os.ephemeral_port in *. fold port in Hlocal.
      destruct (Z.eqb_spec port 0) as [Hzero|Hport].
      - exact (lowest_free_mono _ _ _ Hsub _ _ Hlocal).
      - destruct (Os.port_in_use port w) eqn:Hin; [discriminate|].
        destruct (Os.port_in_use port w') eqn:Hin'; [|now eexists].
        apply Hsub in Hin'. congruence. }
    destruct Hlocal' as [p' Hlocal']. exists p'.
    split; [now rewrite Hos|]. split; [exact Hrange | exact Hlocal']. }
  split; [exact Htrace|]. split; [exact Hreleased|]. split.
  { intros Hport. pose proof (listens_on_free_port _ _ _ Hfree) as [_ Hp].
    fold port in Hp. rewrite <- (Hp Hport). now apply Hreleased. }
  destruct Hagain as [p' Hagain].
  now rewrite (initialize_listens port w' p' Hagain).
Qed.

(** Two sessions in a row on port 8043. *)
Lemma listener_released_after_session_witness :
  let w := quiet_world [RecvData "ab"; RecvData EmptyString] in
  let w' := snd (BluetoothServer.NewConnection server0 path0 7 [] w) in
  Os.port_in_use 8043 w' = false
  /\ fst (TCPServer.initialize (TCPServer.init 8043) w')
     = Return (true, TCPServer.set_server_socket (TCPServer.init 8043) 6).
Proof.
  cbv zeta.
  destruct (listener_released_after_session server0 path0 7 []
              (quiet_world [RecvData "ab"; RecvData EmptyString]))
    as (_ & _ & Hport & Hinit).
  - apply (session_opens_free _ _ ("127.0.0.1"%string, 50000%Z));
      [reflexivity | cbn; lia | reflexivity..].
  - discriminate.
  - split; [apply Hport; discriminate | exact Hinit].
Defined.

(* ================================================================== *)
(** * Further properties of [blueserver.py] *)

(** ** The derived address *)

Lemma length_subst_char (a b : ascii) (s : string) :
  String.length (PyStr.subst_char a b s) = String.length s.
Proof. induction s as [|c s IH]; cbn; [reflexivity | now rewrite IH]. Qed.

Lemma length_substring (n m : nat) (s : string) :
  n + m <= String.length s -> String.length (substring n m s) = m.
Proof.
  revert n m. induction s as [|c s IH]; intros n m H; cbn in H.
  - assert (n = 0) by lia. assert (m = 0) by lia. now subst.
  - destruct n as [|n]; cbn.
    + destruct m as [|m]; cbn; [reflexivity|].
      rewrite IH by lia. reflexivity.
    + apply IH. lia.
Qed.

Lemma get_subst_char (a b : ascii) (s : string) :
  a <> b -> forall n, String.get n (PyStr.subst_char a b s) <> Some a.
Proof.
  intros Hab. induction s as [|c s IH]; intros n; cbn; [discriminate|].
  destruct n as [|n]; [|apply IH].
  destruct (Ascii.eqb_spec c a); congruence.
Qed.

(** Whatever the path, no underscore is left in the derived address. *)
Theorem derive_address_has_no_underscore (path : string) (n : nat) :
  String.get n (derive_address path) <> Some "_"%char.
Proof.
  unfold derive_address. rewrite replace_char.
  apply get_subst_char. discriminate.
Qed.

(** The derived address has 17 characters when the path has at least 17.
    A shorter path of [n] characters makes the start of the slice negative,
    which Python counts from the end: what is kept then has [n] or [17 - n]
    characters, whichever is less. *)
Theorem derive_address_length (path : string) :
  let n := String.length path in
  String.length (derive_address path)
  = if (17 <=? n)%nat then 17 else Nat.min n (17 - n).
Proof.
  intros n. unfold derive_address. rewrite replace_char, length_subst_char.
  unfold PyStr.slice, PyStr.clamp_index. fold n.
  destruct (Nat.leb_spec 17 n) as [Hn|Hn].
  - destruct (Z.ltb_spec (Z.of_nat n - 17) 0); [lia|].
    destruct (Z.ltb_spec (Z.of_nat n) 0); [lia|].
    rewrite Z.min_id, Z.min_l by lia.
    destruct (Z.ltb_spec (Z.of_nat n - 17) (Z.of_nat n)); [|lia].
    rewrite length_substring; fold n; lia.
  - destruct (Z.ltb_spec (Z.of_nat n - 17) 0); [|lia].
    destruct (Z.ltb_spec (Z.of_nat n) 0); [lia|].
    rewrite Z.min_id.
    destruct (Z.ltb_spec (Z.max 0 (Z.of_nat n - 17 + Z.of_nat n)) (Z.of_nat n)).
    + rewrite length_substring; fold n; lia.
    + cbn. lia.
Qed.

(** ** Registration and the life cycle of the server *)

Lemma has_filter_out (path : string) (l : list string) :
  Bluez.has path (filter (fun p => negb (String.eqb path p)) l) = false.
Proof.
  unfold Bluez.has. induction l as [|x l IH]; [reflexivity|].
  cbn [filter]. destruct (String.eqb path x) eqn:E; cbn [negb]; [exact IH|].
  cbn [existsb]. now rewrite E, IH.
Qed.

Lemma deinitialize_eq (self : SerialPort.t) (w : world) :
  let path := SerialPort.profile_path self in
  SerialPort.deinitialize self w
  = (Return tt,
     set_registered (filter (fun p => negb (String.eqb path p)) (registered w))
       (log (EvUnregisterProfile path) w)).
Proof.
  intros path. subst path. unfold SerialPort.deinitialize. py_run.
  destruct (Bluez.has _ (registered w)) eqn:Hreg; py_run; [reflexivity|].
  now rewrite (filter_absent _ _ Hreg).
Qed.

(** [deinitialize] cannot fail: whether BlueZ knows the profile or rejects
    the request, the call returns, one [UnregisterProfile] request has been
    sent, the profile is not on record afterwards and the other profiles
    are left as they were. *)
Theorem deinitialize_never_fails (self : SerialPort.t) (w : world) :
  let path := SerialPort.profile_path self in
  let r := SerialPort.deinitialize self w in
  fst r = Return tt
  /\ trace (snd r) = trace w ++ [EvUnregisterProfile path]
  /\ Bluez.has path (registered (snd r)) = false
  /\ (forall other, other <> path ->
        Bluez.has other (registered (snd r)) = Bluez.has other (registered w)).
Proof.
  intros path r. subst r. rewrite deinitialize_eq. fold path.
  cbn [fst snd]. world_fields.
  split; [reflexivity|]. split; [reflexivity|].
  split; [apply has_filter_out|].
  intros other Hother. unfold Bluez.has.
  induction (registered w) as [|x l IH]; [reflexivity|].
  cbn [filter existsb]. destruct (String.eqb_spec path x) as [->|Hx]; cbn [negb].
  - rewrite IH. destruct (String.eqb_spec other x); [contradiction | reflexivity].
  - cbn [existsb]. now rewrite IH.
Qed.

(** [quit] on a server that holds a process, as one equation. *)
Lemma quit_running_eq (self : BluetoothServer.t) (pid : nat) (w : world) :
  BluetoothServer.server_process self = Some pid ->
  let path := SerialPort.profile_path (BluetoothServer.spp self) in
  let w' := log (EvProcessJoin pid)
              (log (EvProcessTerminate pid) (log EvMainloopQuit w)) in
  BluetoothServer.quit self w
  = (Return (BluetoothServer.set_server_process self None),
     set_registered (filter (fun p => negb (String.eqb path p)) (registered w'))
       (log (EvUnregisterProfile path) w')).
Proof.
  intros Hpid path w'. subst path w'.
  unfold BluetoothServer.quit. rewrite Hpid.
  unfold Proc.mainloop_quit, Proc.terminate, Proc.join.
  erewrite bind_Return
    by (erewrite bind_Return by reflexivity;
        erewrite bind_Return by reflexivity;
        erewrite bind_Return by reflexivity; reflexivity).
  cbv beta.
  erewrite bind_Return by apply deinitialize_eq.
  reflexivity.
Qed.

(** [quit] in any state: it returns, the server holds no process any more
    and the profile is off the record; a process that was held has been
    terminated and joined, after the event loop was told to quit and before
    the profile is unregistered. *)
Theorem quit_always_stops (self : BluetoothServer.t) (w : world) :
  let path := SerialPort.profile_path (BluetoothServer.spp self) in
  let stopping :=
    match BluetoothServer.server_process self with
    | Some pid => [EvMainloopQuit; EvProcessTerminate pid; EvProcessJoin pid]
    | None => []
    end in
  let r := BluetoothServer.quit self w in
  fst r = Return (BluetoothServer.set_server_process self None)
  /\ trace (snd r) = trace w ++ stopping ++ [EvUnregisterProfile path]
  /\ Bluez.has path (registered (snd r)) = false
  /\ next_pid (snd r) = next_pid w.
Proof.
  intros path stopping r. subst r stopping.
  unfold BluetoothServer.quit.
  destruct self as [sp port [pid|]];
    cbn [BluetoothServer.server_process BluetoothServer.spp
         BluetoothServer.set_server_process] in *.
  - unfold Proc.mainloop_quit, Proc.terminate, Proc.join.
    erewrite bind_Return
      by (erewrite bind_Return by reflexivity;
          erewrite bind_Return by reflexivity;
          erewrite bind_Return by reflexivity; reflexivity).
    cbv beta.
    erewrite bind_Return by (cbn [BluetoothServer.spp]; apply deinitialize_eq).
    cbn [fst snd ret]. world_fields.
    split; [reflexivity|]. split; [now rewrite <- !app_assoc|].
    split; [apply has_filter_out | reflexivity].
  - erewrite bind_Return by reflexivity. cbv beta.
    erewrite bind_Return by (cbn [BluetoothServer.spp]; apply deinitialize_eq).
    cbn [fst snd ret]. world_fields.
    split; [reflexivity|]. split; [reflexivity|].
    split; [apply has_filter_out | reflexivity].
Qed.

(** What a successful [run] leaves behind. *)
Lemma run_registered (self : BluetoothServer.t) (w : world) :
  fst (SerialPort.initialize (BluetoothServer.spp self) w) = Return true ->
  let sp := BluetoothServer.spp self in
  let pid := next_pid w in
  bluez_refuses w = None
  /\ Bluez.has (SerialPort.profile_path sp) (registered w) = false
  /\ BluetoothServer.run self w
     = (Return (true, BluetoothServer.set_server_process self (Some pid)),
        log (EvProcessStart pid)
          (set_next_pid (S pid)
             (set_registered (SerialPort.profile_path sp :: registered w)
                (log (EvRegisterProfile (SerialPort.profile_path sp)
                        (SerialPort.uuid sp) (SerialPort.opts sp)) w)))).
Proof.
  intros Hinit sp pid. subst sp pid. revert Hinit.
  unfold BluetoothServer.run, SerialPort.initialize. py_run.
  destruct (bluez_refuses w) as [name|]; py_run; [discriminate|].
  destruct (Bluez.has _ (registered w)); py_run; [discriminate|].
  intros _. repeat split.
Qed.

(** [run] followed by [quit] on a stopped server whose registration is
    accepted: the process that was started is the one terminated and
    joined, the server object and the record of profiles are back where
    they were, and between the two requests to BlueZ nothing else is
    called. *)
Theorem run_then_quit (self : BluetoothServer.t) (w : world) :
  BluetoothServer.server_process self = None ->
  fst (SerialPort.initialize (BluetoothServer.spp self) w) = Return true ->
  let sp := BluetoothServer.spp self in
  let path := SerialPort.profile_path sp in
  let pid := next_pid w in
  exists self1 w1 w2,
    BluetoothServer.run self w = (Return (true, self1), w1)
    /\ BluetoothServer.server_process self1 = Some pid
    /\ BluetoothServer.quit self1 w1 = (Return self, w2)
    /\ registered w2 = registered w
    /\ trace w2
       = trace w ++
         [EvRegisterProfile path (SerialPort.uuid sp) (SerialPort.opts sp);
          EvProcessStart pid; EvMainloopQuit; EvProcessTerminate pid;
          EvProcessJoin pid; EvUnregisterProfile path].
Proof.
  intros Hstopped Hinit sp path pid.
  destruct (run_registered self w Hinit) as (_ & Hfresh & Hrun).
  fold sp path pid in Hfresh, Hrun.
  eexists. eexists. eexists.
  split; [exact Hrun|]. split; [reflexivity|].
  rewrite (quit_running_eq _ pid) by reflexivity.
  cbn [BluetoothServer.server_process BluetoothServer.spp
       BluetoothServer.set_server_process].
  fold sp path.
  split.
  - f_equal. f_equal. destruct self as [sp0 port0 proc0].
    cbn in Hstopped |- *. now subst.
  - world_fields. split.
    + cbn [filter]. rewrite String.eqb_refl. cbn [negb].
      apply filter_absent. exact Hfresh.
    + now rewrite <- !app_assoc.
Qed.

(** A second [run] on a server that is running: BlueZ has the profile path
    on record and rejects the duplicate, so [run] returns [False], creates
    and starts no second process, and the server keeps the one it has. *)
Theorem run_when_running (self : BluetoothServer.t) (w : world)
    (self1 : BluetoothServer.t) (w1 : world) :
  BluetoothServer.run self w = (Return (true, self1), w1) ->
  let sp := BluetoothServer.spp self1 in
  BluetoothServer.run self1 w1
  = (Return (false, self1),
     log (EvPrint (PExn (DBusException "org.bluez.Error.AlreadyExists")))
       (log (EvRegisterProfile (SerialPort.profile_path sp)
               (SerialPort.uuid sp) (SerialPort.opts sp)) w1))
  /\ BluetoothServer.server_process self1 = Some (next_pid w)
  /\ next_pid (snd (BluetoothServer.run self1 w1)) = next_pid w1.
Proof.
  intros Hrun sp.
  assert (Hinit : fst (SerialPort.initialize (BluetoothServer.spp self) w)
                  = Return true).
  { revert Hrun. unfold BluetoothServer.run.
    pose proof (SerialPort_initialize_cases (BluetoothServer.spp self) w) as H.
    destruct (Bluez.RegisterProfile _ _ _ w) as [[[]|e|] w0].
    - now rewrite H.
    - destruct H as [_ H].
      erewrite bind_Return by exact H. cbn. discriminate.
    - contradiction. }
  destruct (run_registered self w Hinit) as (Hrefuses & _ & Heq).
  rewrite Heq in Hrun. injection Hrun as Hself Hw.
  subst sp. subst self1 w1.
  cbn [BluetoothServer.spp BluetoothServer.set_server_process
       BluetoothServer.server_process].
  assert (Hgoal :
            BluetoothServer.run
              (BluetoothServer.set_server_process self (Some (next_pid w)))
              (log (EvProcessStart (next_pid w))
                 (set_next_pid (S (next_pid w))
                    (set_registered
                       (SerialPort.profile_path (BluetoothServer.spp self)
                        :: registered w)
                       (log (EvRegisterProfile
                               (SerialPort.profile_path (BluetoothServer.spp self))
                               (SerialPort.uuid (BluetoothServer.spp self))
                               (SerialPort.opts (BluetoothServer.spp self)))
                          w))))
            = (Return (false,
                       BluetoothServer.set_server_process self
                         (Some (next_pid w))),
               log (EvPrint (PExn (DBusException
                                     "org.bluez.Error.AlreadyExists")))
                 (log (EvRegisterProfile
                         (SerialPort.profile_path (BluetoothServer.spp self))
                         (SerialPort.uuid (BluetoothServer.spp self))
                         (SerialPort.opts (BluetoothServer.spp self)))
                    (log (EvProcessStart (next_pid w))
                       (set_next_pid (S (next_pid w))
                          (set_registered
                             (SerialPort.profile_path (BluetoothServer.spp self)
                              :: registered w)
                             (log (EvRegisterProfile
                                     (SerialPort.profile_path
                                        (BluetoothServer.spp self))
                                     (SerialPort.uuid (BluetoothServer.spp self))
                                     (SerialPort.opts (BluetoothServer.spp self)))
                                w))))))).
  { unfold BluetoothServer.run, SerialPort.initialize.
    cbn [BluetoothServer.spp BluetoothServer.set_server_process].
    py_run. rewrite Hrefuses. py_run.
    unfold Bluez.has. cbn [existsb]. rewrite String.eqb_refl. cbn [orb].
    py_run. reflexivity. }
  rewrite Hgoal. split; [reflexivity|]. split; reflexivity.
Qed.

Lemma run_then_quit_witness :
  exists self1 w1 w2,
    BluetoothServer.run server0 (quiet_world []) = (Return (true, self1), w1)
    /\ BluetoothServer.quit self1 w1 = (Return server0, w2)
    /\ registered w2 = [].
Proof.
  destruct (run_then_quit server0 (quiet_world []) eq_refl eq_refl)
    as (self1 & w1 & w2 & Hrun & _ & Hquit & Hreg & _).
  exists self1, w1, w2. repeat split; assumption.
Defined.

Lemma run_when_running_witness :
  exists self1 w1,
    BluetoothServer.run server0 (quiet_world []) = (Return (true, self1), w1)
    /\ fst (BluetoothServer.run self1 w1) = Return (false, self1).
Proof.
  destruct (run_registered server0 (quiet_world []) eq_refl)
    as (_ & _ & Hrun).
  eexists. eexists. split; [exact Hrun|].
  destruct (run_when_running server0 (quiet_world []) _ _ Hrun) as (H & _ & _).
  rewrite H. reflexivity.
Defined.

(** ** The relay loop in any world *)

Lemma relay_run_sent (c b : sock) (bufsize : Z) (pending : list recv_outcome) :
  forall budget,
    sent_to b (end_events (relay_run c b bufsize pending budget))
    = within_budget budget (leading_chunks pending).
Proof.
  induction pending as [|[data|errno] rest IH]; intros budget;
    cbn [relay_run leading_chunks].
  - destruct budget as [[|k]|]; reflexivity.
  - destruct (String.eqb data EmptyString).
    + destruct budget as [[|k]|]; reflexivity.
    + destruct budget as [[|k]|]; cbn [end_events sent_to within_budget firstn].
      * reflexivity.
      * rewrite Nat.eqb_refl, IH. reflexivity.
      * rewrite Nat.eqb_refl, IH. reflexivity.
  - destruct budget as [[|k]|]; reflexivity.
Qed.

Lemma leading_chunks_nonempty (pending : list recv_outcome) :
  Forall (fun d => d <> EmptyString) (leading_chunks pending).
Proof.
  induction pending as [|[data|errno] rest IH]; cbn; try constructor.
  destruct (String.eqb_spec data EmptyString); constructor; assumption.
Qed.

(** Once a client is accepted, whatever the TCP client and the Bluetooth
    link do, what the loop hands to the Bluetooth socket is exactly the
    non-empty chunks read before the first empty or failed read, in the
    order they were read, cut where the link stops taking sends: nothing is
    sent twice, reordered, or made up, and no empty chunk is sent. *)
Theorem relay_sends_leading_chunks
    (tcp_server : TCPServer.t) (c b : sock) (w : world) :
  TCPServer.client_socket tcp_server = Some c ->
  let r := BluetoothServer.relay tcp_server b w in
  exists evs,
    trace (snd r) = trace w ++ evs
    /\ sent_to b evs = within_budget (bt_accepts w) (leading_chunks (incoming w))
    /\ Forall (fun d => d <> EmptyString) (sent_to b evs).
Proof.
  intros Hc r. subst r. rewrite (relay_summary tcp_server c b Hc).
  cbv zeta. cbn [snd trace]. eexists. split; [reflexivity|].
  rewrite relay_run_sent. split; [reflexivity|].
  pose proof (leading_chunks_nonempty (incoming w)) as H.
  destruct (bt_accepts w) as [k|]; cbn [within_budget]; [|exact H].
  rewrite Forall_forall in H |- *. intros d Hd. apply H.
  rewrite <- (firstn_skipn k). apply in_or_app. now left.
Qed.

Lemma relay_sends_leading_chunks_witness :
  sent_to 5 (trace (snd (BluetoothServer.relay
                           (TCPServer.set_client_socket (TCPServer.init 8043) 4)
                           5 world_peer_abort)))
  = ["one"; "two"; "three"]%string.
Proof.
  destruct (relay_sends_leading_chunks
              (TCPServer.set_client_socket (TCPServer.init 8043) 4) 4 5
              world_peer_abort eq_refl) as (evs & Htrace & Hsent & _).
  rewrite Htrace. exact Hsent.
Defined.



(** ** Sessions that end on an error *)

(** Non-empty chunks that the link takes are forwarded, and the loop goes
    on with what follows them. *)
Lemma relay_run_after_chunks (c b : sock) (bufsize : Z) (chunks : list string)
    (tail : list recv_outcome) :
  Forall (fun d => d <> EmptyString) chunks ->
  forall budget,
    (forall k, budget = Some k -> List.length chunks <= k) ->
    let e := relay_run c b bufsize tail
               (option_map (fun k => k - List.length chunks) budget) in
    relay_run c b bufsize (map RecvData chunks ++ tail) budget
    = mkEnd (end_result e) (end_pending e) (end_budget e)
            (forwarding c b bufsize chunks ++ end_events e).
Proof.
  induction 1 as [|d chunks Hd _ IH]; intros budget Hbudget; cbv zeta.
  - cbn [map app List.length forwarding flat_map].
    replace (option_map (fun k => k - 0) budget) with budget
      by (destruct budget; cbn; [now rewrite Nat.sub_0_r | reflexivity]).
    now destruct (relay_run c b bufsize tail budget).
  - cbn [map app relay_run].
    destruct (String.eqb_spec d EmptyString); [contradiction|].
    destruct budget as [[|k]|].
    + specialize (Hbudget 0 eq_refl). cbn in Hbudget. lia.
    + rewrite IH by (intros k' [= <-]; specialize (Hbudget (S k) eq_refl);
                     cbn in Hbudget; lia).
      reflexivity.
    + rewrite IH by discriminate. reflexivity.
Qed.

(** A read on the TCP side that fails with [socket.error] is caught by the
    [except IOError] clause: the session prints the message about an abort
    from the Bluetooth device, although the Bluetooth side did nothing, and
    then closes the three sockets and calls the collaborator as after a
    failed write. *)
Theorem tcp_read_error_reported_as_bluetooth_abort
    (self : BluetoothServer.t) (path : string) (fd : nat)
    (properties : list (string * string)) (w : world)
    (chunks : list string) (errno : string) (rest : list recv_outcome) :
  session_opens (BluetoothServer.tcp_port self) w ->
  incoming w = map RecvData chunks ++ RecvFails errno :: rest ->
  Forall (fun d => d <> EmptyString) chunks ->
  (forall k, bt_accepts w = Some k -> List.length chunks <= k) ->
  let l := next_fd w in
  let c := S l in
  let b := S (S l) in
  let r := BluetoothServer.NewConnection self path fd properties w in
  exists peer,
    trace (snd r)
    = trace w
      ++ opening_events (derive_address path) (BluetoothServer.tcp_port self)
           l c b peer
      ++ forwarding c b 1024 chunks
      ++ [EvRecv c 1024;
          EvPrint (PStr "Abort connection by user from bluetooth device")]
      ++ closing_events (derive_address path) l c b (find_adapter_fails w)
    /\ (find_adapter_fails w = None -> fst r = Return tt).
Proof.
  intros ([p Hfree] & [peer Hclient] & Hhandle) Hin Hchunks Hbudget l c b r.
  exists peer. subst r.
  rewrite (NewConnection_session self path fd properties w p peer
             Hfree Hclient Hhandle).
  cbv zeta. subst l c b. rewrite Hin.
  rewrite (relay_run_after_chunks _ _ _ chunks (RecvFails errno :: rest)
             Hchunks _ Hbudget).
  cbv zeta. cbn [relay_run end_result end_events end_pending end_budget
                 relay_report fst snd trace].
  split; [now rewrite <- !app_assoc|].
  intros Hadapter. now rewrite Hadapter.
Qed.

Lemma tcp_read_error_reported_as_bluetooth_abort_witness :
  let w := quiet_world [RecvData "ab"; RecvFails "ECONNRESET"] in
  let r := BluetoothServer.NewConnection server0 path0 7 [] w in
  fst r = Return tt
  /\ In (EvPrint (PStr "Abort connection by user from bluetooth device"))
        (trace (snd r)).
Proof.
  cbv zeta.
  destruct (tcp_read_error_reported_as_bluetooth_abort server0 path0 7 []
              (quiet_world [RecvData "ab"; RecvFails "ECONNRESET"])
              ["ab"%string] "ECONNRESET" [])
    as (peer & Htrace & Hret).
  - apply (session_opens_free _ _ ("127.0.0.1"%string, 50000%Z));
      [reflexivity | cbn; lia | reflexivity..].
  - reflexivity.
  - repeat constructor; discriminate.
  - discriminate.
  - split; [exact (Hret eq_refl)|]. rewrite Htrace.
    apply in_or_app. right. apply in_or_app. right.
    apply in_or_app. right. cbn. tauto.
Defined.

Section Escapes.

Variables (self : BluetoothServer.t) (path : string) (fd : nat)
          (properties : list (string * string)).

(** The calls made before [accept] returns. *)
Let before_accept (w : world) : list event :=
  [EvPrint (PStr "Connected:"); EvPrint (PStr (derive_address path));
   EvSocket (next_fd w); EvSetReuseAddr (next_fd w);
   EvBind (next_fd w) "localhost" (BluetoothServer.tcp_port self);
   EvListen (next_fd w) 5;
   EvPrint (PStr "Waiting for TCPClient..."); EvPrint (PStr "Connected:")].

Ltac up_to_accept Hfree :=
  unfold BluetoothServer.NewConnection; cbv zeta;
  step print_eq; step print_eq;
  rewrite bind_try_except;
  step_by ltac:(apply initialize_listens; exact Hfree);
  cbn [negb]; step_by ltac:(apply ret_eq); step print_eq; step print_eq.

(** An error raised by [accept] leaves [NewConnection]: no clause catches
    it.  The session stops right there: the transport handle is not
    touched, the listening socket that was just bound is not closed, and
    the collaborator is neither constructed nor asked to disconnect. *)
Theorem accept_error_skips_teardown (w : world) (p : Z) (errno : string) :
  listens (BluetoothServer.tcp_port self) w p ->
  client w = AcceptFails errno ->
  let r := BluetoothServer.NewConnection self path fd properties w in
  fst r = Raise (SocketError errno)
  /\ trace (snd r) = trace w ++ before_accept w
  /\ bound (snd r) = (next_fd w, p) :: bound w.
Proof.
  intros Hfree Hclient. cbv zeta. unfold before_accept.
  up_to_accept Hfree.
  erewrite bind_Raise
    by (erewrite accept_connection_eq by reflexivity;
        world_fields; rewrite Hclient; reflexivity).
  cbv beta iota. cbn [select_handler is_TCPServerError fst snd].
  world_fields. split; [reflexivity|].
  split; [now repeat (rewrite <- app_assoc; cbn [app]) | reflexivity].
Qed.

(** With no TCP client the session never gets past [accept]: it stays
    blocked there with the listening socket bound, and the Bluetooth
    transport handle it was given is never taken, so nothing reads from or
    writes to the Bluetooth side. *)
Theorem no_client_blocks_before_bluetooth (w : world) (p : Z) :
  listens (BluetoothServer.tcp_port self) w p ->
  client w = AcceptNever ->
  let r := BluetoothServer.NewConnection self path fd properties w in
  fst r = Blocked
  /\ trace (snd r) = trace w ++ before_accept w
  /\ bound (snd r) = (next_fd w, p) :: bound w.
Proof.
  intros Hfree Hclient. cbv zeta. unfold before_accept.
  up_to_accept Hfree.
  erewrite bind_Blocked
    by (erewrite accept_connection_eq by reflexivity;
        world_fields; rewrite Hclient; reflexivity).
  cbn [fst snd]. world_fields. split; [reflexivity|].
  split; [now repeat (rewrite <- app_assoc; cbn [app]) | reflexivity].
Qed.

(** When the transport handle cannot be wrapped, the [socket.error] leaves
    [NewConnection] as well, after a TCP client was accepted: neither the
    accepted socket nor the listening socket is closed by the session, and
    the collaborator is not called. *)
Theorem bad_handle_skips_teardown (w : world) (p : Z) (peer : peer_info)
    (errno : string) :
  listens (BluetoothServer.tcp_port self) w p ->
  client w = AcceptPeer peer ->
  handle_bad w = Some errno ->
  let r := BluetoothServer.NewConnection self path fd properties w in
  fst r = Raise (SocketError errno)
  /\ trace (snd r)
     = trace w ++ before_accept w
       ++ [EvAccept (next_fd w) (S (next_fd w)); EvPrint (PPeer peer); EvFdTake]
  /\ bound (snd r) = (next_fd w, p) :: bound w.
Proof.
  intros Hfree Hclient Hhandle. cbv zeta. unfold before_accept.
  up_to_accept Hfree.
  erewrite bind_Return
    by (erewrite accept_connection_eq by reflexivity;
        world_fields; rewrite Hclient; reflexivity).
  cbv beta iota zeta.
  step print_eq.
  erewrite bind_Raise by (apply fromfd_take_bad; exact Hhandle).
  cbv beta iota. cbn [select_handler is_TCPServerError fst snd].
  world_fields. split; [reflexivity|].
  split; [now repeat (rewrite <- app_assoc; cbn [app]) | reflexivity].
Qed.

End Escapes.

Lemma accept_error_skips_teardown_witness :
  let r := BluetoothServer.NewConnection server0 path0 7 [] world_accept_fails in
  fst r = Raise (SocketError "ECONNABORTED")
  /\ closes_of 3 (trace (snd r)) = 0
  /\ disconnects (trace (snd r)) = [].
Proof.
  cbv zeta.
  destruct (accept_error_skips_teardown server0 path0 7 [] world_accept_fails
              8043 "ECONNABORTED") as (Hret & Htrace & _).
  - apply listens_free; [reflexivity | cbn; lia | reflexivity].
  - reflexivity.
  - split; [exact Hret|]. rewrite Htrace. split; reflexivity.
Defined.

Lemma no_client_blocks_before_bluetooth_witness :
  let w := mkWorld no_failure [] [] [] None AcceptNever [] None None None
             true 3 100 [] in
  let r := BluetoothServer.NewConnection server0 path0 7 [] w in
  fst r = Blocked /\ existsb is_bluetooth_event (trace (snd r)) = false.
Proof.
  cbv zeta.
  destruct (no_client_blocks_before_bluetooth server0 path0 7 []
              (mkWorld no_failure [] [] [] None AcceptNever [] None None None
                 true 3 100 [])
              8043) as (Hret & Htrace & _).
  - apply listens_free; [reflexivity | cbn; lia | reflexivity].
  - reflexivity.
  - split; [exact Hret|]. rewrite Htrace. reflexivity.
Defined.

Lemma bad_handle_skips_teardown_witness :
  let w := mkWorld no_failure [] [] [] None
             (AcceptPeer ("127.0.0.1"%string, 50000%Z)) []
             None (Some "EBADF"%string) None true 3 100 [] in
  let r := BluetoothServer.NewConnection server0 path0 7 [] w in
  fst r = Raise (SocketError "EBADF")
  /\ closes_of 3 (trace (snd r)) = 0
  /\ closes_of 4 (trace (snd r)) = 0
  /\ disconnects (trace (snd r)) = [].
Proof.
  cbv zeta.
  destruct (bad_handle_skips_teardown server0 path0 7 []
              (mkWorld no_failure [] [] [] None
                 (AcceptPeer ("127.0.0.1"%string, 50000%Z))
                 [] None (Some "EBADF"%string) None true 3 100 [])
              8043 ("127.0.0.1"%string, 50000%Z) "EBADF")
    as (Hret & Htrace & _).
  - apply listens_free; [reflexivity | cbn; lia | reflexivity].
  - reflexivity.
  - reflexivity.
  - split; [exact Hret|]. rewrite Htrace. repeat split.
Defined.

(** ** TCPServer.initialize *)

(** [initialize] on a fresh [TCPServer], in every world and for every port.
    It closes nothing and does not block.  It returns [True] exactly in the
    worlds where the listener binds; the new socket then listens, with a
    backlog of 5, on a port that had no live socket: the port asked for, or
    for port 0 one the kernel picked.  The only exception that leaves it is
    [OverflowError], for a port that is no port number; where the
    environment refuses nothing, every such port raises it.  In all other
    worlds it returns [False] after it printed the one [socket.error] that
    stopped it, having called nothing but the set-up of the new socket;
    where the environment refuses nothing that is the case of a live socket
    on the port, and nothing is bound. *)
Theorem TCPServer_initialize_reports_port (port : Z) (w : world) :
  let l := next_fd w in
  let fresh := TCPServer.init port in
  let self := TCPServer.set_server_socket fresh l in
  let r := TCPServer.initialize fresh w in
  (forall s, closes_of s (trace (snd r)) = closes_of s (trace w))
  /\ fst r <> Blocked
  /\ (forall t, fst r = Return (true, t) <->
                t = self /\ exists p, listens port w p)
  /\ (forall p, listens port w p ->
        Os.port_in_use p w = false
        /\ (port <> 0%Z -> p = port)
        /\ bound (snd r) = (l, p) :: bound w
        /\ trace (snd r)
           = trace w ++ [EvSocket l; EvSetReuseAddr l;
                         EvBind l "localhost" port; EvListen l 5])
  /\ (forall e, fst r = Raise e ->
        e = OverflowError /\ ~ (0 <= port <= 65535)%Z)
  /\ ((forall c, os_fails w c = None) ->
      ~ (0 <= port <= 65535)%Z ->
      fst r = Raise OverflowError /\ bound (snd r) = bound w)
  /\ (forall t, fst r = Return (false, t) ->
        exists calls errno,
          trace (snd r)
          = trace w ++ calls ++ [EvPrint (PExn (SocketError errno))]
          /\ forallb is_listener_event calls = true)
  /\ ((forall c, os_fails w c = None) ->
      (0 < port <= 65535)%Z ->
      Os.port_in_use port w = true ->
      fst r = Return (false, self)
      /\ bound (snd r) = bound w
      /\ trace (snd r)
         = trace w ++ [EvSocket l; EvSetReuseAddr l;
                       EvBind l "localhost" port;
                       EvPrint (PExn (SocketError "EADDRINUSE"))]).
Proof.
  intros l fresh self r. subst r fresh.
  rewrite initialize_summary. cbn [fst snd].
  unfold listener_world. cbv zeta. world_fields.
  pose proof (listener_run_cases port w) as Hrun. cbv zeta in Hrun. fold l in Hrun.
  split.
  { intros s. rewrite closes_of_app.
    destruct (listener_result (listener_run port w)) as [[[] t]|x|] eqn:Hres.
    - destruct Hrun as (_ & p & _ & _ & _ & ->). cbn. lia.
    - destruct Hrun as (calls & errno & -> & Hcalls & _).
      rewrite closes_of_app, (listener_events_close_nothing _ _ Hcalls).
      cbn. lia.
    - revert Hres. clear. listener_cases w port; try discriminate;
        intros _; cbn; lia.
    - contradiction. }
  split.
  { intros Hblocked. rewrite Hblocked in Hrun. exact Hrun. }
  split.
  { intros t. split.
    - intros Hres. rewrite Hres in Hrun.
      destruct Hrun as (-> & p & Hlistens & _). split; [reflexivity|].
      now exists p.
    - intros [-> [p Hlistens]].
      pose proof (initialize_listens port w p Hlistens) as Hinit.
      rewrite initialize_summary in Hinit. cbv zeta in Hinit.
      exact (f_equal fst Hinit). }
  split.
  { intros p Hlistens.
    pose proof (listens_on_free_port port w p Hlistens) as [Hfree Hsame].
    pose proof (initialize_listens port w p Hlistens) as Hinit.
    rewrite initialize_summary in Hinit. cbv zeta in Hinit.
    split; [exact Hfree|]. split; [exact Hsame|].
    pose proof (f_equal (fun x => bound (snd x)) Hinit) as Hbound.
    pose proof (f_equal (fun x => trace (snd x)) Hinit) as Htrace.
    unfold listener_world in Hbound, Htrace. revert Hbound Htrace.
    cbv beta. cbn [snd]. world_fields. intros -> ->.
    split; [reflexivity|]. now repeat (rewrite <- app_assoc; cbn [app]). }
  split.
  { intros e He. rewrite He in Hrun. destruct Hrun as (-> & Hvalid & _).
    split; [reflexivity|]. intros Hrange.
    apply valid_port_range in Hrange. congruence. }
  split.
  { intros Hquiet Hrange.
    assert (Hbad : Os.valid_port port = false).
    { destruct (Os.valid_port port) eqn:E; [|reflexivity].
      apply valid_port_range in E. contradiction. }
    clear Hrun. listener_cases w port;
      rewrite ?Hquiet in *; try discriminate; try congruence.
    all: split; reflexivity. }
  split.
  { intros t Ht. rewrite Ht in Hrun.
    destruct Hrun as (calls & errno & -> & Hcalls & _).
    now exists calls, errno. }
  intros Hquiet Hrange Hused.
  assert (Hnone : Os.local_port port w = None).
  { unfold Os.local_port. rewrite Hused.
    destruct (Z.eqb_spec port 0); [lia | reflexivity]. }
  assert (Hgood : Os.valid_port port = true)
    by (apply valid_port_range; lia).
  pose proof (valid_port_fits _ Hgood) as Hint.
  clear Hrun. listener_cases w port;
    rewrite ?Hquiet in *; try discriminate; try congruence.
  repeat split.
Qed.

(** Port 70000 is no port number: [OverflowError] leaves [initialize], and
    [NewConnection] with it, before anything is bound. *)
Example initialize_port_70000 :
  let r := TCPServer.initialize (TCPServer.init 70000) (quiet_world []) in
  fst r = Raise OverflowError
  /\ trace (snd r) = [EvSocket 3; EvSetReuseAddr 3]
  /\ bound (snd r) = [].
Proof. repeat split. Qed.

Example NewConnection_port_70000 :
  fst (BluetoothServer.NewConnection (BluetoothServer.init 70000 1) path0 7 []
         (quiet_world []))
  = Raise OverflowError.
Proof. reflexivity. Qed.

(** Port 0: two listeners in a row both start, each on a port of its own
    that the kernel picked. *)
Example initialize_port_0_twice :
  let first := TCPServer.initialize (TCPServer.init 0) (quiet_world []) in
  let second := TCPServer.initialize (TCPServer.init 0) (snd first) in
  fst first = Return (true, TCPServer.set_server_socket (TCPServer.init 0) 3)
  /\ fst second
     = Return (true, TCPServer.set_server_socket (TCPServer.init 0) 4)
  /\ exists p q, bound (snd second) = [(4, q); (3, p)] /\ p <> q.
Proof.
  vm_compute. split; [reflexivity|]. split; [reflexivity|].
  do 2 eexists. split; [reflexivity | discriminate].
Qed.

(** A privileged port without the privilege: the [socket.error] of [bind]
    is printed and [initialize] returns [False]. *)
Example initialize_port_80_refused :
  let w := mkWorld (fun c => match c with
                             | SysBind => Some "EACCES"%string
                             | _ => None
                             end)
             [] [] [] None AcceptNever [] None None None true 3 100 [] in
  let r := TCPServer.initialize (TCPServer.init 80) w in
  fst r = Return (false, TCPServer.set_server_socket (TCPServer.init 80) 3)
  /\ trace (snd r) = [EvSocket 3; EvSetReuseAddr 3; EvBind 3 "localhost" 80;
                      EvPrint (PExn (SocketError "EACCES"))]
  /\ bound (snd r) = [].
Proof. repeat split. Qed.

(* ================================================================== *)
(** * Properties of [bluetool.py] *)

Module BluetoolFacts.

Import Bluetool.

Ltac bt_unfold :=
  cbv [and_then pure throw try_or_return note logger props_Get request
       props_Set invoke find_device locate log_and_return
       get_managed_objects is_DBus is_Bluez_or_DBus].

Ltac bus_fields :=
  cbn [record managed enumerations property device_of rejects calls
       fst snd negb].

Ltac bt_run := bt_unfold; bus_fields.

(** ** Equality of devices *)

Lemma pystring_eqb_eq (x y : pystring) : pystring_eqb x y = true <-> x = y.
Proof.
  destruct x as [s|s], y as [t|t]; cbn; split; intros H;
    try discriminate; try (apply String.eqb_eq in H; now subst);
    try (injection H as ->; apply String.eqb_refl).
Qed.

Lemma device_eqb_eq (d e : device) : device_eqb d e = true <-> d = e.
Proof.
  unfold device_eqb. rewrite andb_true_iff, !pystring_eqb_eq.
  destruct d, e; cbn; split.
  - intros [-> ->]. reflexivity.
  - intros [= -> ->]. split; reflexivity.
Qed.

Lemma device_in_In (d : device) (devices : list device) :
  device_in d devices = true <-> In d devices.
Proof.
  unfold device_in. rewrite existsb_exists. split.
  - intros (x & Hx & Heq). apply device_eqb_eq in Heq. now subst.
  - intros H. exists d. split; [exact H | now apply device_eqb_eq].
Qed.

Lemma occurrences_app (d : device) (l1 l2 : list device) :
  occurrences d (l1 ++ l2) = occurrences d l1 + occurrences d l2.
Proof. unfold occurrences. now rewrite filter_app, List.length_app. Qed.

(** ** The loop of [_get_devices] *)

(** One object adds at most its own device, at the end of the list. *)
Lemma add_device_cases (encode unique : bool) (object : string * interfaces)
    (dev : properties) (devices : list device) (b : bus) :
  dict_get "org.bluez.Device1" (snd object) = Some dev ->
  exists logs,
    snd (add_device encode unique dev devices b)
    = mkBus (managed b) (enumerations b) (property b) (device_of b)
            (rejects b) (calls b ++ logs)
    /\ forallb is_log logs = true
    /\ fst (add_device encode unique dev devices b)
       = if unique
         then devices ++ filter (fun d => negb (device_in d devices))
                           (device_of_object encode object)
         else devices ++ device_of_object encode object.
Proof.
  intros Hdev. unfold add_device, device_of_object. rewrite Hdev.
  assert (Heta : b = mkBus (managed b) (enumerations b) (property b)
                       (device_of b) (rejects b) (calls b ++ []))
    by (rewrite app_nil_r; now destruct b).
  destruct (dict_get "Address" dev) as [address|].
  - destruct encode, unique; cbn [fst snd filter].
    + exists [Log Debug]. repeat split.
      destruct (device_in _ devices); cbn [negb]; now rewrite ?app_nil_r.
    + exists []. repeat split. exact Heta.
    + exists [Log Debug; Log Debug]. unfold record. bus_fields.
      rewrite <- app_assoc. repeat split.
      destruct (device_in _ devices); cbn [negb]; now rewrite ?app_nil_r.
    + exists [Log Debug]. repeat split.
  - exists []. cbn [fst snd filter].
    repeat split; [exact Heta | destruct unique; now rewrite app_nil_r].
Qed.

Lemma bus_eta (b : bus) :
  b = mkBus (managed b) (enumerations b) (property b) (device_of b)
        (rejects b) (calls b ++ []).
Proof. rewrite app_nil_r. now destruct b. Qed.

(** For [Available] the loop asks BlueZ nothing: every object with a
    [Device1] interface and an [Address] gives one device. *)
Lemma each_object_available (encode : bool) (objects : managed_objects) :
  forall devices b,
  exists logs,
    each_object "Available" encode false objects devices b
    = ((devices ++ flat_map (device_of_object encode) objects, None),
       mkBus (managed b) (enumerations b) (property b) (device_of b)
             (rejects b) (calls b ++ logs))
    /\ forallb is_log logs = true.
Proof.
  induction objects as [|[path ifaces] rest IH]; intros devices b.
  - exists []. cbn. rewrite app_nil_r. split; [|reflexivity].
    f_equal. apply bus_eta.
  - cbn [each_object flat_map].
    destruct (dict_get "org.bluez.Device1" ifaces) as [dev|] eqn:Hdev.
    + cbn [String.eqb Ascii.eqb Bool.eqb].
      destruct (add_device_cases encode false (path, ifaces) dev devices b Hdev)
        as (logs1 & Hbus & Hlogs1 & Hlist).
      destruct (add_device encode false dev devices b) as [devices1 b1].
      cbn [fst snd] in Hbus, Hlist. subst devices1 b1.
      destruct (IH (devices ++ device_of_object encode (path, ifaces))
                  (mkBus (managed b) (enumerations b) (property b)
                     (device_of b) (rejects b) (calls b ++ logs1)))
        as (logs2 & Heq & Hlogs2).
      exists (logs1 ++ logs2). rewrite Heq. bus_fields.
      rewrite <- !app_assoc, forallb_app, Hlogs1, Hlogs2.
      split; reflexivity.
    + destruct (IH devices b) as (logs & Heq & Hlogs).
      exists logs. rewrite Heq. unfold device_of_object at 2.
      cbn [snd]. rewrite Hdev. split; [reflexivity | exact Hlogs].
Qed.

Lemma dbus_calls_app (cs1 cs2 : list call) :
  dbus_calls (cs1 ++ cs2) = dbus_calls cs1 ++ dbus_calls cs2.
Proof. apply filter_app. Qed.

Lemma dbus_calls_logs (logs : list call) :
  forallb is_log logs = true -> dbus_calls logs = [].
Proof.
  induction logs as [|c logs IH]; [reflexivity|].
  cbn. intros H. apply andb_true_iff in H as [Hc Hlogs].
  rewrite Hc. cbn. auto.
Qed.

(** The whole of an enumeration of the available devices. *)
Lemma get_devices_available (self : t) (encode : bool) (b : bus)
    (objects : managed_objects) :
  managed b (enumerations b) = inl objects ->
  exists logs,
    _get_devices self "Available" encode false b
    = (Ok (flat_map (device_of_object encode) objects),
       mkBus (managed b) (S (enumerations b)) (property b) (device_of b)
             (rejects b) (calls b ++ GetManagedObjects :: logs))
    /\ forallb is_log logs = true.
Proof.
  intros Hm. unfold _get_devices.
  cbn [existsb String.eqb Ascii.eqb Bool.eqb conditions orb negb].
  unfold get_managed_objects. rewrite Hm. cbn [received].
  match goal with
  | |- context [each_object _ _ _ _ _ ?b1] =>
      destruct (each_object_available encode objects [] b1)
        as (logs & Heq & Hlogs)
  end.
  exists logs. rewrite Heq. cbn [fst snd app]. bus_fields.
  rewrite <- app_assoc. split; [reflexivity | exact Hlogs].
Qed.

(** [_get_devices("Available", encode, unique_values=False)]: when BlueZ
    answers the enumeration, the result is the list of the devices of the
    objects that have a [Device1] interface with an [Address], in the order
    of the enumeration, a missing [Name] being given as ["<unknown>"]; the
    enumeration is the only D-Bus call made.  When BlueZ answers with a
    D-Bus error the result is the empty list. *)
Theorem available_devices_are_the_addressed_objects
    (self : t) (encode : bool) (b : bus) :
  let r := _get_devices self "Available" encode false b in
  dbus_calls (calls (snd r)) = dbus_calls (calls b) ++ [GetManagedObjects]
  /\ fst r = Ok match managed b (enumerations b) with
                | inl objects => flat_map (device_of_object encode) objects
                | inr _ => []
                end.
Proof.
  cbv zeta. destruct (managed b (enumerations b)) as [objects|name] eqn:Hm.
  - destruct (get_devices_available self encode b objects Hm)
      as (logs & Heq & Hlogs).
    rewrite Heq. cbn [fst snd]. bus_fields.
    rewrite dbus_calls_app. cbn [dbus_calls filter is_log negb].
    fold (dbus_calls logs). rewrite (dbus_calls_logs logs Hlogs).
    split; reflexivity.
  - unfold _get_devices.
    cbn [existsb String.eqb Ascii.eqb Bool.eqb conditions orb negb].
    unfold get_managed_objects. rewrite Hm. cbn [received is_DBus fst snd].
    unfold record. bus_fields. rewrite !dbus_calls_app, app_nil_r.
    split; reflexivity.
Qed.

(** ** The loop for any condition *)

Lemma same_answers_refl (b : bus) : same_answers b b.
Proof. repeat split. Qed.

Lemma same_answers_trans (b1 b2 b3 : bus) :
  same_answers b1 b2 -> same_answers b2 b3 -> same_answers b1 b3.
Proof.
  unfold same_answers. intros (A1 & A2 & A3 & A4 & A5) (B1 & B2 & B3 & B4 & B5).
  repeat split; congruence.
Qed.

Lemma add_device_same_answers (encode unique : bool) (dev : properties)
    (devices : list device) (b : bus) :
  same_answers b (snd (add_device encode unique dev devices b)).
Proof.
  unfold add_device.
  destruct (dict_get "Address" dev); [|apply same_answers_refl].
  destruct encode, unique; cbn [fst snd]; repeat split.
Qed.

Lemma each_object_same_answers (condition : string) (encode unique : bool)
    (objects : managed_objects) :
  forall devices b,
    same_answers b
      (snd (each_object condition encode unique objects devices b)).
Proof.
  induction objects as [|[path ifaces] rest IH]; intros devices b;
    cbn [each_object]; [apply same_answers_refl|].
  destruct (dict_get "org.bluez.Device1" ifaces) as [dev|]; [|apply IH].
  destruct (String.eqb condition "Available").
  - pose proof (add_device_same_answers encode unique dev devices b) as H.
    destruct (add_device encode unique dev devices b) as [devices1 b1].
    eapply same_answers_trans; [exact H | apply IH].
  - unfold props_Get.
    destruct (property b path "org.bluez.Device1" condition) as [v|name];
      cbn [received]; [|repeat split].
    destruct (truthy v).
    + pose proof (add_device_same_answers encode unique dev devices
                    (record (Get path "org.bluez.Device1" condition) b)) as H.
      destruct (add_device encode unique dev devices _) as [devices1 b1].
      eapply same_answers_trans; [|apply IH].
      eapply same_answers_trans; [|exact H]. repeat split.
    + eapply same_answers_trans; [|apply IH]. repeat split.
Qed.

Lemma device_of_object_short (encode : bool) (object : string * interfaces) :
  device_of_object encode object = []
  \/ exists d, device_of_object encode object = [d].
Proof.
  unfold device_of_object.
  destruct (dict_get "org.bluez.Device1" (snd object)) as [dev|]; [|now left].
  destruct (dict_get "Address" dev); [|now left].
  destruct encode; right; eexists; reflexivity.
Qed.

Lemma add_device_unique_NoDup (encode : bool) (object : string * interfaces)
    (dev : properties) (devices : list device) (b : bus) :
  dict_get "org.bluez.Device1" (snd object) = Some dev ->
  NoDup devices ->
  NoDup (fst (add_device encode true dev devices b)).
Proof.
  intros Hdev Hnodup.
  destruct (add_device_cases encode true object dev devices b Hdev)
    as (_ & _ & _ & ->).
  destruct (device_of_object_short encode object) as [->|[d ->]];
    cbn [filter]; [now rewrite app_nil_r|].
  destruct (device_in d devices) eqn:Hin; cbn [negb];
    [now rewrite app_nil_r|].
  apply NoDup_app; [exact Hnodup | repeat constructor; intros [] |].
  intros x Hx [<-|[]].
  apply device_in_In in Hx. congruence.
Qed.

Lemma each_object_unique_NoDup (condition : string) (encode : bool)
    (objects : managed_objects) :
  forall devices b,
    NoDup devices ->
    NoDup (fst (fst (each_object condition encode true objects devices b))).
Proof.
  induction objects as [|[path ifaces] rest IH]; intros devices b Hnodup;
    cbn [each_object]; [exact Hnodup|].
  destruct (dict_get "org.bluez.Device1" ifaces) as [dev|] eqn:Hdev;
    [|now apply IH].
  destruct (String.eqb condition "Available").
  - pose proof (add_device_unique_NoDup encode (path, ifaces) dev devices b
                  Hdev Hnodup) as H.
    destruct (add_device encode true dev devices b) as [devices1 b1].
    now apply IH.
  - destruct (props_Get path "org.bluez.Device1" condition b) as [[v|e] b1];
      [|exact Hnodup].
    destruct (truthy v); [|now apply IH].
    pose proof (add_device_unique_NoDup encode (path, ifaces) dev devices b1
                  Hdev Hnodup) as H.
    destruct (add_device encode true dev devices b1) as [devices1 b2].
    now apply IH.
Qed.

(** With [unique_values=True] no device is listed twice, whatever the
    condition and whatever BlueZ answers. *)
Theorem unique_values_gives_no_duplicates
    (self : t) (condition : string) (encode : bool) (b : bus)
    (devices : list device) :
  fst (_get_devices self condition encode true b) = Ok devices ->
  NoDup devices.
Proof.
  unfold _get_devices.
  destruct (negb (existsb (String.eqb condition) conditions)).
  - intros [= <-]. constructor.
  - destruct (get_managed_objects b) as [[objects|e] b1].
    + pose proof (each_object_unique_NoDup condition encode objects [] b1
                    (NoDup_nil _)) as H.
      destruct (each_object condition encode true objects [] b1)
        as [[ds [e|]] b2]; cbn [fst] in H |- *.
      * destruct (is_DBus e); intros [= <-]; exact H.
      * intros [= <-]. exact H.
    + destruct (is_DBus e); intros [= <-]. constructor.
Qed.

Lemma unique_values_gives_no_duplicates_witness :
  exists devices,
    fst (_get_devices bluetooth0 "Available" true true
           (mkBus (fun _ => inl (example_objects ++ example_objects)) 0
                  (fun _ _ _ => inr "unused"%string)
                  (fun _ _ => Fail (Known (BluezUtilError "unused")))
                  (fun _ => None) []))
    = Ok devices
    /\ List.length devices = 2 /\ NoDup devices.
Proof.
  match goal with
  | |- exists _, fst (_get_devices ?s ?c ?e true ?b) = _ /\ _ =>
      pose proof (unique_values_gives_no_duplicates s c e b) as H
  end.
  exists [mkDevice (Bytes "AA:AA:AA:AA:AA:AA") (Bytes "phone");
          mkDevice (Bytes "BB:BB:BB:BB:BB:BB") (Bytes "<unknown>")].
  split; [reflexivity|]. split; [reflexivity|].
  apply H. reflexivity.
Defined.

(** Without [unique_values], what an enumeration lists for any condition is
    drawn from the devices of the objects: no device is listed more often
    than the objects give it. *)
Lemma each_object_bounded (condition : string) (encode : bool)
    (objects : managed_objects) (d : device) :
  forall devices b,
    occurrences d
      (fst (fst (each_object condition encode false objects devices b)))
    <= occurrences d devices
       + occurrences d (flat_map (device_of_object encode) objects).
Proof.
  induction objects as [|[path ifaces] rest IH]; intros devices b;
    cbn [each_object flat_map];
    [cbn [fst]; change (occurrences d []) with 0; lia|].
  rewrite occurrences_app.
  destruct (dict_get "org.bluez.Device1" ifaces) as [dev|] eqn:Hdev.
  - assert (Hadd : forall b0 devices1 b1,
              add_device encode false dev devices b0 = (devices1, b1) ->
              occurrences d
                (fst (fst (each_object condition encode false rest devices1 b1)))
              <= occurrences d devices
                 + (occurrences d (device_of_object encode (path, ifaces))
                    + occurrences d (flat_map (device_of_object encode) rest))).
    { intros b0 devices1 b1 Hadd.
      destruct (add_device_cases encode false (path, ifaces) dev devices b0
                  Hdev) as (_ & _ & _ & Hlist).
      rewrite Hadd in Hlist. cbn [fst] in Hlist. subst devices1.
      specialize (IH (devices ++ device_of_object encode (path, ifaces)) b1).
      rewrite occurrences_app in IH. lia. }
    destruct (String.eqb condition "Available").
    + destruct (add_device encode false dev devices b) as [devices1 b1] eqn:E.
      eapply Hadd. exact E.
    + destruct (props_Get path "org.bluez.Device1" condition b) as [[v|e] b1];
        [|cbn [fst]; lia].
      destruct (truthy v).
      * destruct (add_device encode false dev devices b1) as [devices1 b2] eqn:E.
        eapply Hadd. exact E.
      * specialize (IH devices b1). lia.
  - specialize (IH devices b). lia.
Qed.

Lemma each_object_error_is_DBus (condition : string) (encode unique : bool)
    (objects : managed_objects) :
  forall devices b e,
    snd (fst (each_object condition encode unique objects devices b)) = Some e ->
    is_DBus e = true.
Proof.
  induction objects as [|[path ifaces] rest IH]; intros devices b e;
    cbn [each_object]; [discriminate|].
  destruct (dict_get "org.bluez.Device1" ifaces) as [dev|]; [|apply IH].
  destruct (String.eqb condition "Available").
  - destruct (add_device encode unique dev devices b) as [devices1 b1].
    apply IH.
  - unfold props_Get.
    destruct (property b path "org.bluez.Device1" condition) as [v|name];
      cbn [received].
    + destruct (truthy v); [|apply IH].
      destruct (add_device encode unique dev devices _) as [devices1 b1].
      apply IH.
    + cbn [fst snd]. intros [= <-]. reflexivity.
Qed.

(** An enumeration for one of the three conditions always gives a list,
    drawn from the devices of the objects BlueZ answered with, and uses up
    one answer of BlueZ. *)
Lemma get_devices_listed (self : t) (condition : string) (encode : bool)
    (b : bus) :
  existsb (String.eqb condition) conditions = true ->
  exists devices b1,
    _get_devices self condition encode false b = (Ok devices, b1)
    /\ managed b1 = managed b /\ property b1 = property b
    /\ enumerations b1 = S (enumerations b)
    /\ forall d,
         occurrences d devices
         <= occurrences d
              match managed b (enumerations b) with
              | inl objects => flat_map (device_of_object encode) objects
              | inr _ => []
              end.
Proof.
  intros Hcond. unfold _get_devices. rewrite Hcond. cbn [negb].
  unfold get_managed_objects.
  destruct (managed b (enumerations b)) as [objects|name]; cbn [received].
  - match goal with
    | |- context [each_object _ _ _ _ _ ?b0] => set (b1 := b0)
    end.
    pose proof (each_object_same_answers condition encode false objects [] b1)
      as (F1 & F2 & F3 & _).
    pose proof (each_object_error_is_DBus condition encode false objects [] b1)
      as Herr.
    pose proof (fun d => each_object_bounded condition encode objects d [] b1)
      as Hbound.
    destruct (each_object condition encode false objects [] b1)
      as [[devices [e|]] b2]; cbn [fst snd] in *.
    + rewrite (Herr e eq_refl). eexists. eexists.
      split; [reflexivity|]. unfold record. bus_fields.
      repeat split; try assumption; try (intros d; apply Hbound).
    + eexists. eexists. split; [reflexivity|].
      repeat split; try assumption; try (intros d; apply Hbound).
  - cbn [is_DBus]. eexists. eexists. split; [reflexivity|].
    unfold record. bus_fields. repeat split. intros d. cbn. lia.
Qed.

(** ** [get_devices_to_pair] *)

Lemma occurrences_cons (d x : device) (l : list device) :
  occurrences d (x :: l)
  = (if device_eqb d x then 1 else 0) + occurrences d l.
Proof. unfold occurrences. cbn. now destruct (device_eqb d x). Qed.

Lemma device_eqb_sym (d e : device) : device_eqb d e = device_eqb e d.
Proof.
  destruct (device_eqb d e) eqn:H1, (device_eqb e d) eqn:H2; try reflexivity.
  - apply device_eqb_eq in H1. subst.
    rewrite (proj2 (device_eqb_eq e e) eq_refl) in H2. discriminate.
  - apply device_eqb_eq in H2. subst.
    rewrite (proj2 (device_eqb_eq d d) eq_refl) in H1. discriminate.
Qed.

(** [devices.remove(key)] on a list that has the key takes one occurrence
    of it away. *)
Lemma list_remove_present (key : device) (devices : list device) :
  1 <= occurrences key devices ->
  exists rest,
    list_remove key devices = Ok rest
    /\ forall d, occurrences d devices
                 = (if device_eqb d key then 1 else 0) + occurrences d rest.
Proof.
  induction devices as [|x l IH]; intros H.
  - cbn in H. lia.
  - cbn [list_remove]. destruct (device_eqb x key) eqn:Hx.
    + exists l. split; [reflexivity|]. intros d.
      rewrite occurrences_cons. apply device_eqb_eq in Hx. now subst.
    + rewrite occurrences_cons, device_eqb_sym, Hx in H.
      destruct (IH H) as (rest & -> & Hcount).
      exists (x :: rest). split; [reflexivity|]. intros d.
      rewrite !occurrences_cons, (Hcount d). lia.
Qed.

(** [devices.remove(key)] on a list without the key raises. *)
Lemma list_remove_absent (key : device) (devices : list device) :
  occurrences key devices = 0 ->
  list_remove key devices = Fail (ValueError "list.remove(x): x not in list").
Proof.
  induction devices as [|x l IH]; intros H; [reflexivity|].
  cbn [list_remove]. rewrite occurrences_cons, device_eqb_sym in H.
  destruct (device_eqb x key); [lia|]. now rewrite IH by lia.
Qed.

Lemma remove_each_counted (keys : list device) :
  forall devices,
    (forall d, occurrences d keys <= occurrences d devices) ->
    exists rest,
      remove_each keys devices = Ok rest
      /\ forall d, occurrences d rest + occurrences d keys
                   = occurrences d devices.
Proof.
  induction keys as [|key keys IH]; intros devices Hle.
  - exists devices. split; [reflexivity|]. intros d. cbn. lia.
  - cbn [remove_each].
    destruct (list_remove_present key devices) as (devices1 & -> & Hcount).
    { specialize (Hle key). rewrite occurrences_cons in Hle.
      rewrite (proj2 (device_eqb_eq key key) eq_refl) in Hle. lia. }
    destruct (IH devices1) as (rest & -> & Hrest).
    { intros d. specialize (Hle d). rewrite occurrences_cons in Hle.
      rewrite (Hcount d) in Hle. lia. }
    exists rest. split; [reflexivity|]. intros d.
    rewrite occurrences_cons, (Hcount d), <- (Hrest d). lia.
Qed.

Ltac run_wrapper :=
  unfold get_available_devices, get_paired_devices, get_connected_devices,
    and_then, logger, note, pure.

(** When BlueZ answers the two enumerations of [get_devices_to_pair] with
    the same objects, the call returns a list: the available devices with
    the paired ones taken out, each paired device taking away one
    occurrence of itself. *)
Theorem devices_to_pair_are_available_less_paired
    (self : t) (b : bus) (objects : managed_objects) :
  managed b (enumerations b) = inl objects ->
  managed b (S (enumerations b)) = inl objects ->
  let available := flat_map (device_of_object true) objects in
  let b1 := snd (get_available_devices self true false b) in
  exists paired to_pair,
    fst (get_available_devices self true false b) = Ok available
    /\ fst (get_paired_devices self true false b1) = Ok paired
    /\ fst (get_devices_to_pair self b) = Ok to_pair
    /\ forall d, occurrences d to_pair + occurrences d paired
                 = occurrences d available.
Proof.
  intros Hfirst Hsecond available b1.
  destruct (get_devices_available self true b objects Hfirst)
    as (logs & Havail & _).
  assert (Hb1 : get_available_devices self true false b
                = (Ok available,
                   record (Log Debug)
                     (mkBus (managed b) (S (enumerations b)) (property b)
                        (device_of b) (rejects b)
                        (calls b ++ GetManagedObjects :: logs)))).
  { run_wrapper. now rewrite Havail. }
  subst b1. rewrite Hb1. cbn [fst snd].
  match goal with
  | |- context [get_paired_devices self true false ?b0] => set (b1 := b0)
  end.
  destruct (get_devices_listed self "Paired" true b1 eq_refl)
    as (paired & b2 & Hpaired & _ & _ & _ & Hbound).
  assert (Hanswer : managed b1 (enumerations b1) = inl objects)
    by exact Hsecond.
  rewrite Hanswer in Hbound. fold available in Hbound.
  destruct (remove_each_counted paired available Hbound)
    as (to_pair & Hremove & Hcount).
  exists paired, to_pair.
  split; [reflexivity|].
  split; [run_wrapper; now rewrite Hpaired|].
  split; [|exact Hcount].
  unfold get_devices_to_pair. unfold and_then at 1. rewrite Hb1.
  fold b1. unfold and_then at 1.
  assert (Hp : get_paired_devices self true false b1
               = (Ok paired, record (Log Debug) b2))
    by (run_wrapper; now rewrite Hpaired).
  rewrite Hp. cbn [fst]. exact Hremove.
Qed.

Lemma devices_to_pair_are_available_less_paired_witness :
  exists paired to_pair,
    fst (get_devices_to_pair bluetooth0 example_bus) = Ok to_pair
    /\ forall d, occurrences d to_pair + occurrences d paired
                 = occurrences d (flat_map (device_of_object true)
                                    example_objects).
Proof.
  destruct (devices_to_pair_are_available_less_paired bluetooth0 example_bus
              example_objects eq_refl eq_refl)
    as (paired & to_pair & _ & _ & H & Hcount).
  exists paired, to_pair. split; [exact H | exact Hcount].
Defined.

Example devices_to_pair_example :
  fst (get_devices_to_pair bluetooth0 example_bus)
  = Ok [mkDevice (Bytes "BB:BB:BB:BB:BB:BB") (Bytes "<unknown>")].
Proof. reflexivity. Qed.

(** When a paired device shows up in the second enumeration only, the
    available devices being none in the first, [remove] does not find it
    and [ValueError] leaves [get_devices_to_pair]. *)
Theorem devices_to_pair_raises_on_new_paired_device
    (self : t) (b : bus) (d : device) (others : list device) :
  let b1 := snd (get_available_devices self true false b) in
  fst (get_available_devices self true false b) = Ok [] ->
  fst (get_paired_devices self true false b1) = Ok (d :: others) ->
  fst (get_devices_to_pair self b)
  = Fail (ValueError "list.remove(x): x not in list").
Proof.
  intros b1 Havail Hpaired. subst b1.
  unfold get_devices_to_pair. unfold and_then at 1.
  destruct (get_available_devices self true false b) as [r1 b1].
  cbn [fst snd] in *. subst r1.
  unfold and_then at 1.
  destruct (get_paired_devices self true false b1) as [r2 b2].
  cbn [fst] in *. subst r2. reflexivity.
Qed.

Lemma devices_to_pair_raises_on_new_paired_device_witness :
  fst (get_devices_to_pair bluetooth0
         (mkBus (fun n => match n with
                          | O => inl []
                          | S _ => inl example_objects
                          end)
                0 (property example_bus) (device_of example_bus)
                (rejects example_bus) []))
  = Fail (ValueError "list.remove(x): x not in list").
Proof.
  eapply devices_to_pair_raises_on_new_paired_device; reflexivity.
Defined.

(** ** An error in the middle of an enumeration *)

Lemma each_object_app (condition : string) (encode unique : bool)
    (before after : managed_objects) :
  forall devices b,
    each_object condition encode unique (before ++ after) devices b
    = match each_object condition encode unique before devices b with
      | ((devices1, None), b1) =>
          each_object condition encode unique after devices1 b1
      | stopped => stopped
      end.
Proof.
  induction before as [|[path ifaces] rest IH]; intros devices b;
    cbn [app each_object]; [reflexivity|].
  destruct (dict_get "org.bluez.Device1" ifaces) as [dev|]; [|apply IH].
  destruct (String.eqb condition "Available").
  - destruct (add_device encode unique dev devices b) as [devices1 b1].
    apply IH.
  - destruct (props_Get path "org.bluez.Device1" condition b) as [[v|e] b1];
      [|reflexivity].
    destruct (truthy v); [|apply IH].
    destruct (add_device encode unique dev devices b1) as [devices1 b2].
    apply IH.
Qed.

(** When BlueZ answers the query of [Paired] or [Connected] for one device
    with a D-Bus error, the enumeration ends there without raising: the
    devices found before that object are returned, and the objects after it
    are not looked at: after the calls made for the objects before it, the
    failed query and the record of the error are all that follows. *)
Theorem enumeration_stops_at_the_first_error
    (self : t) (condition : string) (encode unique : bool) (b : bus)
    (before after : managed_objects) (path : string) (ifaces : interfaces)
    (dev : properties) (name : string) (devices : list device) :
  condition = "Paired" \/ condition = "Connected" ->
  managed b (enumerations b) = inl (before ++ (path, ifaces) :: after) ->
  dict_get "org.bluez.Device1" ifaces = Some dev ->
  property b path "org.bluez.Device1" condition = inr name ->
  fst (each_object condition encode unique before []
         (snd (get_managed_objects b)))
  = (devices, None) ->
  let r := _get_devices self condition encode unique b in
  let reached := snd (each_object condition encode unique before []
                        (snd (get_managed_objects b))) in
  fst r = Ok devices
  /\ calls (snd r)
     = calls reached ++ [Get path "org.bluez.Device1" condition; Log Error].
Proof.
  intros Hcond Hm Hdev Hprop Hbefore. cbv zeta.
  assert (Hknown : existsb (String.eqb condition) conditions = true
                   /\ String.eqb condition "Available" = false)
    by (destruct Hcond; subst; split; reflexivity).
  destruct Hknown as [Hknown Hnot].
  unfold _get_devices. rewrite Hknown. cbn [negb].
  destruct (get_managed_objects b) as [r b1] eqn:Hget.
  assert (Hr : r = Ok (before ++ (path, ifaces) :: after)).
  { unfold get_managed_objects in Hget. rewrite Hm in Hget.
    now inversion Hget. }
  subst r. cbn [snd] in Hbefore |- *.
  rewrite each_object_app.
  pose proof (each_object_same_answers condition encode unique before [] b1)
    as (_ & _ & Hsame & _).
  destruct (each_object condition encode unique before [] b1)
    as [[devices0 stop] b2]. cbn [fst snd] in *.
  injection Hbefore as -> ->.
  cbn [each_object]. rewrite Hdev, Hnot. unfold props_Get.
  assert (Hb1 : property b1 = property b).
  { unfold get_managed_objects in Hget. inversion Hget. reflexivity. }
  rewrite Hsame, Hb1, Hprop. cbn [received is_DBus fst snd].
  split; [reflexivity|].
  unfold record. bus_fields. now rewrite <- app_assoc.
Qed.

(** The query of the first device fails: the second device is not asked
    about. *)
Lemma enumeration_stops_at_the_first_error_witness :
  let b := mkBus (managed example_bus) 0
                 (fun path _ _ =>
                    if String.eqb path "/org/bluez/hci0/dev_AA"
                    then inr "org.freedesktop.DBus.Error.UnknownObject"%string
                    else inl (VBoolean true))
                 (device_of example_bus) (rejects example_bus) [] in
  let r := _get_devices bluetooth0 "Paired" true false b in
  fst r = Ok []
  /\ calls (snd r)
     = [GetManagedObjects;
        Get "/org/bluez/hci0/dev_AA" "org.bluez.Device1" "Paired"; Log Error].
Proof.
  cbv zeta.
  edestruct (enumeration_stops_at_the_first_error bluetooth0 "Paired" true
               false
               (mkBus (managed example_bus) 0
                  (fun path _ _ =>
                     if String.eqb path "/org/bluez/hci0/dev_AA"
                     then inr "org.freedesktop.DBus.Error.UnknownObject"%string
                     else inl (VBoolean true))
                  (device_of example_bus) (rejects example_bus) [])
               (firstn 1 example_objects) (skipn 2 example_objects)
               "/org/bluez/hci0/dev_AA") as [Hret Hcalls].
  - now left.
  - reflexivity.
  - reflexivity.
  - reflexivity.
  - reflexivity.
  - split; [exact Hret | exact Hcalls].
Defined.

(** ** [pair], [connect], [disconnect], [trust] *)

Section Methods.

Variables (self : t) (address : string) (adapter_idx : Z) (b : bus)
          (adapter : string).

Hypothesis adapter_found : list_index (_adapters self) adapter_idx = Ok adapter.

Let iface := "org.bluez.Device1"%string.

(** What a rejected or accepted call gives back. *)
Let accepted (c : call) : bool :=
  match rejects b c with
  | None => true
  | Some _ => false
  end.

Ltac enter :=
  cbv zeta;
  unfold disconnect, connect, pair, trust, try_or_return, locate, and_then,
    find_device, log_and_return, logger, note, pure;
  rewrite adapter_found; bus_fields.

Ltac finish :=
  cbv [and_then]; unfold record; bus_fields;
  rewrite ?dbus_calls_app, <- ?app_assoc;
  cbn [dbus_calls filter is_log negb app]; rewrite ?app_nil_r;
  repeat split.

(** Once the device is found, [disconnect] reads [Connected] and calls
    [Disconnect] only when the device is connected; it returns [True]
    unless one of the two calls is answered with a D-Bus error.  On a device
    that is not connected it returns [True] without calling
    [Disconnect]. *)
Theorem disconnect_only_when_connected (device : string) :
  device_of b adapter address = Ok device ->
  let r := disconnect self address adapter_idx b in
  let asked := [FindDevice adapter address; Get device iface "Connected"] in
  match property b device iface "Connected" with
  | inr _ =>
      fst r = Ok false
      /\ dbus_calls (calls (snd r)) = dbus_calls (calls b) ++ asked
  | inl connected =>
      if truthy connected
      then fst r = Ok (accepted (Invoke device "Disconnect"))
           /\ dbus_calls (calls (snd r))
              = dbus_calls (calls b) ++ asked ++ [Invoke device "Disconnect"]
      else fst r = Ok true
           /\ dbus_calls (calls (snd r)) = dbus_calls (calls b) ++ asked
  end.
Proof.
  intros Hdev. enter. rewrite Hdev. unfold props_Get. bus_fields.
  subst iface accepted.
  destruct (property b device "org.bluez.Device1" "Connected") as [v|name];
    cbn [received is_DBus]; [|finish].
  destruct (truthy v); [|finish].
  unfold invoke, request. bus_fields.
  destruct (rejects b (Invoke device "Disconnect")); cbn [is_DBus]; finish.
Qed.

(** [connect] and [pair] call [Connect] and [Pair] only on a device that is
    not connected, not paired, yet: on one that is, they return [True]
    after reading the property, without any other call. *)
Theorem connect_and_pair_only_when_needed (device : string) :
  device_of b adapter address = Ok device ->
  let act (method prop : string) (r : result bool * bus) :=
    let asked := [FindDevice adapter address; Get device iface prop] in
    match property b device iface prop with
    | inr _ =>
        fst r = Ok false
        /\ dbus_calls (calls (snd r)) = dbus_calls (calls b) ++ asked
    | inl done =>
        if truthy done
        then fst r = Ok true
             /\ dbus_calls (calls (snd r)) = dbus_calls (calls b) ++ asked
        else fst r = Ok (accepted (Invoke device method))
             /\ dbus_calls (calls (snd r))
                = dbus_calls (calls b) ++ asked ++ [Invoke device method]
    end in
  act "Connect" "Connected" (connect self address adapter_idx b)
  /\ act "Pair" "Paired" (pair self address adapter_idx b).
Proof.
  intros Hdev. enter. rewrite Hdev. unfold props_Get. bus_fields.
  subst iface accepted.
  split.
  - destruct (property b device "org.bluez.Device1" "Connected") as [v|name];
      cbn [received is_DBus]; [|finish].
    destruct (truthy v); cbn [negb]; [finish|].
    unfold invoke, request. bus_fields.
    destruct (rejects b (Invoke device "Connect")); cbn [is_DBus]; finish.
  - destruct (property b device "org.bluez.Device1" "Paired") as [v|name];
      cbn [received is_DBus]; [|finish].
    destruct (truthy v); cbn [negb]; [finish|].
    unfold invoke, request. bus_fields.
    destruct (rejects b (Invoke device "Pair")); cbn [is_DBus]; finish.
Qed.

(** [trust] sets [Trusted] to true only on a device that is not trusted
    yet, and returns [True] unless BlueZ answers the read or the write with
    a D-Bus error. *)
Theorem trust_sets_only_when_untrusted (device : string) :
  device_of b adapter address = Ok device ->
  let r := trust self address adapter_idx b in
  let asked := [FindDevice adapter address; Get device iface "Trusted"] in
  let set := Set_ device iface "Trusted" (VBoolean true) in
  match property b device iface "Trusted" with
  | inr _ =>
      fst r = Ok false
      /\ dbus_calls (calls (snd r)) = dbus_calls (calls b) ++ asked
  | inl trusted =>
      if truthy trusted
      then fst r = Ok true
           /\ dbus_calls (calls (snd r)) = dbus_calls (calls b) ++ asked
      else fst r = Ok (accepted set)
           /\ dbus_calls (calls (snd r)) = dbus_calls (calls b) ++ asked ++ [set]
  end.
Proof.
  intros Hdev. enter. rewrite Hdev. unfold props_Get. bus_fields.
  subst iface accepted.
  destruct (property b device "org.bluez.Device1" "Trusted") as [v|name];
    cbn [received is_DBus]; [|finish].
  destruct (truthy v); cbn [negb]; [finish|].
  unfold props_Set, request. bus_fields.
  destruct (rejects b (Set_ device "org.bluez.Device1" "Trusted"
                         (VBoolean true))); cbn [is_DBus]; finish.
Qed.

(** When [bluezutils.find_device] raises [BluezUtilError] or a
    [DBusException], each of the four methods returns [False] at once: the
    lookup is the only call, and no property of any device is read or
    written. *)
Theorem unknown_device_gives_false (e : pyerr) :
  device_of b adapter address = Fail e ->
  is_Bluez_or_DBus e = true ->
  let gives_false (r : result bool * bus) :=
    fst r = Ok false
    /\ dbus_calls (calls (snd r))
       = dbus_calls (calls b) ++ [FindDevice adapter address] in
  gives_false (pair self address adapter_idx b)
  /\ gives_false (connect self address adapter_idx b)
  /\ gives_false (disconnect self address adapter_idx b)
  /\ gives_false (trust self address adapter_idx b).
Proof.
  intros Hdev He. enter. rewrite Hdev, He. finish.
Qed.

End Methods.

(** With an index that the list of adapters does not have, [IndexError]
    leaves each of the four methods: the [except] clauses name
    [BluezUtilError] and [DBusException] only.  Nothing is asked of
    BlueZ. *)
Theorem bad_adapter_index_raises (self : t) (address : string)
    (adapter_idx : Z) (b : bus) (msg : string) :
  list_index (_adapters self) adapter_idx = Fail (IndexError msg) ->
  pair self address adapter_idx b = (Fail (IndexError msg), b)
  /\ connect self address adapter_idx b = (Fail (IndexError msg), b)
  /\ disconnect self address adapter_idx b = (Fail (IndexError msg), b)
  /\ trust self address adapter_idx b = (Fail (IndexError msg), b).
Proof.
  intros Hidx.
  unfold disconnect, connect, pair, trust, try_or_return, locate, and_then.
  rewrite Hidx. cbn [is_Bluez_or_DBus]. repeat split.
Qed.

Lemma bad_adapter_index_raises_witness :
  fst (disconnect (mk [] None) "AA:AA:AA:AA:AA:AA" 0 example_bus)
  = Fail (IndexError "list index out of range").
Proof.
  destruct (bad_adapter_index_raises (mk [] None) "AA:AA:AA:AA:AA:AA" 0
              example_bus "list index out of range" eq_refl)
    as (_ & _ & H & _).
  now rewrite H.
Defined.

Lemma disconnect_only_when_connected_witness :
  fst (disconnect bluetooth0 "AA:AA:AA:AA:AA:AA" 0 example_bus) = Ok true
  /\ dbus_calls (calls (snd (disconnect bluetooth0 "AA:AA:AA:AA:AA:AA" 0
                               example_bus)))
     = [FindDevice "/org/bluez/hci0" "AA:AA:AA:AA:AA:AA";
        Get "/org/bluez/hci0/dev_AA" "org.bluez.Device1" "Connected";
        Invoke "/org/bluez/hci0/dev_AA" "Disconnect"].
Proof.
  exact (disconnect_only_when_connected bluetooth0 "AA:AA:AA:AA:AA:AA" 0
           example_bus "/org/bluez/hci0" eq_refl "/org/bluez/hci0/dev_AA"
           eq_refl).
Defined.

Lemma connect_and_pair_only_when_needed_witness :
  fst (connect bluetooth0 "AA:AA:AA:AA:AA:AA" 0 example_bus) = Ok true
  /\ dbus_calls (calls (snd (connect bluetooth0 "AA:AA:AA:AA:AA:AA" 0
                               example_bus)))
     = [FindDevice "/org/bluez/hci0" "AA:AA:AA:AA:AA:AA";
        Get "/org/bluez/hci0/dev_AA" "org.bluez.Device1" "Connected"].
Proof.
  exact (proj1 (connect_and_pair_only_when_needed bluetooth0
                  "AA:AA:AA:AA:AA:AA" 0 example_bus "/org/bluez/hci0" eq_refl
                  "/org/bluez/hci0/dev_AA" eq_refl)).
Defined.

Lemma trust_sets_only_when_untrusted_witness :
  fst (trust bluetooth0 "AA:AA:AA:AA:AA:AA" 0 example_bus) = Ok true
  /\ dbus_calls (calls (snd (trust bluetooth0 "AA:AA:AA:AA:AA:AA" 0
                               example_bus)))
     = [FindDevice "/org/bluez/hci0" "AA:AA:AA:AA:AA:AA";
        Get "/org/bluez/hci0/dev_AA" "org.bluez.Device1" "Trusted"].
Proof.
  exact (trust_sets_only_when_untrusted bluetooth0 "AA:AA:AA:AA:AA:AA" 0
           example_bus "/org/bluez/hci0" eq_refl "/org/bluez/hci0/dev_AA"
           eq_refl).
Defined.

Lemma unknown_device_gives_false_witness :
  fst (pair bluetooth0 "CC:CC:CC:CC:CC:CC" 0 example_bus) = Ok false
  /\ dbus_calls (calls (snd (pair bluetooth0 "CC:CC:CC:CC:CC:CC" 0 example_bus)))
     = [FindDevice "/org/bluez/hci0" "CC:CC:CC:CC:CC:CC"].
Proof.
  exact (proj1 (unknown_device_gives_false bluetooth0 "CC:CC:CC:CC:CC:CC" 0
                  example_bus "/org/bluez/hci0" eq_refl
                  (Known (BluezUtilError "device not found")) eq_refl eq_refl)).
Defined.

(** ** [_pair_trust_and_notify] *)

(** After [pair], the device is trusted only when a callback was given and
    the pairing went through.  Without a callback nothing follows [pair],
    so the device is left untrusted; with one, the callback is called once,
    last, with [False] when the pairing failed and with the result of
    [trust] otherwise. *)
Theorem pairing_trusts_only_for_a_callback
    (self : t) (address : string) (b : bus) (paired : bool) :
  fst (pair self address 0 b) = Ok paired ->
  let b1 := snd (pair self address 0 b) in
  _pair_trust_and_notify self address None b = (Ok tt, b1)
  /\ (if paired
      then forall trusted b2,
             trust self address 0 b1 = (Ok trusted, b2) ->
             _pair_trust_and_notify self address (Some recording_callback) b
             = (Ok tt, record (Callback trusted) b2)
      else _pair_trust_and_notify self address (Some recording_callback) b
           = (Ok tt, record (Callback false) b1)).
Proof.
  intros Hpair b1. subst b1. unfold _pair_trust_and_notify, and_then.
  destruct (pair self address 0 b) as [r b1]. cbn [fst snd] in *. subst r.
  split; [reflexivity|].
  destruct paired; [|reflexivity].
  intros trusted b2 Htrust. now rewrite Htrust.
Qed.

Lemma pairing_trusts_only_for_a_callback_witness :
  dbus_calls (calls (snd (_pair_trust_and_notify bluetooth0 "AA:AA:AA:AA:AA:AA"
                            None example_bus)))
  = [FindDevice "/org/bluez/hci0" "AA:AA:AA:AA:AA:AA";
     Get "/org/bluez/hci0/dev_AA" "org.bluez.Device1" "Paired"].
Proof.
  destruct (pairing_trusts_only_for_a_callback bluetooth0 "AA:AA:AA:AA:AA:AA"
              example_bus true eq_refl) as [H _].
  rewrite H. reflexivity.
Defined.

(** ** Paired and connected devices among the available ones *)

(** What [_get_devices] lists for [Paired] or [Connected] (without
    [unique_values]) is always a list, and every device in it is one of the
    available devices of the same answer of BlueZ, listed no more often than
    there: a D-Bus error only makes the list shorter. *)
Theorem paired_and_connected_are_available
    (self : t) (condition : string) (encode : bool) (b : bus) :
  condition = "Paired" \/ condition = "Connected" ->
  exists devices,
    fst (_get_devices self condition encode false b) = Ok devices
    /\ forall d,
         occurrences d devices
         <= occurrences d
              match managed b (enumerations b) with
              | inl objects => flat_map (device_of_object encode) objects
              | inr _ => []
              end.
Proof.
  intros Hcond.
  destruct (get_devices_listed self condition encode b)
    as (devices & b1 & Heq & _ & _ & _ & Hbound).
  - destruct Hcond; subst; reflexivity.
  - exists devices. rewrite Heq. split; [reflexivity | exact Hbound].
Qed.

Lemma paired_and_connected_are_available_witness :
  exists devices,
    fst (_get_devices bluetooth0 "Connected" true false example_bus)
    = Ok devices
    /\ occurrences (mkDevice (Bytes "BB:BB:BB:BB:BB:BB") (Bytes "<unknown>"))
         devices <= 1.
Proof.
  destruct (paired_and_connected_are_available bluetooth0 "Connected" true
              example_bus (or_intror eq_refl)) as (devices & H & Hbound).
  exists devices. split; [exact H|].
  exact (Hbound (mkDevice (Bytes "BB:BB:BB:BB:BB:BB") (Bytes "<unknown>"))).
Defined.

(** ** [scan] *)

(** With an adapter at the given index and a time that can be slept (a
    whole number of seconds from 0 to 9223372036), [scan] returns with
    [_scan_thread] cleared whatever BlueZ answers.  [StopDiscovery] is
    called only after [StartDiscovery] was accepted and the time given was
    slept; when [StartDiscovery] is rejected neither the sleep nor
    [StopDiscovery] follows.  With a time that cannot be slept and
    [StartDiscovery] accepted, the error of [time.sleep] ([ValueError] for
    a negative time) is not caught: it leaves [scan] after
    [StartDiscovery], [StopDiscovery] is not called and [_scan_thread] is
    not cleared. *)
Theorem scan_stops_only_what_it_started
    (self : t) (timeout adapter_idx : Z) (b : bus) (adapter : string) :
  list_index (_adapters self) adapter_idx = Ok adapter ->
  let r := scan self timeout adapter_idx b in
  let start := Invoke adapter "StartDiscovery" in
  let stop := Invoke adapter "StopDiscovery" in
  let cleared := Ok (mk (_adapters self) None) in
  match rejects b start with
  | Some _ =>
      fst r = cleared
      /\ dbus_calls (calls (snd r)) = dbus_calls (calls b) ++ [start]
  | None =>
      ((0 <= timeout <= 9223372036)%Z ->
       fst r = cleared
       /\ dbus_calls (calls (snd r))
          = dbus_calls (calls b) ++ [start; Sleep timeout; stop])
      /\ ((-9223372036 <= timeout < 0)%Z ->
          fst r = Fail (ValueError "sleep length must be non-negative")
          /\ dbus_calls (calls (snd r)) = dbus_calls (calls b) ++ [start])
      /\ ((timeout < -9223372036 \/ 9223372036 < timeout)%Z ->
          fst r = Fail (Known OverflowError)
          /\ dbus_calls (calls (snd r)) = dbus_calls (calls b) ++ [start])
  end.
Proof.
  intros Hidx. cbv zeta.
  cbv [scan sleep try_or_return and_then invoke request note logger pure
       throw].
  rewrite Hidx. cbv beta iota. bus_fields.
  destruct (rejects b (Invoke adapter "StartDiscovery"));
    cbn [is_DBus]; cbv beta iota; bus_fields.
  - unfold record; bus_fields; rewrite !dbus_calls_app, <- ?app_assoc;
      cbn [dbus_calls filter is_log negb app]; rewrite ?app_nil_r.
    split; reflexivity.
  - split; [|split]; intros Htime.
    + replace ((timeout <? -9223372036)%Z || (9223372036 <? timeout)%Z)
        with false by lia.
      replace (timeout <? 0)%Z with false by lia.
      cbv beta iota. bus_fields.
      destruct (rejects b (Invoke adapter "StopDiscovery"));
        cbn [is_DBus]; cbv beta iota;
        unfold record; bus_fields; rewrite !dbus_calls_app, <- ?app_assoc;
        cbn [dbus_calls filter is_log negb app]; rewrite ?app_nil_r;
        split; reflexivity.
    + replace ((timeout <? -9223372036)%Z || (9223372036 <? timeout)%Z)
        with false by lia.
      replace (timeout <? 0)%Z with true by lia.
      cbv beta iota. cbn [is_DBus]. cbv beta iota.
      unfold record; bus_fields; rewrite !dbus_calls_app;
        cbn [dbus_calls filter is_log negb app].
      split; reflexivity.
    + replace ((timeout <? -9223372036)%Z || (9223372036 <? timeout)%Z)
        with true by lia.
      cbv beta iota. cbn [is_DBus]. cbv beta iota.
      unfold record; bus_fields; rewrite !dbus_calls_app;
        cbn [dbus_calls filter is_log negb app].
      split; reflexivity.
Qed.

Lemma scan_stops_only_what_it_started_witness :
  dbus_calls (calls (snd (scan (mk ["/org/bluez/hci0"] (Some 1)) 10 0
                            example_bus)))
  = [Invoke "/org/bluez/hci0" "StartDiscovery"; Sleep 10;
     Invoke "/org/bluez/hci0" "StopDiscovery"]
  /\ fst (scan (mk ["/org/bluez/hci0"] (Some 1)) 10 0 example_bus)
     = Ok (mk ["/org/bluez/hci0"] None).
Proof.
  destruct (scan_stops_only_what_it_started (mk ["/org/bluez/hci0"] (Some 1))
              10 0 example_bus "/org/bluez/hci0" eq_refl) as [Hslept _].
  destruct Hslept as [Hret Hcalls]; [lia|].
  split; [exact Hcalls | exact Hret].
Defined.

(** A negative time: [ValueError] leaves [scan] with the discovery
    running. *)
Example scan_negative_timeout :
  let r := scan (mk ["/org/bluez/hci0"] (Some 1)) (-1) 0 example_bus in
  fst r = Fail (ValueError "sleep length must be non-negative")
  /\ calls (snd r) = [Invoke "/org/bluez/hci0" "StartDiscovery"].
Proof. split; reflexivity. Qed.

End BluetoolFacts.
